(** * metassr-bench: the comparison harness ([compare.py]) and the
      single-target suite ([benchmark.py])

    A shallow embedding of the two Python scripts and the properties of
    their orchestration and comparison core.

    - Python [str] is [string]; a character is a code point below 256, and
      the classes [\d], [\s] and [\w] are the ones Python's [re] uses on
      that range.
    - Python [float] is a binary64 [float] (Rocq's primitive floats), and
      [float(s)] rounds the decimal it reads to the nearest binary64.
    - Python [int] is [Z].
    - Everything outside the interpreter (child processes, the clock, the
      file system) is an operating system [OS W] over a world [W]; the
      scripts run in a state and exception monad over it that records
      every interaction in a trace. *)

From Stdlib Require Import ZArith NArith List String Ascii Bool Lia DecimalString.
From Stdlib Require Import Floats.PrimFloat Floats.SpecFloat Floats.FloatOps.
Import ListNotations.

Local Open Scope string_scope.
Local Open Scope Z_scope.

(** ** Exceptions and results *)

Inductive exn : Type :=
| ValueError
| IndexError
| KeyError
| OSError
| KeyboardInterrupt
| SystemExit (code : Z).

Inductive result (A : Type) : Type :=
| Ok (a : A)
| Raise (e : exn).
Arguments Ok {A} a.
Arguments Raise {A} e.

Definition rbind {A B} (r : result A) (k : A -> result B) : result B :=
  match r with
  | Ok a => k a
  | Raise e => Raise e
  end.

Notation "'let?' x ':=' r 'in' k" := (rbind r (fun x => k))
  (at level 10, x pattern, r at level 100, k at level 200).

(** ** Characters and strings *)

Definition code (c : ascii) : N := N_of_ascii c.

Definition chr (n : N) : ascii := ascii_of_N n.

(** The line feed, and a one-character string holding it. *)
Definition LF : ascii := chr 10.
Definition nl : string := String LF "".

Definition between (lo hi : N) (c : ascii) : bool :=
  ((lo <=? code c) && (code c <=? hi))%N.

(** [\d] *)
Definition is_digit (c : ascii) : bool := between 48 57 c.

(** [\s]: the ASCII white space, the separators 28..31, NEL and the
    no-break space. *)
Definition is_space (c : ascii) : bool :=
  between 9 13 c || between 28 32 c || (code c =? 133)%N || (code c =? 160)%N.

(** [\w]: the alphanumeric characters and the underscore. *)
Definition is_word (c : ascii) : bool :=
  is_digit c || between 65 90 c || between 97 122 c || (code c =? 95)%N
  || (code c =? 170)%N || between 178 179 c || (code c =? 181)%N
  || between 185 186 c || between 188 190 c
  || between 192 214 c || between 216 246 c || between 248 255 c.

(** [[\d.]] *)
Definition is_digit_dot (c : ascii) : bool := is_digit c || (code c =? 46)%N.

(** [.] (without DOTALL): anything but a line feed. *)
Definition is_dot (c : ascii) : bool := negb (code c =? 10)%N.

(** [str.lower] on one character. *)
Definition lower_char (c : ascii) : ascii :=
  if between 65 90 c || (between 192 222 c && negb (code c =? 215)%N)
  then chr (code c + 32) else c.

Fixpoint lower (s : string) : string :=
  match s with
  | EmptyString => EmptyString
  | String c s' => String (lower_char c) (lower s')
  end.

Fixpoint all_chars (p : ascii -> bool) (s : string) : bool :=
  match s with
  | EmptyString => true
  | String c s' => p c && all_chars p s'
  end.

Definition nonempty (s : string) : bool :=
  match s with EmptyString => false | _ => true end.

(** What is left of [s] after the prefix [l], if [s] starts with it. *)
Fixpoint strip_prefix (l s : string) : option string :=
  match l with
  | EmptyString => Some s
  | String a l' =>
      match s with
      | String b s' => if Ascii.eqb a b then strip_prefix l' s' else None
      | EmptyString => None
      end
  end.

(** The first [n] characters of [s]. *)
Fixpoint take (n : nat) (s : string) : string :=
  match n, s with
  | S n', String c s' => String c (take n' s')
  | _, _ => EmptyString
  end.

(** ** Regular expressions

    The patterns of the scripts are sequences of literals, greedy [c+],
    the lazy [.*?] and capture groups; [re] matches them by backtracking,
    a greedy repetition trying its longest run first and a lazy one its
    shortest. *)

Inductive item : Type :=
| Lit (l : string)
| Plus (c : ascii -> bool)
| StarLazy (c : ascii -> bool)
| GOpen
| GClose.

Definition regex : Type := list item.

Record mstate : Type := MState {
  gstart : string;
  groups : list string
}.

Definition mstate0 : mstate := MState "" [].

Definition gopen (s : string) (st : mstate) : mstate :=
  MState s (groups st).

Definition gclose (s : string) (st : mstate) : mstate :=
  MState (gstart st)
    (groups st ++ [take (String.length (gstart st) - String.length s) (gstart st)]).

Section Backtracking.
Context {R : Type}.
Variable c : ascii -> bool.
Variable k : string -> option R.

(** [c*], longest run first, then the continuation [k]. *)
Fixpoint greedy (s : string) : option R :=
  match s with
  | String a s' =>
      if c a then
        match greedy s' with
        | Some r => Some r
        | None => k s
        end
      else k s
  | EmptyString => k s
  end.

(** [c*?], shortest run first. *)
Fixpoint lazy (s : string) : option R :=
  match k s with
  | Some r => Some r
  | None =>
      match s with
      | String a s' => if c a then lazy s' else None
      | EmptyString => None
      end
  end.
End Backtracking.

Fixpoint match_here (p : regex) (st : mstate) (s : string) : option (list string) :=
  match p with
  | [] => Some (groups st)
  | Lit l :: p' =>
      match strip_prefix l s with
      | Some s' => match_here p' st s'
      | None => None
      end
  | Plus c :: p' =>
      match s with
      | String a s' => if c a then greedy c (match_here p' st) s' else None
      | EmptyString => None
      end
  | StarLazy c :: p' => lazy c (match_here p' st) s
  | GOpen :: p' => match_here p' (gopen s st) s
  | GClose :: p' => match_here p' (gclose s st) s
  end.

(** [re.match]: at the start of [s] only. *)
Definition re_match (p : regex) (s : string) : option (list string) :=
  match_here p mstate0 s.

(** [re.search]: the leftmost position at which the pattern matches. *)
Fixpoint re_search (p : regex) (s : string) : option (list string) :=
  match match_here p mstate0 s with
  | Some g => Some g
  | None =>
      match s with
      | String _ s' => re_search p s'
      | EmptyString => None
      end
  end.

(** [m.group(i)], [i >= 1]. *)
Definition group (i : nat) (g : list string) : string := nth (i - 1) g "".

(** ** [float] and [int] on the text the patterns capture *)

Definition digit_val (c : ascii) : Z := Z.of_N (code c) - 48.

Fixpoint digits_val (acc : Z) (s : string) : Z :=
  match s with
  | EmptyString => acc
  | String c s' => digits_val (acc * 10 + digit_val c) s'
  end.

(** [s] cut at its first ['.']: what is before, and what is after if there
    is one. *)
Fixpoint split_dot (s : string) : string * option string :=
  match s with
  | EmptyString => (EmptyString, None)
  | String c s' =>
      if (code c =? 46)%N then (EmptyString, Some s')
      else let (i, f) := split_dot s' in (String c i, f)
  end.

(** [n / 10^k] rounded to the nearest binary64, ties to even. *)
Definition dec_to_float (n : Z) (k : Z) : float :=
  SF2Prim (SFdiv prec emax
     (match n with Zpos p => S754_finite false p 0 | _ => S754_zero false end)
     (match 10 ^ k with Zpos p => S754_finite false p 0 | _ => S754_zero false end)).

(** A decimal as the patterns capture it: digits with at most one ['.'] and
    at least one digit. *)
Definition is_decimal (s : string) : bool :=
  let (i, f) := split_dot s in
  match f with
  | None => all_chars is_digit i && nonempty i
  | Some f => all_chars is_digit i && all_chars is_digit f && (nonempty i || nonempty f)
  end.

Definition decimal_value (s : string) : float :=
  let (i, f) := split_dot s in
  match f with
  | None => dec_to_float (digits_val 0 i) 0
  | Some f => dec_to_float (digits_val 0 (i ++ f)) (Z.of_nat (String.length f))
  end.

(** [float(s)] for [s] over the alphabet of [[\d.]+] (the only text the
    scripts pass to it): a [ValueError] unless [s] is a decimal. *)
Definition py_float (s : string) : result float :=
  if is_decimal s then Ok (decimal_value s) else Raise ValueError.

(** [int(s)] for [s] over the alphabet of [\d+]. *)
Definition py_int (s : string) : result Z :=
  if all_chars is_digit s && nonempty s then Ok (digits_val 0 s) else Raise ValueError.

(** ** The metric extractor *)

Record metrics : Type := Metrics {
  rps : float;
  latency : string;
  latency_ms : float;
  p99 : string;
  p99_ms : float;
  requests : Z;
  errors : Z
}.

(** The record [parse_wrk] starts from.  Python holds the numbers as the
    [int] 0 until a pattern is found; 0 and 0.0 are equal, and are one
    value here.  ([json.dumps] writes the one as [0] and the other as
    [0.0]; the formats of the report print them alike.) *)
Definition metrics0 : metrics := Metrics 0 "0ms" 0 "0ms" 0 0 0.

Definition set_rps (v : float) (r : metrics) : metrics :=
  Metrics v (latency r) (latency_ms r) (p99 r) (p99_ms r) (requests r) (errors r).
Definition set_latency (l : string) (v : float) (r : metrics) : metrics :=
  Metrics (rps r) l v (p99 r) (p99_ms r) (requests r) (errors r).
Definition set_p99 (l : string) (v : float) (r : metrics) : metrics :=
  Metrics (rps r) (latency r) (latency_ms r) l v (requests r) (errors r).
Definition set_requests (n : Z) (r : metrics) : metrics :=
  Metrics (rps r) (latency r) (latency_ms r) (p99 r) (p99_ms r) n (errors r).
Definition set_errors (n : Z) (r : metrics) : metrics :=
  Metrics (rps r) (latency r) (latency_ms r) (p99 r) (p99_ms r) (requests r) n.

(** [r'([\d.]+)(\w+)'] *)
Definition re_number_unit : regex :=
  [GOpen; Plus is_digit_dot; GClose; GOpen; Plus is_word; GClose].
(** [r'Requests/sec:\s+([\d.]+)'] *)
Definition re_rps : regex :=
  [Lit "Requests/sec:"; Plus is_space; GOpen; Plus is_digit_dot; GClose].
(** [r'Latency\s+([\d.]+\w+)'] *)
Definition re_latency : regex :=
  [Lit "Latency"; Plus is_space; GOpen; Plus is_digit_dot; Plus is_word; GClose].
(** [r'99%\s+([\d.]+\w+)'] *)
Definition re_p99 : regex :=
  [Lit "99%"; Plus is_space; GOpen; Plus is_digit_dot; Plus is_word; GClose].
(** [r'(\d+)\s+requests in'] *)
Definition re_requests : regex :=
  [GOpen; Plus is_digit; GClose; Plus is_space; Lit "requests in"].
(** [r'Socket errors:.*?(\d+)'] *)
Definition re_errors : regex :=
  [Lit "Socket errors:"; StarLazy is_dot; GOpen; Plus is_digit; GClose].

(** ** The world outside the interpreter *)

(** What [subprocess.run] returns. *)
Record completed : Type := Completed {
  returncode : Z;
  stdout : string;
  stderr : string
}.

(** A call into the world comes back with a value or with an exception. *)
Inductive outcome (A : Type) : Type :=
| Returns (a : A)
| Throws (e : exn).
Arguments Returns {A} a.
Arguments Throws {A} e.

(** A [Popen] object, named by its process. *)
Definition proc : Type := N.

(** [get_system_info()]: read from the platform, not modelled further. *)
Record system_info : Type := SystemInfo {
  si_os : string;
  si_os_version : string;
  si_arch : string;
  si_cpu : string;
  si_cpu_cores : Z;
  si_memory_gb : float
}.

Class OS (W : Type) : Type := {
  (** [subprocess.run(cmd, cwd=cwd, capture_output=True)] *)
  os_run : list string -> option string -> W -> outcome completed * W;
  (** [subprocess.Popen(cmd, cwd=cwd, stdout=DEVNULL, stderr=DEVNULL)] *)
  os_popen : list string -> string -> W -> outcome proc * W;
  (** [time.sleep(secs)] *)
  os_sleep : Z -> W -> W;
  (** [proc.terminate()] *)
  os_terminate : proc -> W -> W;
  (** [proc.wait(timeout=secs)]: [true] when the process has exited within
      the time, [false] for [TimeoutExpired]. *)
  os_wait : proc -> Z -> W -> bool * W;
  (** [proc.kill()] *)
  os_kill : proc -> W -> W;
  (** [Path(p).exists()] *)
  os_exists : string -> W -> bool;
  (** [shutil.which(name)] finds something *)
  os_which : string -> W -> bool;
  (** [datetime.now()] under [strftime(fmt)], or [isoformat()] for
      [fmt = "iso"] *)
  os_now : string -> W -> string * W;
  os_system_info : W -> system_info;
  (** the directory of the script *)
  os_script_dir : string;
  (** [format(v, spec)], and [str(v)] for the empty [spec] *)
  fmt_float : string -> float -> string
}.

(** ** What the harness stores *)

(** The keys of [FRAMEWORKS]; [argparse] admits no other ([choices]). *)
Inductive fw_key : Type := metassr | nextjs.

Definition fw_key_eqb (a b : fw_key) : bool :=
  match a, b with
  | metassr, metassr | nextjs, nextjs => true
  | _, _ => false
  end.

Definition key_str (k : fw_key) : string :=
  match k with
  | metassr => "metassr"
  | nextjs => "nextjs"
  end.

(** One entry of the list [run_scenarios] returns: the scenario and the
    metrics, which the Python dict holds side by side. *)
Record scenario_result : Type := ScenarioResult {
  sr_name : string;
  sr_threads : Z;
  sr_connections : Z;
  sr_duration : Z;
  sr_metrics : metrics
}.

(** [all_results]: a dict, which keeps its keys in the order of their first
    insertion. *)
Definition dict : Type := list (fw_key * list scenario_result).

Fixpoint dict_set (k : fw_key) (v : list scenario_result) (d : dict) : dict :=
  match d with
  | [] => [(k, v)]
  | (k', v') :: d' =>
      if fw_key_eqb k k' then (k, v) :: d' else (k', v') :: dict_set k v d'
  end.

Fixpoint dict_get (k : fw_key) (d : dict) : option (list scenario_result) :=
  match d with
  | [] => None
  | (k', v') :: d' => if fw_key_eqb k k' then Some v' else dict_get k d'
  end.

Definition dict_keys (d : dict) : list fw_key := map fst d.

(** What [json.dumps] is given. *)
#[local] Unset Elimination Schemes.
Inductive json : Type :=
| JInt (z : Z)
| JFloat (f : float)
| JStr (s : string)
| JList (l : list json)
| JDict (d : list (string * json)).
#[local] Set Elimination Schemes.

(** What is written to a file: text, or [json.dumps(v, indent=2)] of a
    value [v]. *)
Inductive document : Type :=
| Text (s : string)
| JsonDumps (v : json).

(** ** Traces *)

Inductive event : Type :=
| EvRun (cmd : list string) (cwd : option string) (r : outcome completed)
| EvPopen (cmd : list string) (cwd : string) (r : outcome proc)
| EvSleep (secs : Z)
| EvTerminate (p : proc)
| EvWait (p : proc) (secs : Z) (exited : bool)
| EvKill (p : proc)
| EvPrint (text : string)
| EvLog (msg : string)
| EvError (msg : string)
| EvSuccess (msg : string)
| EvMkdir (path : string)
| EvWrite (path : string) (content : document).

(** ** The monad of the scripts: state, exceptions and a trace *)

Section Monad.
Context {W : Type}.

(** The world, what has happened so far, and the three containers
    [main] of [compare.py] fills ([all_results], [containers],
    [processes]): Python mutates them in place, so what was stored
    before an exception is still there when [finally] runs. *)
Record state : Type := State {
  world : W;
  trace : list event;
  all_results : dict;
  containers : list string;
  processes : list proc
}.

Definition M (A : Type) : Type := state -> result A * state.

Definition ret {A} (a : A) : M A := fun s => (Ok a, s).

Definition bind {A B} (m : M A) (k : A -> M B) : M B :=
  fun s =>
    match m s with
    | (Ok a, s') => k a s'
    | (Raise e, s') => (Raise e, s')
    end.

Definition raise {A} (e : exn) : M A := fun s => (Raise e, s).

(** [try: m  except: h] (a bare [except]). *)
Definition try_except {A} (m : M A) (h : M A) : M A :=
  fun s =>
    match m s with
    | (Ok a, s') => (Ok a, s')
    | (Raise _, s') => h s'
    end.

(** [try: m  finally: f]: [f] runs whatever [m] did; the exception of
    [m] goes on afterwards unless [f] raises one itself. *)
Definition try_finally {A} (m : M A) (f : M unit) : M A :=
  fun s =>
    match m s with
    | (r, s') =>
        match f s' with
        | (Ok _, s'') => (r, s'')
        | (Raise e, s'') => (Raise e, s'')
        end
    end.

Definition emit (e : event) : M unit :=
  fun s => (Ok tt, State (world s) (trace s ++ [e]) (all_results s)
                         (containers s) (processes s)).

Definition set_world (w : W) (s : state) : state :=
  State w (trace s) (all_results s) (containers s) (processes s).

Definition get {A} (f : state -> A) : M A := fun s => (Ok (f s), s).

(** [containers.append(c)] *)
Definition containers_append (c : string) : M unit :=
  fun s => (Ok tt, State (world s) (trace s) (all_results s)
                         (containers s ++ [c]) (processes s)).

(** [processes.append(p)] *)
Definition processes_append (p : proc) : M unit :=
  fun s => (Ok tt, State (world s) (trace s) (all_results s)
                         (containers s) (processes s ++ [p])).

(** [all_results[k] = v] *)
Definition all_results_set (k : fw_key) (v : list scenario_result) : M unit :=
  fun s => (Ok tt, State (world s) (trace s) (dict_set k v (all_results s))
                         (containers s) (processes s)).

Definition state0 (w : W) : state := State w [] [] [] [].
End Monad.
Arguments state W : clear implicits.
Arguments M W A : clear implicits.

Notation "x <- m ;; k" := (bind m (fun x => k))
  (at level 61, m at next level, right associativity).
Notation "m ;; k" := (bind m (fun _ => k))
  (at level 61, right associativity).

Section Primitives.
Context {W : Type} `{OS W}.

(** A pure computation that may raise, inside the monad. *)
Definition lift {A} (r : result A) : M W A := fun s => (r, s).

Definition subprocess_run (cmd : list string) (cwd : option string) : M W completed :=
  fun s =>
    let (o, w) := os_run cmd cwd (world s) in
    let s' := State w (trace s ++ [EvRun cmd cwd o]) (all_results s)
                    (containers s) (processes s) in
    match o with
    | Returns c => (Ok c, s')
    | Throws e => (Raise e, s')
    end.

Definition subprocess_Popen (cmd : list string) (cwd : string) : M W proc :=
  fun s =>
    let (o, w) := os_popen cmd cwd (world s) in
    let s' := State w (trace s ++ [EvPopen cmd cwd o]) (all_results s)
                    (containers s) (processes s) in
    match o with
    | Returns p => (Ok p, s')
    | Throws e => (Raise e, s')
    end.

Definition time_sleep (secs : Z) : M W unit :=
  fun s => (Ok tt, State (os_sleep secs (world s)) (trace s ++ [EvSleep secs])
                         (all_results s) (containers s) (processes s)).

Definition proc_terminate (p : proc) : M W unit :=
  fun s => (Ok tt, State (os_terminate p (world s)) (trace s ++ [EvTerminate p])
                         (all_results s) (containers s) (processes s)).

Definition proc_kill (p : proc) : M W unit :=
  fun s => (Ok tt, State (os_kill p (world s)) (trace s ++ [EvKill p])
                         (all_results s) (containers s) (processes s)).

(** [proc.wait(timeout=secs)]; [true] stands for a normal return and
    [false] for [subprocess.TimeoutExpired], the one exception the
    script catches there. *)
Definition proc_wait (p : proc) (secs : Z) : M W bool :=
  fun s =>
    let (b, w) := os_wait p secs (world s) in
    (Ok b, State w (trace s ++ [EvWait p secs b]) (all_results s)
                 (containers s) (processes s)).

Definition path_exists (p : string) : M W bool :=
  fun s => (Ok (os_exists p (world s)), s).

Definition shutil_which (name : string) : M W bool :=
  fun s => (Ok (os_which name (world s)), s).

Definition datetime_now (fmt : string) : M W string :=
  fun s => let (t, w) := os_now fmt (world s) in (Ok t, set_world w s).

(** [print(text)], and [log(msg)], [error(msg)] and [success(msg)],
    which print [msg] after a coloured tag, [error] to [stderr]: the
    trace records the call and its message. *)
Definition print (text : string) : M W unit := emit (EvPrint text).
Definition log (msg : string) : M W unit := emit (EvLog msg).
Definition error (msg : string) : M W unit := emit (EvError msg).
Definition success (msg : string) : M W unit := emit (EvSuccess msg).

(** [for x in l: body(x)] *)
Fixpoint for_each {A} (l : list A) (body : A -> M W unit) : M W unit :=
  match l with
  | [] => ret tt
  | x :: l' => body x ;; for_each l' body
  end.

(** [for _ in range(n): body] *)
Fixpoint repeat_n (n : nat) (body : M W unit) : M W unit :=
  match n with
  | O => ret tt
  | S n' => body ;; repeat_n n' body
  end.
End Primitives.

(** [str(n)] for an [int]. *)
Definition str_of_Z (n : Z) : string :=
  DecimalString.NilZero.string_of_int (Z.to_int n).

(** [s[-n:]] for [n > 0]: the last [n] characters of [s], all of it when
    it is shorter. *)
Fixpoint drop (n : nat) (s : string) : string :=
  match n, s with
  | S n', String _ s' => drop n' s'
  | _, _ => s
  end.
Definition last_chars (n : nat) (s : string) : string :=
  drop (String.length s - n) s.

(** [a / b] on paths. *)
Definition path_join (a b : string) : string := a ++ "/" ++ b.

(** ** [compare.py] *)

Module Compare.

(** [class C]: the colours of the terminal. *)
Module C.
Definition ESC : string := String (ascii_of_nat 27) "".
Definition R : string := ESC ++ "[0;31m".
Definition G : string := ESC ++ "[0;32m".
Definition Y : string := ESC ++ "[1;33m".
Definition B : string := ESC ++ "[0;34m".
Definition NC : string := ESC ++ "[0m".
End C.

(** [SCENARIOS]: name, threads, connections, duration. *)
Definition SCENARIOS : list (string * Z * Z * Z) :=
  [ ("Light", 1, 10, 5);
    ("Medium", 4, 50, 5);
    ("Heavy", 8, 200, 5);
    ("Stress", 12, 500, 5) ].

Record framework : Type := Framework {
  name : string;
  port : Z;
  docker_image : string;
  dockerfile : string;
  app_dir : string
}.

Definition FRAMEWORKS (k : fw_key) : framework :=
  match k with
  | metassr => Framework "MetaSSR" 8080 "metassr-bench" "Dockerfile.metassr" "metassr-app"
  | nextjs => Framework "Next.js" 3001 "nextjs-bench" "Dockerfile.nextjs" "nextjs-app"
  end.

(** The command line, as [argparse] hands it over. *)
Record args : Type := Args {
  frameworks : list fw_key;
  output : string;
  docker : bool;
  skip_build : bool
}.

(** [parse_latency_ms] *)
Definition parse_latency_ms (s : string) : result float :=
  if negb (nonempty s) then Ok 0%float
  else
    match re_match re_number_unit s with
    | None => Ok 0%float
    | Some m =>
        let? v := py_float (group 1 m) in
        let u := lower (group 2 m) in
        if String.eqb u "us" then Ok (v / 1000)%float
        else if String.eqb u "ms" then Ok v
        else if String.eqb u "s" then Ok (v * 1000)%float
        else Ok v
    end.

(** [parse_wrk] *)
Definition parse_wrk (output : string) : result metrics :=
  let r := metrics0 in
  let? r :=
    match re_search re_rps output with
    | Some m => let? v := py_float (group 1 m) in Ok (set_rps v r)
    | None => Ok r
    end in
  let? r :=
    match re_search re_latency output with
    | Some m =>
        let? v := parse_latency_ms (group 1 m) in
        Ok (set_latency (group 1 m) v r)
    | None => Ok r
    end in
  let? r :=
    match re_search re_p99 output with
    | Some m =>
        let? v := parse_latency_ms (group 1 m) in
        Ok (set_p99 (group 1 m) v r)
    | None => Ok r
    end in
  let? r :=
    match re_search re_requests output with
    | Some m => let? n := py_int (group 1 m) in Ok (set_requests n r)
    | None => Ok r
    end in
  let? r :=
    match re_search re_errors output with
    | Some m => let? n := py_int (group 1 m) in Ok (set_errors n r)
    | None => Ok r
    end in
  Ok r.

(** [pct_diff]; the [0] of the first branch is the [int], which prints
    as the [float] does under ['.1f']. *)
Definition pct_diff (a b : float) : float :=
  if PrimFloat.eqb b 0 then 0%float
  else (((a - b) / b) * 100)%float.

Section WithOS.
Context {W : Type} `{OS W}.

Definition COMPARE_DIR : string := path_join os_script_dir "apps".
Definition PROJECT_ROOT : string := os_script_dir.

(** The probe of [wait_for]. *)
Definition curl_probe (url : string) : list string :=
  ["curl"; "-s"; "--max-time"; "2"; url].

(** [wait_for], the loop over [range(n)]: [Some true] is the
    [return True] from inside the [try]. *)
Fixpoint wait_for_loop (url : string) (n : nat) : M W bool :=
  match n with
  | O => ret false
  | S n' =>
      hit <- try_except
               (r <- subprocess_run (curl_probe url) None ;;
                if returncode r =? 0 then ret true else ret false)
               (ret false) ;;
      if hit : bool then ret true
      else time_sleep 1 ;; wait_for_loop url n'
  end.

(** [wait_for(url, timeout)] *)
Definition wait_for (url : string) (timeout : Z) : M W bool :=
  wait_for_loop url (Z.to_nat timeout).

(** [check_deps(use_docker)] *)
Definition check_deps (use_docker : bool) : M W unit :=
  m1 <- (r <- subprocess_run ["which"; "wrk"] None ;;
         ret (if returncode r =? 0 then [] else ["wrk"])) ;;
  m2 <- (r <- subprocess_run ["which"; "curl"] None ;;
         ret (if returncode r =? 0 then [] else ["curl"])) ;;
  m3 <- (if use_docker then
           r <- subprocess_run ["which"; "docker"] None ;;
           ret (if returncode r =? 0 then [] else ["docker"])
         else ret []) ;;
  let missing := (m1 ++ m2 ++ m3)%list in
  match missing with
  | [] => ret tt
  | _ => error ("Missing: " ++ String.concat ", " missing) ;; raise (SystemExit 1)
  end.

(** [docker_build(fw_key)] *)
Definition docker_build (k : fw_key) : M W bool :=
  let fw := FRAMEWORKS k in
  log ("Building Docker image for " ++ name fw ++ "...") ;;
  r <- subprocess_run
         ["docker"; "build"; "-t"; docker_image fw;
          "-f"; path_join COMPARE_DIR (dockerfile fw); COMPARE_DIR] None ;;
  if negb (returncode r =? 0) then
    error ("Docker build failed for " ++ name fw ++ ":" ++ nl
           ++ last_chars 500 (stderr r)) ;;
    ret false
  else ret true.

Definition container_of (fw : framework) : string := docker_image fw ++ "-run".

Definition docker_rm (container : string) : list string :=
  ["docker"; "rm"; "-f"; container].

Definition docker_run (fw : framework) : list string :=
  ["docker"; "run"; "-d"; "--name"; container_of fw;
   "-p"; str_of_Z (port fw) ++ ":" ++ str_of_Z (port fw); docker_image fw].

(** [docker_start(fw)]: [None] when the container did not start. *)
Definition docker_start (fw : framework) : M W (option string) :=
  let container := container_of fw in
  subprocess_run (docker_rm container) None ;;
  log ("Starting Docker container for " ++ name fw ++ " on port "
       ++ str_of_Z (port fw) ++ "...") ;;
  r <- subprocess_run (docker_run fw) None ;;
  if negb (returncode r =? 0) then
    error ("Docker start failed for " ++ name fw ++ ":" ++ nl ++ stderr r) ;;
    ret None
  else ret (Some container).

(** [docker_stop(container)]; [None] and the empty string are false. *)
Definition docker_stop (container : option string) : M W unit :=
  match container with
  | Some c =>
      if nonempty c then subprocess_run (docker_rm c) None ;; ret tt
      else ret tt
  | None => ret tt
  end.

(** [local_build(fw_key)] *)
Definition local_build (k : fw_key) : M W bool :=
  let fw := FRAMEWORKS k in
  let dir := path_join COMPARE_DIR (app_dir fw) in
  there <- path_exists dir ;;
  if negb there then
    error ("App directory not found: " ++ dir) ;; ret false
  else
    log ("Installing " ++ name fw ++ " dependencies...") ;;
    r <- subprocess_run ["npm"; "install"] (Some dir) ;;
    if negb (returncode r =? 0) then
      error ("npm install failed for " ++ name fw ++ ":" ++ nl
             ++ last_chars 300 (stderr r)) ;;
      ret false
    else
      match k with
      | metassr =>
          metassr_bin <- shutil_which "metassr" ;;
          built <- (if negb metassr_bin then
                      log "Building MetaSSR from source..." ;;
                      r <- subprocess_run ["cargo"; "build"; "--release"]
                             (Some PROJECT_ROOT) ;;
                      if negb (returncode r =? 0) then
                        error ("MetaSSR build failed:" ++ nl
                               ++ last_chars 300 (stderr r)) ;;
                        ret false
                      else ret true
                    else ret true) ;;
          if negb built then ret false
          else
            log "Building MetaSSR app..." ;;
            r <- subprocess_run ["npm"; "run"; "build"] (Some dir) ;;
            if negb (returncode r =? 0) then
              error ("MetaSSR app build failed:" ++ nl
                     ++ last_chars 300 (stderr r)) ;;
              ret false
            else ret true
      | nextjs =>
          has_next <- path_exists (path_join dir ".next") ;;
          if negb has_next then
            log "Building Next.js app..." ;;
            r <- subprocess_run ["npm"; "run"; "build"] (Some dir) ;;
            if negb (returncode r =? 0) then
              error ("Next.js build failed:" ++ nl
                     ++ last_chars 300 (stderr r)) ;;
              ret false
            else ret true
          else ret true
      end.

(** [local_start(fw_key)] *)
Definition local_start (k : fw_key) : M W proc :=
  let fw := FRAMEWORKS k in
  let dir := path_join COMPARE_DIR (app_dir fw) in
  log ("Starting " ++ name fw ++ " server on port " ++ str_of_Z (port fw) ++ "...") ;;
  subprocess_Popen ["npm"; "start"] dir.

Definition wrk_cmd (threads conns dur : Z) (url : string) : list string :=
  ["wrk"; "-t" ++ str_of_Z threads; "-c" ++ str_of_Z conns;
   "-d" ++ str_of_Z dur ++ "s"; "--latency"; url].

(** [run_scenarios], the loop over a list of scenarios with [results]
    as the accumulator; the first [print] ends without a new line. *)
Fixpoint run_scenarios_loop (url : string) (scs : list (string * Z * Z * Z))
    (results : list scenario_result) : M W (list scenario_result) :=
  match scs with
  | [] => ret results
  | (sname, threads, conns, dur) :: scs' =>
      print ("  " ++ C.Y ++ "[" ++ sname ++ "]" ++ C.NC
             ++ " t=" ++ str_of_Z threads ++ " c=" ++ str_of_Z conns
             ++ " d=" ++ str_of_Z dur ++ "s ... ") ;;
      r <- subprocess_run (wrk_cmd threads conns dur url) None ;;
      m <- lift (parse_wrk (stdout r ++ stderr r)) ;;
      print (fmt_float ".0f" (rps m) ++ " RPS | " ++ latency m ++ " avg | "
             ++ p99 m ++ " p99") ;;
      run_scenarios_loop url scs'
        (results ++ [ScenarioResult sname threads conns dur m])
  end.

(** [run_scenarios(url)] *)
Definition run_scenarios (url : string) : M W (list scenario_result) :=
  run_scenarios_loop url SCENARIOS [].

Definition url_of (fw : framework) : string :=
  "http://localhost:" ++ str_of_Z (port fw).

(** [main], the loop body from [log("Waiting for ...")] on: what runs
    once the target is up or assumed to be. *)
Definition measure (k : fw_key) : M W unit :=
  let fw := FRAMEWORKS k in
  let url := url_of fw in
  log ("Waiting for " ++ name fw ++ "...") ;;
  ready <- wait_for url 60 ;;
  if negb ready then
    error (name fw ++ " did not start, skipping")
  else
    log "Warming up..." ;;
    repeat_n 10 (subprocess_run ["curl"; "-s"; url] None ;; ret tt) ;;
    time_sleep 2 ;;
    log ("Benchmarking " ++ name fw ++ "...") ;;
    rs <- run_scenarios url ;;
    all_results_set k rs ;;
    success (name fw ++ " benchmarks complete").

(** [main], one turn of the loop over [args.frameworks]; a [continue]
    ends the turn. *)
Definition process_target (a : args) (k : fw_key) : M W unit :=
  let fw := FRAMEWORKS k in
  let url := url_of fw in
  print (nl ++ C.B ++ "--- " ++ name fw ++ " ---" ++ C.NC) ;;
  if docker a then
    built <- docker_build k ;;
    if negb built then error ("Skipping " ++ name fw)
    else
      container <- docker_start fw ;;
      match container with
      | None => error ("Skipping " ++ name fw)
      | Some c => containers_append c ;; measure k
      end
  else
    up <- wait_for url 2 ;;
    if up then
      log (name fw ++ " already running on port " ++ str_of_Z (port fw)) ;;
      measure k
    else
      built <- (if negb (skip_build a) then local_build k else ret true) ;;
      if negb built then error ("Skipping " ++ name fw)
      else
        p <- local_start k ;;
        processes_append p ;;
        measure k.

(** [main], the body of the second loop of [finally]. *)
Definition stop_process (p : proc) : M W unit :=
  proc_terminate p ;;
  exited <- proc_wait p 5 ;;
  if exited : bool then ret tt else proc_kill p.

(** [main], the [finally] block. *)
Definition cleanup : M W unit :=
  log "Cleaning up..." ;;
  cs <- get containers ;;
  for_each cs (fun c => docker_stop (Some c)) ;;
  ps <- get processes ;;
  for_each ps stop_process.

(** [main], the [try] statement. *)
Definition main_try (a : args) : M W unit :=
  try_finally (for_each (frameworks a) (process_target a)) cleanup.

(** One row of a head-to-head table of [generate_report]: the three
    differences and the winner, [m] being the entry of MetaSSR and [o]
    the one of the other framework. *)
Record comparison : Type := Comparison {
  rps_d : float;
  lat_d : float;
  p99_d : float;
  rps_winner : string
}.

Definition compare_row (k : fw_key) (m o : scenario_result) : comparison :=
  Comparison
    (pct_diff (rps (sr_metrics m)) (rps (sr_metrics o)))
    (pct_diff (latency_ms (sr_metrics m)) (latency_ms (sr_metrics o)))
    (pct_diff (p99_ms (sr_metrics m)) (p99_ms (sr_metrics o)))
    (if PrimFloat.leb (rps (sr_metrics o)) (rps (sr_metrics m))
     then "MetaSSR" else name (FRAMEWORKS k)).

(** [f"{'+' if d >= 0 else ''}{d:.1f}%"] *)
Definition signed_pct (d : float) : string :=
  (if PrimFloat.leb 0 d then "+" else "") ++ fmt_float ".1f" d ++ "%".

Definition row_text (sname : string) (c : comparison) : string :=
  "| " ++ sname ++ " | " ++ signed_pct (rps_d c) ++ " | " ++ signed_pct (lat_d c)
  ++ " | " ++ signed_pct (p99_d c) ++ " | " ++ rps_winner c ++ " |" ++ nl.

(** [l[i]] *)
Definition index {A} (l : list A) (i : nat) : result A :=
  match nth_error l i with
  | Some x => Ok x
  | None => Raise IndexError
  end.

(** [generate_report], the rows of one head-to-head table:
    [for i, (sname, _, _, _) in enumerate(SCENARIOS)], from [i] on. *)
Fixpoint head_to_head_rows (k : fw_key) (i : nat) (scs : list (string * Z * Z * Z))
    (metassr_data other_data : list scenario_result) : result string :=
  match scs with
  | [] => Ok ""
  | (sname, _, _, _) :: scs' =>
      let? m := index metassr_data i in
      let? o := index other_data i in
      let? rest := head_to_head_rows k (S i) scs' metassr_data other_data in
      Ok (row_text sname (compare_row k m o) ++ rest)
  end.

(** [d[k]] *)
Definition dict_index (d : dict) (k : fw_key) : result (list scenario_result) :=
  match dict_get k d with
  | Some v => Ok v
  | None => Raise KeyError
  end.

(** [generate_report], the head-to-head tables: [for fw_key in fw_names]. *)
Fixpoint head_to_head_tables (fw_names : list fw_key) (res : dict)
    (metassr_data : list scenario_result) : result string :=
  match fw_names with
  | [] => Ok ""
  | k :: rest =>
      if fw_key_eqb k metassr then head_to_head_tables rest res metassr_data
      else
        let? other_data := dict_index res k in
        let? rows := head_to_head_rows k 0 SCENARIOS metassr_data other_data in
        let? more := head_to_head_tables rest res metassr_data in
        Ok (nl ++ "### MetaSSR vs " ++ name (FRAMEWORKS k) ++ nl ++ nl
            ++ "| Scenario | RPS Diff | Latency Diff | P99 Diff | Winner |" ++ nl
            ++ "|----------|----------|-------------|----------|--------|" ++ nl
            ++ rows
            ++ nl ++ "Positive RPS diff = MetaSSR faster. Negative latency diff = MetaSSR faster."
            ++ nl ++ more)
  end.

(** [generate_report], the head-to-head section. *)
Definition head_to_head (res : dict) : result string :=
  let fw_names := dict_keys res in
  match dict_get metassr res with
  | Some metassr_data =>
      if (1 <? List.length fw_names)%nat then
        let? tables := head_to_head_tables fw_names res metassr_data in
        Ok (nl ++ "## Head-to-Head" ++ nl ++ tables)
      else Ok ""
  | None => Ok ""
  end.

Definition metrics_json (name : string) (threads conns dur : Z) (m : metrics)
    : json :=
  JDict [ ("name", JStr name); ("threads", JInt threads);
          ("connections", JInt conns); ("duration", JInt dur);
          ("rps", JFloat (rps m)); ("latency", JStr (latency m));
          ("latency_ms", JFloat (latency_ms m)); ("p99", JStr (p99 m));
          ("p99_ms", JFloat (p99_ms m)); ("requests", JInt (requests m));
          ("errors", JInt (errors m)) ].

Definition result_json (r : scenario_result) : json :=
  metrics_json (sr_name r) (sr_threads r) (sr_connections r) (sr_duration r)
               (sr_metrics r).

Definition system_info_json (si : system_info) : json :=
  JDict [ ("os", JStr (si_os si)); ("os_version", JStr (si_os_version si));
          ("arch", JStr (si_arch si)); ("cpu", JStr (si_cpu si));
          ("cpu_cores", JInt (si_cpu_cores si));
          ("memory_gb", JFloat (si_memory_gb si)) ].

(** [generate_report], the value given to [json.dumps] for
    [report.json]. *)
Definition snapshot (timestamp : string) (si : system_info) (use_docker : bool)
    (res : dict) : json :=
  JDict [ ("timestamp", JStr timestamp);
          ("system", system_info_json si);
          ("mode", JStr (if use_docker then "docker" else "local"));
          ("frameworks",
           JDict (map (fun kv => (key_str (fst kv), JList (map result_json (snd kv))))
                      res)) ].

(** The sections of the report before the head-to-head one (the
    header, the charts, the tables per scenario and the summary), as
    text; no property below depends on them. *)
Variable report_sections : dict -> system_info -> bool -> string.

(** [generate_report(all_results, output_dir, system_info, use_docker)] *)
Definition generate_report (res : dict) (output_dir : string) (si : system_info)
    (use_docker : bool) : M W string :=
  h2h <- lift (head_to_head res) ;;
  let report := report_sections res si use_docker ++ h2h in
  stamp <- datetime_now "%Y-%m-%d-%H-%M-%S" ;;
  let output_dir := path_join output_dir stamp in
  emit (EvMkdir output_dir) ;;
  emit (EvWrite (path_join output_dir "report.md") (Text report)) ;;
  timestamp <- datetime_now "iso" ;;
  emit (EvWrite (path_join output_dir "report.json")
                (JsonDumps (snapshot timestamp si use_docker res))) ;;
  print ("Reports Saved to " ++ output_dir) ;;
  ret report.

(** [main()], after [parse_args]. *)
Definition main (a : args) : M W unit :=
  print (C.B ++ "=== MetaSSR Framework Comparison ===" ++ C.NC) ;;
  check_deps (docker a) ;;
  si <- get (fun s => os_system_info (world s)) ;;
  log ("System: " ++ si_os si ++ " " ++ si_arch si ++ ", "
       ++ str_of_Z (si_cpu_cores si) ++ " cores, "
       ++ fmt_float "" (si_memory_gb si) ++ "GB RAM") ;;
  log ("Mode: " ++ (if docker a then "Docker" else "Local")) ;;
  log ("Frameworks: "
       ++ String.concat ", " (map (fun k => name (FRAMEWORKS k)) (frameworks a))) ;;
  let output_dir := path_join PROJECT_ROOT (output a) in
  main_try a ;;
  res <- get all_results ;;
  match res with
  | [] => error "No benchmark results collected" ;; raise (SystemExit 1)
  | _ => generate_report res output_dir si (docker a) ;; ret tt
  end.

End WithOS.
End Compare.

(** ** [benchmark.py] *)

Module Benchmark.

(** [SCENARIOS] *)
Definition SCENARIOS : list (string * Z * Z * Z) :=
  [ ("Light", 1, 10, 20);
    ("Medium", 4, 50, 40);
    ("Heavy", 8, 200, 80);
    ("Stress", 12, 500, 120) ].

(** [parse_latency_ms] *)
Definition parse_latency_ms (latency_str : string) : result float :=
  if negb (nonempty latency_str) then Ok 0%float
  else
    match re_match re_number_unit latency_str with
    | None => Ok 0%float
    | Some m =>
        let? value := py_float (group 1 m) in
        let unit := lower (group 2 m) in
        if String.eqb unit "us" then Ok (value / 1000)%float
        else if String.eqb unit "ms" then Ok value
        else if String.eqb unit "s" then Ok (value * 1000)%float
        else Ok value
    end.

(** [parse_wrk_output] *)
Definition parse_wrk_output (output : string) : result metrics :=
  let result := metrics0 in
  let? result :=
    match re_search re_rps output with
    | Some m => let? v := py_float (group 1 m) in Ok (set_rps v result)
    | None => Ok result
    end in
  let? result :=
    match re_search re_latency output with
    | Some m =>
        let? v := parse_latency_ms (group 1 m) in
        Ok (set_latency (group 1 m) v result)
    | None => Ok result
    end in
  let? result :=
    match re_search re_p99 output with
    | Some m =>
        let? v := parse_latency_ms (group 1 m) in
        Ok (set_p99 (group 1 m) v result)
    | None => Ok result
    end in
  let? result :=
    match re_search re_requests output with
    | Some m => let? n := py_int (group 1 m) in Ok (set_requests n result)
    | None => Ok result
    end in
  let? result :=
    match re_search re_errors output with
    | Some m => let? n := py_int (group 1 m) in Ok (set_errors n result)
    | None => Ok result
    end in
  Ok result.

Section WithOS.
Context {W : Type} `{OS W}.

(** [wait_for_server], the loop over [range(n)]. *)
Fixpoint wait_for_server_loop (url : string) (n : nat) : M W bool :=
  match n with
  | O => ret false
  | S n' =>
      hit <- try_except
               (result <- subprocess_run ["curl"; "-s"; "--max-time"; "2"; url] None ;;
                if returncode result =? 0 then ret true else ret false)
               (ret false) ;;
      if hit : bool then ret true
      else time_sleep 1 ;; wait_for_server_loop url n'
  end.

(** [wait_for_server(url, timeout)] *)
Definition wait_for_server (url : string) (timeout : Z) : M W bool :=
  log ("Waiting for server at " ++ url ++ "...") ;;
  hit <- wait_for_server_loop url (Z.to_nat timeout) ;;
  if hit : bool then ret true
  else error "Server not responding" ;; ret false.

End WithOS.
End Benchmark.

(** ** A machine to run the scripts on

    One world to evaluate the scripts in: it counts the commands run,
    keeps the containers that are up and the child processes that are
    alive, and answers each command as a script tells it to. *)

Record machine : Type := Machine {
  m_calls : nat;
  m_containers : list string;
  m_alive : list proc;
  m_next_pid : N
}.

Record script : Type := Script {
  (** what the [n]-th command, [cmd], comes back with *)
  sc_run : nat -> list string -> outcome completed;
  (** whether [Popen] can start its command *)
  sc_popen : bool;
  (** the processes that ignore [terminate()] *)
  sc_stubborn : proc -> bool;
  sc_exists : string -> bool;
  sc_which : string -> bool
}.

Definition remove_str (x : string) (l : list string) : list string :=
  filter (fun y => negb (String.eqb x y)) l.

Definition remove_proc (p : proc) (l : list proc) : list proc :=
  filter (fun q => negb (N.eqb p q)) l.

(** What a command does to the containers: [docker rm -f c] takes [c]
    down, a [docker run -d --name c ...] that succeeds brings it up. *)
Definition docker_effect (cmd : list string) (o : outcome completed)
    (cs : list string) : list string :=
  match cmd, o with
  | [d; r; f; c], Returns _ =>
      if String.eqb d "docker" && String.eqb r "rm" && String.eqb f "-f"
      then remove_str c cs else cs
  | d :: r :: _ :: _ :: c :: _, Returns res =>
      if String.eqb d "docker" && String.eqb r "run" && (returncode res =? 0)
      then (remove_str c cs ++ [c])%list else cs
  | _, _ => cs
  end.

Definition machine_os (sc : script) : OS machine := {|
  os_run := fun cmd _ w =>
    let o := sc_run sc (m_calls w) cmd in
    (o, Machine (S (m_calls w)) (docker_effect cmd o (m_containers w))
                (m_alive w) (m_next_pid w));
  os_popen := fun _ _ w =>
    if sc_popen sc then
      (Returns (m_next_pid w),
       Machine (m_calls w) (m_containers w) (m_alive w ++ [m_next_pid w])
               (m_next_pid w + 1)%N)
    else (Throws OSError, w);
  os_sleep := fun _ w => w;
  os_terminate := fun p w =>
    if sc_stubborn sc p then w
    else Machine (m_calls w) (m_containers w) (remove_proc p (m_alive w)) (m_next_pid w);
  os_wait := fun p _ w => (negb (existsb (N.eqb p) (m_alive w)), w);
  os_kill := fun p w =>
    Machine (m_calls w) (m_containers w) (remove_proc p (m_alive w)) (m_next_pid w);
  os_exists := fun p _ => sc_exists sc p;
  os_which := fun n _ => sc_which sc n;
  os_now := fun fmt w =>
    (if String.eqb fmt "iso" then "2024-01-01T00:00:00" else "2024-01-01-00-00-00", w);
  os_system_info := fun _ => SystemInfo "Linux" "6.1" "x86_64" "cpu" 8 16;
  os_script_dir := "/bench";
  fmt_float := fun _ _ => "#"
|}.

Definition machine0 : machine := Machine 0 [] [] 100.



Definition head_is (x : string) (cmd : list string) : bool :=
  match cmd with
  | c :: _ => String.eqb c x
  | [] => false
  end.

(** What [wrk] prints for a run with socket errors. *)
Definition wrk_output : string :=
  "Running 5s test @ http://localhost:8080" ++ nl ++
  "  1 threads and 10 connections" ++ nl ++
  "  Thread Stats   Avg      Stdev     Max   +/- Stdev" ++ nl ++
  "    Latency   250.00us  100.00us   5.00ms   90.00%" ++ nl ++
  "    Req/Sec    40.00k     2.00k   45.00k    70.00%" ++ nl ++
  "  Latency Distribution" ++ nl ++
  "     50%  230.00us" ++ nl ++
  "     75%  280.00us" ++ nl ++
  "     90%  350.00us" ++ nl ++
  "     99%    1.20ms" ++ nl ++
  "  200000 requests in 5.00s, 30.00MB read" ++ nl ++
  "  Socket errors: connect 3, read 5, write 0, timeout 12" ++ nl ++
  "Requests/sec:  40000.25" ++ nl ++
  "Transfer/sec:      6.00MB" ++ nl.

(** Every command succeeds, and [wrk] prints [wrk_output]. *)
Definition all_good : script :=
  Script (fun _ cmd => Returns (Completed 0 (if head_is "wrk" cmd then wrk_output else "") ""))
         true (fun _ => false) (fun _ => true) (fun _ => true).

Definition good_os : OS machine := machine_os all_good.

(** No server answers before the harness has started one, and the
    processes it starts ignore [terminate()]. *)
Definition cold_start : script :=
  Script (fun n cmd =>
            if (n <? 4)%nat && head_is "curl" cmd then Returns (Completed 7 "" "")
            else Returns (Completed 0 (if head_is "wrk" cmd then wrk_output else "") ""))
         true (fun _ => true) (fun _ => true) (fun _ => true).

Definition cold_os : OS machine := machine_os cold_start.

(** The image of Next.js cannot be built; every other command succeeds. *)
Definition nextjs_build_fails : script :=
  Script (fun _ cmd =>
            match cmd with
            | d :: b :: _ :: image :: _ =>
                if String.eqb d "docker" && String.eqb b "build"
                   && String.eqb image "nextjs-bench"
                then Returns (Completed 1 "" "no space left on device")
                else Returns (Completed 0 (if head_is "wrk" cmd then wrk_output else "") "")
            | _ => Returns (Completed 0 "" "")
            end)
         true (fun _ => false) (fun _ => true) (fun _ => true).

Definition half_os : OS machine := machine_os nextjs_build_fails.

(** ** Predicates of the statements *)

(** [s] does not go on with a character of the class [c]. *)
Definition stops (c : ascii -> bool) (s : string) : bool :=
  match s with
  | EmptyString => true
  | String a _ => negb (c a)
  end.






(** A probe succeeds when [curl] comes back with the return code 0. *)
Definition probe_ok (o : outcome completed) : bool :=
  match o with
  | Returns c => returncode c =? 0
  | Throws _ => false
  end.

(** What a run of failed probes leaves in the trace: each probe, with what
    came back, and the second slept after it. *)
Definition failed_probes (cmd : list string) (os : list (outcome completed))
    : list event :=
  flat_map (fun o => [EvRun cmd None o; EvSleep 1]) os.

(** ** Handles in a trace *)

(** The container that a [docker run -d --name c ...] which succeeded has
    started. *)
Definition started (e : event) : option string :=
  match e with
  | EvRun (d :: r :: _ :: _ :: c :: _) _ (Returns res) =>
      if String.eqb d "docker" && String.eqb r "run" && (returncode res =? 0)
      then Some c else None
  | _ => None
  end.

(** The process that a [Popen] has spawned. *)
Definition spawned (e : event) : option proc :=
  match e with
  | EvPopen _ _ (Returns p) => Some p
  | _ => None
  end.


(** [terminate], [wait] and [kill]. *)
Definition proc_stop (e : event) : bool :=
  match e with
  | EvTerminate _ | EvWait _ _ _ | EvKill _ => true
  | _ => false
  end.

(** An event that creates no handle. *)
Definition no_handle (e : event) : bool :=
  match started e, spawned e with
  | None, None => true
  | _, _ => false
  end.


(** An event of the cleanup phase: a [docker rm -f], or a step of the stop
    of a process. *)
Definition teardown (e : event) : bool :=
  proc_stop e ||
  match e with
  | EvRun [d; r; f; _] _ _ =>
      String.eqb d "docker" && String.eqb r "rm" && String.eqb f "-f"
  | _ => false
  end.


Definition completed_event (k : fw_key) : event :=
  EvSuccess (Compare.name (Compare.FRAMEWORKS k) ++ " benchmarks complete").




(** The names of the scenarios, in the order of the matrix. *)
Definition scenario_names (scs : list (string * Z * Z * Z)) : list string :=
  map (fun sc => fst (fst (fst sc))) scs.

Section Steps.
Context {W : Type}.

(** The three containers of [main]. *)
Definition vars (s : state W) : dict * list string * list proc :=
  (all_results s, containers s, processes s).

(** From [s] to [s'] the trace has grown by events that satisfy [P], and
    the containers of [main] have changed within [F]. *)
Definition ext (P : event -> Prop)
    (F : dict * list string * list proc -> dict * list string * list proc -> Prop)
    (s s' : state W) : Prop :=
  exists evs, trace s' = (trace s ++ evs)%list /\ Forall P evs /\ F (vars s) (vars s').

(** Whatever it returns, [m] moves the state within [R]. *)
Definition respects (R : state W -> state W -> Prop) {A} (m : M W A) : Prop :=
  forall s, R s (snd (m s)).

(** Every handle the trace has seen created is in [containers] or in
    [processes], and no name in [containers] is empty. *)
Definition tracked (s : state W) : Prop :=
  (forall e c, In e (trace s) -> started e = Some c -> In c (containers s)) /\
  (forall e p, In e (trace s) -> spawned e = Some p -> In p (processes s)) /\
  Forall (fun c => nonempty c = true) (containers s).


(** Keeping the handles tracked. *)
Definition keeps_tracked (s s' : state W) : Prop := tracked s -> tracked s'.


(** Every list of results that is stored is named as the scenarios are,
    and was stored for a target whose benchmarks the trace says are
    complete. *)
Definition results_ok (s : state W) : Prop :=
  forall k rs,
    dict_get k (all_results s) = Some rs ->
    map sr_name rs = scenario_names Compare.SCENARIOS /\
    In (completed_event k) (trace s).

Definition keeps_results_ok (s s' : state W) : Prop := results_ok s -> results_ok s'.


End Steps.

(** The frames of [ext]: anything goes, the dict of results is kept,
    the two lists of handles are kept. *)
Definition any_frame (v v' : dict * list string * list proc) : Prop := True.

Definition same_results (v v' : dict * list string * list proc) : Prop :=
  fst (fst v') = fst (fst v).

Definition same_handles (v v' : dict * list string * list proc) : Prop :=
  snd (fst v') = snd (fst v) /\ snd v' = snd v.


(** The container runtime can be executed: a [docker rm -f] comes back
    with a return code, whatever it is. *)
Definition docker_rm_returns {W : Type} `{OS W} : Prop :=
  forall c w, exists r, fst (os_run (Compare.docker_rm c) None w) = Returns r.

(** ** Predicates of the statements on the commands of a run *)

(** The event is a [subprocess.run] of the program [x]. *)
Definition runs (x : string) (e : event) : bool :=
  match e with
  | EvRun cmd _ _ => head_is x cmd
  | _ => false
  end.

(** The event is a [Popen]. *)
Definition spawns (e : event) : bool :=
  match e with
  | EvPopen _ _ _ => true
  | _ => false
  end.

(** The event touches the file system: a directory made or a file
    written. *)
Definition writes (e : event) : bool :=
  match e with
  | EvMkdir _ | EvWrite _ _ => true
  | _ => false
  end.

(** Nothing of the container runtime. *)
Definition local_only (e : event) : bool := negb (runs "docker" e).

(** Nothing of the local builds and processes. *)
Definition docker_only (e : event) : bool :=
  negb (runs "npm" e || runs "cargo" e || spawns e || proc_stop e).

(** No build command: neither [npm] nor [cargo] is run. *)
Definition no_build (e : event) : bool := negb (runs "npm" e || runs "cargo" e).

(** The events of a trace satisfy [P], and the containers of [main]
    satisfy [J]. *)
Definition all_events {W : Type} (P : event -> bool)
    (J : dict * list string * list proc -> Prop) (s : state W) : Prop :=
  Forall (fun e => P e = true) (trace s) /\ J (vars s).

(** The frames that keep one list of handles. *)
Definition same_containers (v v' : dict * list string * list proc) : Prop :=
  snd (fst v') = snd (fst v).

Definition same_processes (v v' : dict * list string * list proc) : Prop :=
  snd v' = snd v.

Definition no_containers (v : dict * list string * list proc) : Prop :=
  snd (fst v) = [].

Definition no_processes (v : dict * list string * list proc) : Prop :=
  snd v = [].

(** The message of [main] when no target was benchmarked. *)
Definition says_no_results (e : event) : bool :=
  match e with
  | EvError msg => String.eqb msg "No benchmark results collected"
  | _ => false
  end.

(** Neither a touch of the file system nor that message. *)
Definition before_report (e : event) : bool :=
  negb (writes e) && negb (says_no_results e).

(** What [main] has come to: it returns exactly when it has written,
    with results then; the message "No benchmark results collected" goes
    with the exit status 1 and no result; and what is written is written
    after the cleanup phase. *)
Definition main_ending {W : Type} (r : result unit * state W) : Prop :=
  (fst r = Ok tt <-> exists e, In e (trace (snd r)) /\ writes e = true) /\
  (fst r = Ok tt -> all_results (snd r) <> []) /\
  (In (EvError "No benchmark results collected") (trace (snd r)) ->
   fst r = Raise (SystemExit 1) /\ all_results (snd r) = []) /\
  (forall l1 e l2,
     trace (snd r) = (l1 ++ e :: l2)%list -> writes e = true ->
     In (EvLog "Cleaning up...") l1).

(** ** Handles, as they are created and as they are released *)

(** The containers a trace has seen started and the processes it has
    seen spawned, in the order of their creation. *)
Definition started_in (tr : list event) : list string :=
  flat_map (fun e => match started e with Some c => [c] | None => [] end) tr.

Definition spawned_in (tr : list event) : list proc :=
  flat_map (fun e => match spawned e with Some p => [p] | None => [] end) tr.

(** The two lists of [main] hold the handles created so far, each once
    and in the order of its creation. *)
Definition recorded {W : Type} (s : state W) : Prop :=
  containers s = started_in (trace s) /\ processes s = spawned_in (trace s).

Definition keeps_recorded {W : Type} (s s' : state W) : Prop :=
  recorded s -> recorded s'.

(** What the cleanup phase does for one container, [r] being what
    [docker rm -f] came back with, and for one process, [exited] telling
    whether it was gone within five seconds of [terminate()]. *)
Definition removal (cr : string * completed) : event :=
  EvRun (Compare.docker_rm (fst cr)) None (Returns (snd cr)).

Definition stopping (pb : proc * bool) : list event :=
  EvTerminate (fst pb) :: EvWait (fst pb) 5 (snd pb)
  :: (if snd pb then [] else [EvKill (fst pb)]).

(** ** The commands of a trace *)

(** The commands that were run, each with what came back. *)
Definition runs_in (tr : list event) : list (list string * outcome completed) :=
  flat_map (fun e => match e with
                     | EvRun cmd _ o => [(cmd, o)]
                     | _ => []
                     end) tr.




(** A command that came back with the return code 0. *)
Definition succeeded (co : list string * outcome completed) : bool := probe_ok (snd co).

(** A command of a local build: [npm] or [cargo]. *)
Definition build_command (co : list string * outcome completed) : bool :=
  head_is "npm" (fst co) || head_is "cargo" (fst co).

(** The command of [docker_build]. *)
Definition docker_build_cmd {W : Type} `{OS W} (fw : Compare.framework) : list string :=
  ["docker"; "build"; "-t"; Compare.docker_image fw;
   "-f"; path_join Compare.COMPARE_DIR (Compare.dockerfile fw); Compare.COMPARE_DIR].

(** ** More of Python's [str], [int] and [float]

    What the functions that read the host use: [str.strip], [str.split],
    [in], [str.startswith], [int] and [round]. *)

(** [s.lstrip()], [s.rstrip()] and [s.strip()] for a class [p] of
    characters; [str.isspace] is [is_space] on the code points below
    256. *)
Fixpoint lstrip_with (p : ascii -> bool) (s : string) : string :=
  match s with
  | EmptyString => EmptyString
  | String c s' => if p c then lstrip_with p s' else s
  end.

Fixpoint rstrip_with (p : ascii -> bool) (s : string) : string :=
  match s with
  | EmptyString => EmptyString
  | String c s' =>
      match rstrip_with p s' with
      | EmptyString => if p c then EmptyString else String c EmptyString
      | r => String c r
      end
  end.

Definition strip_with (p : ascii -> bool) (s : string) : string :=
  rstrip_with p (lstrip_with p s).

(** [s.strip()] *)
Definition strip (s : string) : string := strip_with is_space s.

(** [s.split()]: the stretches of [s] without white space. *)
Fixpoint split_ws (s : string) : list string :=
  match s with
  | EmptyString => []
  | String c s' =>
      if is_space c then split_ws s'
      else
        match s' with
        | EmptyString => [String c EmptyString]
        | String c' _ =>
            if is_space c' then String c EmptyString :: split_ws s'
            else
              match split_ws s' with
              | w :: ws => String c w :: ws
              | [] => [String c EmptyString]
              end
        end
  end.

(** [s.split(sep)] for a separator of one character. *)
Fixpoint split_on (sep : ascii) (s : string) : list string :=
  match s with
  | EmptyString => [EmptyString]
  | String c s' =>
      if Ascii.eqb c sep then EmptyString :: split_on sep s'
      else
        match split_on sep s' with
        | w :: ws => String c w :: ws
        | [] => [String c EmptyString]
        end
  end.

(** [s.startswith(l)] *)
Definition startswith (l s : string) : bool :=
  match strip_prefix l s with
  | Some _ => true
  | None => false
  end.

(** [l in s] *)
Fixpoint contains (l s : string) : bool :=
  startswith l s ||
  match s with
  | EmptyString => false
  | String _ s' => contains l s'
  end.

(** The white space that [int] drops around a number: the ASCII white
    space, NEL and the no-break space. *)
Definition is_int_space (c : ascii) : bool :=
  between 9 13 c || (code c =? 32)%N || (code c =? 133)%N || (code c =? 160)%N.

(** The digits of an [int] literal, single underscores between them
    allowed: the value and the number of digits. *)
Fixpoint int_body (acc : Z) (n : nat) (after_digit : bool) (s : string)
    : option (Z * nat) :=
  match s with
  | EmptyString => if after_digit then Some (acc, n) else None
  | String c s' =>
      if is_digit c then int_body (acc * 10 + digit_val c) (S n) true s'
      else if (code c =? 95)%N && after_digit then int_body acc n false s'
      else None
  end.

(** [sys.get_int_max_str_digits()], by default. *)
Definition int_max_str_digits : nat := 4300.

(** [int(s)] for a [str]; [None] stands for the [ValueError]. *)
Definition int_of_str (s : string) : option Z :=
  let t := strip_with is_int_space s in
  let '(neg, body) :=
    match t with
    | String c t' =>
        if (code c =? 45)%N then (true, t')
        else if (code c =? 43)%N then (false, t')
        else (false, t)
    | EmptyString => (false, t)
    end in
  match int_body 0 0 false body with
  | Some (v, n) =>
      if (n <=? int_max_str_digits)%nat then Some (if neg then - v else v) else None
  | None => None
  end.

Definition sf_of_Z (z : Z) : spec_float :=
  match z with
  | Z0 => S754_zero false
  | Zpos p => S754_finite false p 0
  | Zneg p => S754_finite true p 0
  end.

(** [a / b] for two [int]s, [b] not 0: the quotient rounded to the
    nearest binary64; [None] stands for the [OverflowError] of a
    quotient that is too large for a [float]. *)
Definition int_truediv (a b : Z) : option float :=
  let q := SF2Prim (SFdiv prec emax (sf_of_Z a) (sf_of_Z b)) in
  if PrimFloat.is_infinity q then None else Some q.

(** [n / d] for [0 <= n] and [0 < d], rounded to the nearest integer,
    ties to the even one. *)
Definition div_half_even (n d : Z) : Z :=
  let q := n / d in
  let r := n mod d in
  match 2 * r ?= d with
  | Lt => q
  | Gt => q + 1
  | Eq => if Z.even q then q else q + 1
  end.

(** [round(x, 1)]: the decimal with one digit after the point that is
    nearest to [x], ties to the even digit, read back as a [float];
    zeros, infinities and NaN round to themselves. *)
Definition round1 (x : float) : float :=
  match Prim2SF x with
  | S754_finite sg m e =>
      let n := if 0 <=? e then 10 * Zpos m * 2 ^ e
               else div_half_even (10 * Zpos m) (2 ^ (- e)) in
      SF2Prim (SFdiv prec emax
                 (match n with
                  | Zpos p => S754_finite sg p 0
                  | _ => S754_zero sg
                  end)
                 (S754_finite false 10 0))
  | _ => x
  end.

(** [max(a, b)] *)
Definition max2 (a b : float) : float := if PrimFloat.ltb a b then b else a.

(** [l[i]]; [None] stands for the [IndexError]. *)
Definition item_at {A} (l : list A) (i : nat) : option A := nth_error l i.

(** ** The host: the platform and its files *)

(** What iterating over an open text file yields: its lines, [None]
    where reading raises. *)
Definition file : Type := list (option string).

Class Host (W : Type) : Type := {
  (** [platform.system()] *)
  platform_system : W -> string;
  (** [platform.release()] *)
  platform_release : W -> string;
  (** [platform.machine()] *)
  platform_machine : W -> string;
  (** [platform.python_version()] *)
  platform_python_version : W -> string;
  (** [os.cpu_count()] *)
  os_cpu_count : W -> option Z;
  (** [open(path)]; [None] when it raises *)
  os_open : string -> W -> option file
}.

(** How a loop [for line in f: if cond(line): x = value(line); break]
    ends: with a value, without one, or with an exception (of the
    reading, or of [value]). *)
Inductive scan (A : Type) : Type :=
| Found (a : A)
| NotFound
| Raised.
Arguments Found {A} a.
Arguments NotFound {A}.
Arguments Raised {A}.

Fixpoint scan_lines {A} (cond : string -> bool) (value : string -> option A)
    (f : file) : scan A :=
  match f with
  | [] => NotFound
  | None :: _ => Raised
  | Some line :: f' =>
      if cond line then
        match value line with
        | Some a => Found a
        | None => Raised
        end
      else scan_lines cond value f'
  end.

(** [line.split(":")[1].strip()] *)
Definition cpu_of_line (line : string) : option string :=
  option_map strip (item_at (split_on ":" line) 1).

(** [round(int(line.split()[1]) / 1024 / 1024, 1)] *)
Definition memory_gb_of_line (line : string) : option float :=
  match item_at (split_ws line) 1 with
  | Some tok =>
      match int_of_str tok with
      | Some kb =>
          match int_truediv kb 1024 with
          | Some x => Some (round1 (x / 1024))
          | None => None
          end
      | None => None
      end
  | None => None
  end.

(** [os.cpu_count() or 0] *)
Definition cpu_cores_or_0 (n : option Z) : Z :=
  match n with
  | Some n => n
  | None => 0
  end.

(** ** More of [compare.py] *)

Module CompareMore.
Section WithHost.
Context {W : Type} `{Host W}.

Definition set_cpu (c : string) (i : system_info) : system_info :=
  SystemInfo (si_os i) (si_os_version i) (si_arch i) c (si_cpu_cores i) (si_memory_gb i).

Definition set_memory_gb (m : float) (i : system_info) : system_info :=
  SystemInfo (si_os i) (si_os_version i) (si_arch i) (si_cpu i) (si_cpu_cores i) m.

(** [get_system_info()]: one [try] around the two loops, so that an
    exception in the first leaves the second undone. *)
Definition get_system_info (w : W) : system_info :=
  let info := SystemInfo (platform_system w) (platform_release w) (platform_machine w)
                "Unknown" (cpu_cores_or_0 (os_cpu_count w)) 0 in
  if String.eqb (platform_system w) "Linux" then
    match os_open "/proc/cpuinfo" w with
    | None => info
    | Some f =>
        match scan_lines (contains "model name") cpu_of_line f with
        | Raised => info
        | found =>
            let info :=
              match found with
              | Found c => set_cpu c info
              | _ => info
              end in
            match os_open "/proc/meminfo" w with
            | None => info
            | Some f =>
                match scan_lines (contains "MemTotal") memory_gb_of_line f with
                | Found m => set_memory_gb m info
                | _ => info
                end
            end
        end
    end
  else info.

End WithHost.
End CompareMore.

(** ** More of [benchmark.py] *)

Module BenchmarkMore.

(** [class Colors] *)
Module Colors.
Definition ESC : string := String (ascii_of_nat 27) "".
Definition RED : string := ESC ++ "[0;31m".
Definition GREEN : string := ESC ++ "[0;32m".
Definition YELLOW : string := ESC ++ "[1;33m".
Definition BLUE : string := ESC ++ "[0;34m".
Definition NC : string := ESC ++ "[0m".
End Colors.

(** What [get_system_info] returns. *)
Record host_info : Type := HostInfo {
  hi_os : string;
  hi_os_version : string;
  hi_arch : string;
  hi_python : string;
  hi_cpu : string;
  hi_cpu_cores : Z;
  hi_memory_gb : float
}.

(** What [run_test] returns: the scenario, the metrics and the memory. *)
Record test_result : Type := TestResult {
  tr_name : string;
  tr_threads : Z;
  tr_connections : Z;
  tr_duration : Z;
  tr_metrics : metrics;
  tr_memory_mb : float
}.

(** [int(line.split()[1]) / 1024] *)
Definition rss_mb_of_line (line : string) : option float :=
  match item_at (split_ws line) 1 with
  | Some tok =>
      match int_of_str tok with
      | Some kb => int_truediv kb 1024
      | None => None
      end
  | None => None
  end.

(** [int(text.strip()) / 1024] *)
Definition rss_mb_of_ps (text : string) : option float :=
  match int_of_str (strip text) with
  | Some kb => int_truediv kb 1024
  | None => None
  end.

(** [round(int(text.strip()) / 1024 / 1024 / 1024, 1)] *)
Definition memory_gb_of_sysctl (text : string) : option float :=
  match int_of_str (strip text) with
  | Some b =>
      match int_truediv b 1024 with
      | Some x => Some (round1 (x / 1024 / 1024))
      | None => None
      end
  | None => None
  end.

(** [int(text.strip().split()[0])] *)
Definition pid_of_lsof (text : string) : option Z :=
  match item_at (split_ws (strip text)) 0 with
  | Some tok => int_of_str tok
  | None => None
  end.

Section WithHost.
Context {W : Type} `{OS W} `{Host W}.

(** [check_deps()] *)
Definition check_deps : M W unit :=
  m1 <- (r <- subprocess_run ["which"; "wrk"] None ;;
         ret (if returncode r =? 0 then [] else ["wrk"])) ;;
  m2 <- (r <- subprocess_run ["which"; "curl"] None ;;
         ret (if returncode r =? 0 then [] else ["curl"])) ;;
  let missing := (m1 ++ m2)%list in
  match missing with
  | [] => ret tt
  | _ =>
      error ("Missing: " ++ String.concat ", " missing) ;;
      print "Install with: sudo apt-get install wrk curl" ;;
      raise (SystemExit 1)
  end.

(** [get_server_pid(port)]; an exception of [int] is caught as one of
    [subprocess.run] is. *)
Definition get_server_pid (port : Z) : M W (option Z) :=
  try_except
    (result <- subprocess_run ["lsof"; "-ti"; ":" ++ str_of_Z port] None ;;
     if (returncode result =? 0) && nonempty (strip (stdout result)) then
       ret (pid_of_lsof (stdout result))
     else ret None)
    (ret None).

(** The loop of [get_memory_usage] over [/proc/<pid>/status]: the
    first line that starts with ["VmRSS:"] decides. *)
Definition vmrss_mb (f : file) : float :=
  match scan_lines (startswith "VmRSS:") rss_mb_of_line f with
  | Found mb => mb
  | _ => 0
  end.

(** [get_memory_usage(pid)]; [None] and 0 are false.  An exception of
    [int] or of the division is caught as one of [open] or of
    [subprocess.run] is. *)
Definition get_memory_usage (pid : option Z) : M W float :=
  match pid with
  | None => ret 0%float
  | Some n =>
      if n =? 0 then ret 0%float
      else
        sys <- get (fun s => platform_system (world s)) ;;
        if String.eqb sys "Linux" then
          f <- get (fun s => os_open ("/proc/" ++ str_of_Z n ++ "/status") (world s)) ;;
          match f with
          | Some f => ret (vmrss_mb f)
          | None => ret 0%float
          end
        else if String.eqb sys "Darwin" then
          try_except
            (result <- subprocess_run ["ps"; "-o"; "rss="; "-p"; str_of_Z n] None ;;
             if returncode result =? 0 then
               match rss_mb_of_ps (stdout result) with
               | Some mb => ret mb
               | None => ret 0%float
               end
             else ret 0%float)
            (ret 0%float)
        else ret 0%float
  end.

(** [run_test(name, threads, connections, duration, url, server_pid)] *)
Definition run_test (name : string) (threads connections duration : Z) (url : string)
    (server_pid : option Z) : M W test_result :=
  print (Colors.YELLOW ++ "[" ++ name ++ "]" ++ Colors.NC
         ++ " threads=" ++ str_of_Z threads ++ " connections=" ++ str_of_Z connections
         ++ " duration=" ++ str_of_Z duration ++ "s") ;;
  mem_before <- get_memory_usage server_pid ;;
  let cmd := ["wrk"; "-t" ++ str_of_Z threads; "-c" ++ str_of_Z connections;
              "-d" ++ str_of_Z duration ++ "s"; "--latency"; url] in
  result <- subprocess_run cmd None ;;
  let output := stdout result ++ stderr result in
  mem_after <- get_memory_usage server_pid ;;
  let mem_peak := max2 mem_before mem_after in
  metrics <- lift (Benchmark.parse_wrk_output output) ;;
  let memory_mb := round1 mem_peak in
  print ("  RPS: " ++ fmt_float ".0f" (rps metrics) ++ " | Latency: " ++ latency metrics
         ++ " | P99: " ++ p99 metrics ++ " | Memory: " ++ fmt_float ".1f" memory_mb
         ++ "MB") ;;
  ret (TestResult name threads connections duration metrics memory_mb).

(** [get_system_info()], the [try] for the CPU: what [info["cpu"]] is
    set to, if it is. *)
Definition cpu_info : M W (option string) :=
  try_except
    (sys <- get (fun s => platform_system (world s)) ;;
     if String.eqb sys "Linux" then
       f <- get (fun s => os_open "/proc/cpuinfo" (world s)) ;;
       match f with
       | Some f =>
           match scan_lines (contains "model name") cpu_of_line f with
           | Found c => ret (Some c)
           | _ => ret None
           end
       | None => ret None
       end
     else if String.eqb sys "Darwin" then
       result <- subprocess_run ["sysctl"; "-n"; "machdep.cpu.brand_string"] None ;;
       if returncode result =? 0 then ret (Some (strip (stdout result))) else ret None
     else ret None)
    (ret None).

(** [get_system_info()], the [try] for the memory. *)
Definition memory_info : M W (option float) :=
  try_except
    (sys <- get (fun s => platform_system (world s)) ;;
     if String.eqb sys "Linux" then
       f <- get (fun s => os_open "/proc/meminfo" (world s)) ;;
       match f with
       | Some f =>
           match scan_lines (contains "MemTotal") memory_gb_of_line f with
           | Found m => ret (Some m)
           | _ => ret None
           end
       | None => ret None
       end
     else if String.eqb sys "Darwin" then
       result <- subprocess_run ["sysctl"; "-n"; "hw.memsize"] None ;;
       if returncode result =? 0 then ret (memory_gb_of_sysctl (stdout result))
       else ret None
     else ret None)
    (ret None).

(** [get_system_info()] *)
Definition get_system_info : M W host_info :=
  info <- get (fun s => HostInfo (platform_system (world s)) (platform_release (world s))
                          (platform_machine (world s))
                          (platform_python_version (world s)) "Unknown"
                          (cpu_cores_or_0 (os_cpu_count (world s))) 0) ;;
  cpu <- cpu_info ;;
  mem <- memory_info ;;
  ret (HostInfo (hi_os info) (hi_os_version info) (hi_arch info) (hi_python info)
         (match cpu with Some c => c | None => hi_cpu info end)
         (hi_cpu_cores info)
         (match mem with Some m => m | None => hi_memory_gb info end)).

End WithHost.
End BenchmarkMore.

(** ** The host of the machine

    The machine is a Linux host with four processors; it has the files
    of [/proc] that the scripts read, and the process 4242 is a server
    with a resident set of 123456 kB. *)

Definition TAB : string := String (chr 9) "".

Definition machine_files : list (string * file) :=
  [ ("/proc/cpuinfo",
     [ Some ("processor" ++ TAB ++ ": 0" ++ nl);
       Some ("model name" ++ TAB ++ ": Example CPU @ 2.60GHz" ++ nl);
       Some ("model name" ++ TAB ++ ": Another CPU" ++ nl) ]);
    ("/proc/meminfo",
     [ Some ("MemTotal:       16384000 kB" ++ nl);
       Some ("MemFree:         8192000 kB" ++ nl) ]);
    ("/proc/4242/status",
     [ Some ("Name:" ++ TAB ++ "node" ++ nl);
       Some ("VmRSS:" ++ TAB ++ "  123456 kB" ++ nl) ]) ].

Fixpoint lookup_file (files : list (string * file)) (path : string) : option file :=
  match files with
  | [] => None
  | (p, f) :: files' => if String.eqb path p then Some f else lookup_file files' path
  end.

Definition machine_host : Host machine := {|
  platform_system := fun _ => "Linux";
  platform_release := fun _ => "6.1";
  platform_machine := fun _ => "x86_64";
  platform_python_version := fun _ => "3.11.2";
  os_cpu_count := fun _ => Some 4;
  os_open := fun path _ => lookup_file machine_files path
|}.

(** A character that is not white space. *)
Definition not_space (c : ascii) : bool := negb (is_space c).

(** A character that is not a colon. *)
Definition not_colon (c : ascii) : bool := negb (Ascii.eqb c ":").

(** How the scan of a file of [/proc] ends, the file being the one at
    [path]; a file that cannot be opened raises. *)
Definition scan_file {W : Type} `{Host W} {A} (path : string) (cond : string -> bool)
    (value : string -> option A) (w : W) : scan A :=
  match os_open path w with
  | Some f => scan_lines cond value f
  | None => Raised
  end.

(** The value that was found, or the default. *)
Definition found_or {A} (d : A) (r : scan A) : A :=
  match r with
  | Found a => a
  | _ => d
  end.

(** ** The check of the dependencies *)

(** The tools that were not found: those whose [which] came back with
    another return code than 0. *)
Definition missing_of (tools : list string) (outs : list completed) : list string :=
  map fst (filter (fun t => negb (returncode (snd t) =? 0)) (combine tools outs)).

(** What [check_deps] has done, for the [tools] it looks for: it has
    asked [which] for each of them, in order, and it returns when all
    were found; when some were not, it has reported all of them in one
    message, which is followed by [after], and exits with the status 1.
    An exception of a [which] ends it at once. *)
Definition checked {W : Type} (tools : list string) (after : list event)
    (s : state W) (r : result unit * state W) : Prop :=
  vars (snd r) = vars s /\
  exists evs,
    trace (snd r) = (trace s ++ evs)%list /\
    ((exists pre tool e,
        runs_in evs = (pre ++ [(["which"; tool], Throws e)])%list /\
        fst r = Raise e) \/
     (exists outs,
        List.length outs = List.length tools /\
        runs_in evs = combine (map (fun t => ["which"; t]) tools) (map Returns outs) /\
        match missing_of tools outs with
        | [] => fst r = Ok tt /\ Forall (fun e => runs "which" e = true) evs
        | missing =>
            fst r = Raise (SystemExit 1) /\
            exists evs0,
              evs = (evs0 ++ EvError ("Missing: " ++ String.concat ", " missing)
                     :: after)%list /\
              Forall (fun e => runs "which" e = true) evs0
        end)).

(** * Properties *)

(** ** Strings *)

Lemma append_nil_r (s : string) : s ++ "" = s.
Proof. induction s as [|a s IH]; simpl; [reflexivity | now rewrite IH]. Qed.


Lemma length_append (a b : string) :
  String.length (a ++ b) = (String.length a + String.length b)%nat.
Proof. induction a as [|x a IH]; simpl; [reflexivity | now rewrite IH]. Qed.

Lemma take_length_append (a b : string) : take (String.length a) (a ++ b) = a.
Proof. induction a as [|x a IH]; simpl; [now destruct b | now rewrite IH]. Qed.

(** What a group captures: the text between where it opened and where it
    closed. *)
Lemma take_captured (a b : string) :
  take (String.length (a ++ b) - String.length b) (a ++ b) = a.
Proof.
  rewrite length_append.
  replace (String.length a + String.length b - String.length b)%nat
    with (String.length a) by lia.
  apply take_length_append.
Qed.

Lemma all_chars_append (p : ascii -> bool) (a b : string) :
  all_chars p (a ++ b) = all_chars p a && all_chars p b.
Proof.
  induction a as [|x a IH]; simpl; [reflexivity|].
  now rewrite IH, andb_assoc.
Qed.

(** ** The backtracking matcher *)

Section Matcher.
Context {R : Type}.
Variable c : ascii -> bool.
Variable k : string -> option R.

(** A greedy run takes all of a stretch of [c] when what follows the
    stretch lets the rest of the pattern match. *)
Lemma greedy_run (run rest : string) (r : R) :
  all_chars c run = true -> stops c rest = true -> k rest = Some r ->
  greedy c k (run ++ rest) = Some r.
Proof.
  intros Hrun Hstop Hk.
  induction run as [|a run IH]; simpl in *.
  - destruct rest as [|b rest]; simpl in *; [exact Hk|].
    apply negb_true_iff in Hstop. now rewrite Hstop.
  - apply andb_true_iff in Hrun as [Ha Hrun].
    now rewrite Ha, (IH Hrun).
Qed.


End Matcher.




(** [[\d.]+] then [\w+] on a number followed by a unit word. *)
Lemma match_number_unit (d u : string) :
  all_chars is_digit_dot d = true -> nonempty d = true ->
  all_chars is_word u = true -> nonempty u = true ->
  stops is_digit_dot u = true ->
  re_match re_number_unit (d ++ u) = Some [d; u].
Proof.
  intros Hd Hd0 Hu Hu0 Hstop.
  destruct d as [|a d]; [discriminate|]. destruct u as [|b u]; [discriminate|].
  simpl in Hd, Hu. apply andb_true_iff in Hd as [Ha Hd], Hu as [Hb Hu].
  unfold re_match, re_number_unit. cbn [match_here].
  change (String a d ++ String b u) with (String a (d ++ String b u)). cbv iota beta.
  rewrite Ha.
  erewrite greedy_run; [reflexivity | exact Hd | exact Hstop |].
  cbn [match_here]. rewrite Hb.
  rewrite <- (append_nil_r u) at 1.
  erewrite greedy_run; [reflexivity | exact Hu | reflexivity |].
  cbn [match_here]. unfold gclose, gopen. cbn [gstart groups app].
  change (String a (d ++ String b u)) with (String a d ++ String b u).
  rewrite take_captured.
  replace (String.length (String b u) - String.length "")%nat
    with (String.length (String b u)) by (simpl; lia).
  rewrite <- (append_nil_r (String b u)) at 2.
  now rewrite take_length_append.
Qed.





Lemma strip_prefix_append (l s : string) : strip_prefix l (l ++ s) = Some s.
Proof.
  induction l as [|a l IH]; simpl; [reflexivity|].
  now rewrite Ascii.eqb_refl.
Qed.






(** ** [float] and [int] on what the patterns capture *)

Lemma split_dot_spec (s : string) :
  s = fst (split_dot s) ++ match snd (split_dot s) with
                           | Some f => String (chr 46) f
                           | None => ""
                           end.
Proof.
  induction s as [|a s IH]; [reflexivity|]. cbn [split_dot].
  destruct (N.eqb_spec (code a) 46) as [E|E].
  - cbn. f_equal. unfold code in E. rewrite <- (ascii_N_embedding a). now rewrite E.
  - destruct (split_dot s) as [i f]. cbn [fst snd] in *.
    change (String a i ++ ?x) with (String a (i ++ x)). now f_equal.
Qed.

Lemma digit_is_digit_dot (s : string) :
  all_chars is_digit s = true -> all_chars is_digit_dot s = true.
Proof.
  induction s as [|a s IH]; [reflexivity|]. cbn [all_chars]. intros H.
  apply andb_true_iff in H as [Ha Hs]. rewrite (IH Hs).
  unfold is_digit_dot. now rewrite Ha.
Qed.

Lemma is_decimal_chars (s : string) :
  is_decimal s = true -> all_chars is_digit_dot s = true /\ nonempty s = true.
Proof.
  unfold is_decimal. intros H. rewrite (split_dot_spec s).
  destruct (split_dot s) as [i [f|]]; cbn [fst snd] in *.
  - apply andb_true_iff in H as [H H0]. apply andb_true_iff in H as [Hi Hf].
    rewrite all_chars_append. cbn [all_chars]. split.
    + rewrite (digit_is_digit_dot _ Hi), (digit_is_digit_dot _ Hf). reflexivity.
    + now destruct i.
  - apply andb_true_iff in H as [Hi H0]. rewrite append_nil_r.
    split; [now apply digit_is_digit_dot | exact H0].
Qed.

Lemma py_float_decimal (s : string) :
  is_decimal s = true -> py_float s = Ok (decimal_value s).
Proof. unfold py_float. now intros ->. Qed.

Lemma word_not_dot (a : ascii) : is_word a = true -> (code a =? 46)%N = false.
Proof.
  intros Hw. destruct (N.eqb_spec (code a) 46) as [E|E]; [|reflexivity].
  unfold is_word, is_digit, between in Hw. rewrite E in Hw. discriminate Hw.
Qed.

(** A unit word that does not start with a digit stops [[\d.]+]. *)
Lemma word_stops_number (u : string) :
  all_chars is_word u = true -> stops is_digit u = true ->
  stops is_digit_dot u = true.
Proof.
  destruct u as [|b u]; [reflexivity|]. cbn [all_chars stops]. intros Hw Hd.
  apply andb_true_iff in Hw as [Hb _]. apply negb_true_iff in Hd.
  unfold is_digit_dot. now rewrite Hd, (word_not_dot _ Hb).
Qed.




(** The two scripts carry the same extractor. *)
Lemma parse_latency_ms_same (s : string) :
  Benchmark.parse_latency_ms s = Compare.parse_latency_ms s.
Proof. reflexivity. Qed.




(** ** The metric extractor *)

Lemma parse_latency_ms_number_unit (d u : string) :
  is_decimal d = true ->
  nonempty u = true -> all_chars is_word u = true -> stops is_digit u = true ->
  Compare.parse_latency_ms (d ++ u)
  = let v := decimal_value d in
    if String.eqb (lower u) "us" then Ok (v / 1000)%float
    else if String.eqb (lower u) "ms" then Ok v
    else if String.eqb (lower u) "s" then Ok (v * 1000)%float
    else Ok v.
Proof.
  intros Hd Hu0 Hu Hstop.
  destruct (is_decimal_chars d Hd) as [Hdd Hd0].
  unfold Compare.parse_latency_ms.
  assert (Hne : nonempty (d ++ u) = true) by (destruct d; [discriminate | reflexivity]).
  rewrite Hne. cbn [negb].
  rewrite match_number_unit by auto using word_stops_number.
  unfold group. cbn [Nat.sub nth].
  rewrite (py_float_decimal d Hd). reflexivity.
Qed.

(** C7: a latency string made of a decimal number [d] and a unit word [u]
    is normalized to milliseconds by the unit, taken in lower case: the
    number divided by 1000 for "us", unchanged for "ms", multiplied by
    1000 for "s", and unchanged for any other unit; "250us" gives 0.25,
    "1.5s" gives 1500 and "12ms" gives 12.  Both scripts do so. *)
Theorem latency_normalized_by_unit :
  (forall d u : string,
     is_decimal d = true ->
     nonempty u = true -> all_chars is_word u = true -> stops is_digit u = true ->
     let v := decimal_value d in
     forall parse,
       parse = Compare.parse_latency_ms \/ parse = Benchmark.parse_latency_ms ->
       (lower u = "us" -> parse (d ++ u) = Ok (v / 1000)%float) /\
       (lower u = "ms" -> parse (d ++ u) = Ok v) /\
       (lower u = "s" -> parse (d ++ u) = Ok (v * 1000)%float) /\
       (lower u <> "us" -> lower u <> "ms" -> lower u <> "s" ->
        parse (d ++ u) = Ok v)) /\
  Compare.parse_latency_ms "250us" = Ok 0.25%float /\
  Compare.parse_latency_ms "1.5s" = Ok 1500%float /\
  Compare.parse_latency_ms "12ms" = Ok 12%float /\
  Benchmark.parse_latency_ms "250us" = Ok 0.25%float /\
  Benchmark.parse_latency_ms "1.5s" = Ok 1500%float /\
  Benchmark.parse_latency_ms "12ms" = Ok 12%float.
Proof.
  split; [|repeat split; vm_compute; reflexivity].
  intros d u Hd Hu0 Hu Hstop v parse Hparse.
  assert (E : parse (d ++ u) = Compare.parse_latency_ms (d ++ u))
    by (destruct Hparse; subst parse; reflexivity).
  rewrite E, parse_latency_ms_number_unit by assumption. fold v. cbv zeta.
  repeat split.
  - now intros ->.
  - now intros ->.
  - now intros ->.
  - intros H1 H2 H3.
    apply String.eqb_neq in H1, H2, H3. now rewrite H1, H2, H3.
Qed.

(** A witness of C7: "2.5" with the unit "Ms". *)
Lemma latency_normalized_by_unit_witness :
  Compare.parse_latency_ms ("2.5" ++ "Ms") = Ok (decimal_value "2.5").
Proof.
  refine (proj1 (proj2 (proj1 latency_normalized_by_unit "2.5" "Ms" _ _ _ _
                          Compare.parse_latency_ms (or_introl eq_refl))) _);
    reflexivity.
Defined.






(** ** Head-to-head *)





(** ** The snapshot *)









(** ** The readiness gate *)

Section ReadinessGate.
Context {W : Type} `{OS W}.

(** One turn of the loop of [wait_for]. *)
Lemma wait_for_loop_step (url : string) (n : nat) (s : state W) :
  Compare.wait_for_loop url (S n) s
  = let (o, w) := os_run (Compare.curl_probe url) None (world s) in
    let tr := (trace s ++ [EvRun (Compare.curl_probe url) None o])%list in
    if probe_ok o then
      (Ok true, State w tr (all_results s) (containers s) (processes s))
    else
      Compare.wait_for_loop url n
        (State (os_sleep 1 w) (tr ++ [EvSleep 1]) (all_results s) (containers s)
               (processes s)).
Proof.
  cbn [Compare.wait_for_loop].
  unfold bind, try_except, subprocess_run, ret, time_sleep.
  destruct (os_run (Compare.curl_probe url) None (world s)) as [[c|e] w];
    cbn [probe_ok]; [destruct (returncode c =? 0)|]; reflexivity.
Qed.

Lemma wait_for_loop_spec (url : string) (n : nat) :
  forall s : state W,
    let r := Compare.wait_for_loop url n s in
    all_results (snd r) = all_results s /\
    containers (snd r) = containers s /\
    processes (snd r) = processes s /\
    exists fails : list (outcome completed),
      Forall (fun o => probe_ok o = false) fails /\
      ((fst r = Ok false /\ List.length fails = n /\
        trace (snd r) = (trace s ++ failed_probes (Compare.curl_probe url) fails)%list)
       \/
       (exists o, probe_ok o = true /\ fst r = Ok true /\
          (List.length fails < n)%nat /\
          trace (snd r)
          = (trace s ++ failed_probes (Compare.curl_probe url) fails
             ++ [EvRun (Compare.curl_probe url) None o])%list)).
Proof.
  induction n as [|n IH]; intros s r; subst r.
  - cbn. repeat split. exists []. split; [constructor|]. left.
    now rewrite app_nil_r.
  - rewrite wait_for_loop_step.
    destruct (os_run (Compare.curl_probe url) None (world s)) as [o w].
    cbv beta iota zeta.
    destruct (probe_ok o) eqn:Ho.
    + cbn [fst snd all_results containers processes trace].
      repeat split. exists []. split; [constructor|]. right.
      exists o. repeat split; [assumption | cbn; lia].
    + match goal with |- context [Compare.wait_for_loop url n ?s1] =>
        destruct (IH s1) as (Ha & Hc & Hp & fails & Hf & Hcase)
      end.
      cbn [all_results containers processes trace] in *.
      repeat split; try assumption.
      exists (o :: fails). split; [now constructor|].
      destruct Hcase as [(Hr & Hlen & Htr)|(o' & Ho' & Hr & Hlen & Htr)].
      * left. repeat split; [assumption | cbn; lia |].
        rewrite Htr. cbn [failed_probes flat_map].
        rewrite <- !app_assoc. reflexivity.
      * right. exists o'. repeat split; [assumption | assumption | cbn; lia |].
        rewrite Htr. cbn [failed_probes flat_map].
        rewrite <- !app_assoc. reflexivity.
Qed.

Lemma wait_for_server_unfold (url : string) (timeout : Z) (s : state W) :
  Benchmark.wait_for_server url timeout s
  = let s1 := State (world s)
                (trace s ++ [EvLog ("Waiting for server at " ++ url ++ "...")])
                (all_results s) (containers s) (processes s) in
    let r := Compare.wait_for_loop url (Z.to_nat timeout) s1 in
    match fst r with
    | Ok true => (Ok true, snd r)
    | Ok false =>
        (Ok false,
         State (world (snd r)) (trace (snd r) ++ [EvError "Server not responding"])
               (all_results (snd r)) (containers (snd r)) (processes (snd r)))
    | Raise e => (Raise e, snd r)
    end.
Proof.
  unfold Benchmark.wait_for_server, log, error, emit, bind, ret. cbv zeta.
  change (Benchmark.wait_for_server_loop url (Z.to_nat timeout))
    with (Compare.wait_for_loop url (Z.to_nat timeout)).
  destruct (Compare.wait_for_loop url (Z.to_nat timeout) _) as [[[]|] ?];
    reflexivity.
Qed.
End ReadinessGate.

(** C8: the readiness gate of either script probes the endpoint with
    [curl --max-time 2], sleeps one second after each probe that fails
    (a return code other than 0, or an exception, which is caught), and
    returns [True] at once on the first probe that succeeds; when none
    does, it returns [False] after exactly [timeout] failed probes.  It
    never probes more often than that and never raises. *)
Theorem readiness_gate_bounded :
  forall (W : Type) (os : OS W) (url : string) (timeout : Z) (s : state W),
    let probe := ["curl"; "-s"; "--max-time"; "2"; url] in
    (let r := Compare.wait_for url timeout s in
     exists fails : list (outcome completed),
       Forall (fun o => probe_ok o = false) fails /\
       ((fst r = Ok false /\ List.length fails = Z.to_nat timeout /\
         trace (snd r) = (trace s ++ failed_probes probe fails)%list)
        \/
        (exists o, probe_ok o = true /\ fst r = Ok true /\
           (List.length fails < Z.to_nat timeout)%nat /\
           trace (snd r)
           = (trace s ++ failed_probes probe fails ++ [EvRun probe None o])%list)))
    /\
    (let r := Benchmark.wait_for_server url timeout s in
     let waiting := EvLog ("Waiting for server at " ++ url ++ "...") in
     exists fails : list (outcome completed),
       Forall (fun o => probe_ok o = false) fails /\
       ((fst r = Ok false /\ List.length fails = Z.to_nat timeout /\
         trace (snd r)
         = (trace s ++ waiting :: failed_probes probe fails
            ++ [EvError "Server not responding"])%list)
        \/
        (exists o, probe_ok o = true /\ fst r = Ok true /\
           (List.length fails < Z.to_nat timeout)%nat /\
           trace (snd r)
           = (trace s ++ waiting :: failed_probes probe fails
              ++ [EvRun probe None o])%list))).
Proof.
  intros W os url timeout s probe. split.
  - unfold Compare.wait_for.
    destruct (wait_for_loop_spec url (Z.to_nat timeout) s) as (_ & _ & _ & H).
    exact H.
  - rewrite wait_for_server_unfold. cbv zeta.
    match goal with |- context [Compare.wait_for_loop url _ ?s1] =>
      destruct (wait_for_loop_spec url (Z.to_nat timeout) s1)
        as (_ & _ & _ & fails & Hf & Hcase);
      destruct (Compare.wait_for_loop url (Z.to_nat timeout) s1) as [r s2]
    end.
    cbn [fst snd trace] in *. exists fails. split; [exact Hf|].
    destruct Hcase as [(Hr & Hlen & Htr)|(o & Ho & Hr & Hlen & Htr)]; subst r.
    + left. cbn [fst snd trace]. repeat split; [assumption|].
      rewrite Htr, <- !app_assoc. reflexivity.
    + right. exists o. cbn [fst snd trace]. repeat split; try assumption.
      rewrite Htr, <- !app_assoc. reflexivity.
Qed.

(** ** Moving the state within a relation *)

Section Respects.
Context {W : Type} `{OS W}.
Variable R : state W -> state W -> Prop.
Context `{!RelationClasses.PreOrder R}.

Lemma respects_ret {A} (a : A) : respects R (ret a).
Proof. intros s. cbn. reflexivity. Qed.

Lemma respects_raise {A} (e : exn) : respects R (@raise W A e).
Proof. intros s. cbn. reflexivity. Qed.

Lemma respects_lift {A} (r : result A) : respects R (lift r).
Proof. intros s. cbn. reflexivity. Qed.

Lemma respects_get {A} (f : state W -> A) : respects R (get f).
Proof. intros s. cbn. reflexivity. Qed.

Lemma respects_bind {A B} (m : M W A) (k : A -> M W B) :
  respects R m -> (forall a, respects R (k a)) -> respects R (bind m k).
Proof.
  intros Hm Hk s. unfold bind. specialize (Hm s).
  destruct (m s) as [[a|e] s1]; cbn [snd] in *; [|exact Hm].
  etransitivity; [exact Hm | apply Hk].
Qed.

Lemma respects_try_except {A} (m h : M W A) :
  respects R m -> respects R h -> respects R (try_except m h).
Proof.
  intros Hm Hh s. unfold try_except. specialize (Hm s).
  destruct (m s) as [[a|e] s1]; cbn [snd] in *; [exact Hm|].
  etransitivity; [exact Hm | apply Hh].
Qed.

Lemma respects_try_finally {A} (m : M W A) (f : M W unit) :
  respects R m -> respects R f -> respects R (try_finally m f).
Proof.
  intros Hm Hf s. unfold try_finally. specialize (Hm s).
  destruct (m s) as [r s1]. specialize (Hf s1).
  destruct (f s1) as [[[]|e] s2]; cbn [snd] in *; etransitivity; eassumption.
Qed.

Lemma respects_for_each {A} (l : list A) (body : A -> M W unit) :
  (forall x, In x l -> respects R (body x)) -> respects R (for_each l body).
Proof.
  induction l as [|x l IH]; intros Hb; cbn [for_each].
  - apply respects_ret.
  - apply respects_bind; [apply Hb; now left|].
    intros _. apply IH. intros y Hy. apply Hb. now right.
Qed.

Lemma respects_repeat_n (n : nat) (body : M W unit) :
  respects R body -> respects R (repeat_n n body).
Proof.
  intros Hb. induction n as [|n IH]; cbn [repeat_n].
  - apply respects_ret.
  - apply respects_bind; [exact Hb | intros _; exact IH].
Qed.
End Respects.

Lemma respects_weaken {W : Type} (R1 R2 : state W -> state W -> Prop) {A} (m : M W A) :
  (forall s s', R1 s s' -> R2 s s') -> respects R1 m -> respects R2 m.
Proof. intros HR Hm s. apply HR, Hm. Qed.

(** ** Growing the trace *)

Section Ext.
Context {W : Type} `{OS W}.
Variable P : event -> Prop.
Variable F : dict * list string * list proc -> dict * list string * list proc -> Prop.
Context `{!RelationClasses.PreOrder F}.

#[local] Instance ext_preorder : RelationClasses.PreOrder (@ext W P F).
Proof.
  split.
  - intros s. exists []. rewrite app_nil_r. repeat split; [constructor | reflexivity].
  - intros s1 s2 s3 (e1 & H1 & P1 & F1) (e2 & H2 & P2 & F2).
    exists (e1 ++ e2)%list. rewrite H2, H1, app_assoc. repeat split.
    + apply Forall_app. now split.
    + etransitivity; eassumption.
Qed.

(** One event, and the containers of [main] untouched. *)
Lemma ext_one (s s' : state W) (e : event) :
  trace s' = (trace s ++ [e])%list -> vars s' = vars s -> P e -> ext P F s s'.
Proof.
  intros Ht Hv He. exists [e]. rewrite Hv. repeat split; [exact Ht | | reflexivity].
  now constructor.
Qed.

Lemma ext_none (s s' : state W) :
  trace s' = trace s -> vars s' = vars s -> ext P F s s'.
Proof.
  intros Ht Hv. exists []. rewrite Hv, Ht, app_nil_r.
  repeat split; [constructor | reflexivity].
Qed.

Lemma ext_emit (e : event) : P e -> respects (@ext W P F) (emit e).
Proof. intros He s. now apply (ext_one _ _ e). Qed.

Lemma ext_run (cmd : list string) (cwd : option string) :
  (forall o, P (EvRun cmd cwd o)) -> respects (@ext W P F) (subprocess_run cmd cwd).
Proof.
  intros He s. unfold subprocess_run.
  destruct (os_run cmd cwd (world s)) as [o w].
  destruct o; eapply ext_one; cbn; try reflexivity; apply He.
Qed.

Lemma ext_popen (cmd : list string) (cwd : string) :
  (forall o, P (EvPopen cmd cwd o)) -> respects (@ext W P F) (subprocess_Popen cmd cwd).
Proof.
  intros He s. unfold subprocess_Popen.
  destruct (os_popen cmd cwd (world s)) as [o w].
  destruct o; eapply ext_one; cbn; try reflexivity; apply He.
Qed.

Lemma ext_sleep (secs : Z) : P (EvSleep secs) -> respects (@ext W P F) (time_sleep secs).
Proof. intros He s. now apply (ext_one _ _ (EvSleep secs)). Qed.

Lemma ext_terminate (p : proc) : P (EvTerminate p) -> respects (@ext W P F) (proc_terminate p).
Proof. intros He s. now apply (ext_one _ _ (EvTerminate p)). Qed.

Lemma ext_kill (p : proc) : P (EvKill p) -> respects (@ext W P F) (proc_kill p).
Proof. intros He s. now apply (ext_one _ _ (EvKill p)). Qed.

Lemma ext_wait (p : proc) (secs : Z) :
  (forall b, P (EvWait p secs b)) -> respects (@ext W P F) (proc_wait p secs).
Proof.
  intros He s. unfold proc_wait.
  destruct (os_wait p secs (world s)) as [b w]. now apply (ext_one _ _ (EvWait p secs b)).
Qed.

Lemma ext_path_exists (p : string) : respects (@ext W P F) (path_exists p).
Proof. intros s. now apply ext_none. Qed.

Lemma ext_which (n : string) : respects (@ext W P F) (shutil_which n).
Proof. intros s. now apply ext_none. Qed.

Lemma ext_now (fmt : string) : respects (@ext W P F) (datetime_now fmt).
Proof.
  intros s. unfold datetime_now. destruct (os_now fmt (world s)) as [t w].
  now apply ext_none.
Qed.

Lemma ext_containers_append (c : string) :
  (forall a cs ps, F (a, cs, ps) (a, (cs ++ [c])%list, ps)) ->
  respects (@ext W P F) (containers_append c).
Proof.
  intros HF s. exists []. cbn. rewrite app_nil_r.
  repeat split; [constructor | apply HF].
Qed.

Lemma ext_processes_append (p : proc) :
  (forall a cs ps, F (a, cs, ps) (a, cs, (ps ++ [p])%list)) ->
  respects (@ext W P F) (processes_append p).
Proof.
  intros HF s. exists []. cbn. rewrite app_nil_r.
  repeat split; [constructor | apply HF].
Qed.

Lemma ext_all_results_set (k : fw_key) (v : list scenario_result) :
  (forall a cs ps, F (a, cs, ps) (dict_set k v a, cs, ps)) ->
  respects (@ext W P F) (all_results_set k v).
Proof.
  intros HF s. exists []. cbn. rewrite app_nil_r.
  repeat split; [constructor | apply HF].
Qed.
End Ext.

(** The steps of a script, one after the other: [ev] proves that an event
    is allowed and [fr] that a change of the containers of [main] is. *)
Ltac ext_step ev fr :=
  lazymatch goal with
  | |- RelationClasses.PreOrder _ => exact _
  | |- forall _, _ => intros ?
  | |- respects _ (bind _ _) => apply respects_bind
  | |- respects _ (ret _) => apply respects_ret
  | |- respects _ (raise _) => apply respects_raise
  | |- respects _ (lift _) => apply respects_lift
  | |- respects _ (get _) => apply respects_get
  | |- respects _ (try_except _ _) => apply respects_try_except
  | |- respects _ (try_finally _ _) => apply respects_try_finally
  | |- respects _ (for_each _ _) => apply respects_for_each
  | |- respects _ (repeat_n _ _) => apply respects_repeat_n
  | |- respects _ (subprocess_run _ _) => apply ext_run
  | |- respects _ (subprocess_Popen _ _) => apply ext_popen
  | |- respects _ (time_sleep _) => apply ext_sleep
  | |- respects _ (proc_terminate _) => apply ext_terminate
  | |- respects _ (proc_kill _) => apply ext_kill
  | |- respects _ (proc_wait _ _) => apply ext_wait
  | |- respects _ (path_exists _) => apply ext_path_exists
  | |- respects _ (shutil_which _) => apply ext_which
  | |- respects _ (datetime_now _) => apply ext_now
  | |- respects _ (print _) => apply ext_emit
  | |- respects _ (log _) => apply ext_emit
  | |- respects _ (error _) => apply ext_emit
  | |- respects _ (success _) => apply ext_emit
  | |- respects _ (emit _) => apply ext_emit
  | |- respects _ (containers_append _) => apply ext_containers_append
  | |- respects _ (processes_append _) => apply ext_processes_append
  | |- respects _ (all_results_set _ _) => apply ext_all_results_set
  | |- respects _ (if ?b then _ else _) => destruct b
  | |- respects _ (match ?x with _ => _ end) => destruct x
  | |- respects _ _ => fail
  | |- _ => first [ev | fr]
  end.

Ltac ext_steps ev fr := repeat (cbv zeta; ext_step ev fr).

#[local] Existing Instance ext_preorder.

#[local] Instance any_frame_preorder : RelationClasses.PreOrder any_frame.
Proof. split; repeat intro; exact I. Qed.

#[local] Instance same_results_preorder : RelationClasses.PreOrder same_results.
Proof.
  split; [intros x; reflexivity|].
  intros x y z H1 H2. unfold same_results in *. congruence.
Qed.

#[local] Instance same_handles_preorder : RelationClasses.PreOrder same_handles.
Proof.
  split; [intros x; now split|].
  intros x y z [H1 H1'] [H2 H2']. split; congruence.
Qed.

Section Loops.
Context {W : Type} `{OS W}.
Variable P : event -> Prop.
Variable F : dict * list string * list proc -> dict * list string * list proc -> Prop.
Context `{!RelationClasses.PreOrder F}.

Lemma ext_wait_for_loop (url : string) (n : nat) :
  (forall o, P (EvRun (Compare.curl_probe url) None o)) -> P (EvSleep 1) ->
  respects (@ext W P F) (Compare.wait_for_loop url n).
Proof.
  intros Hrun Hsleep. induction n as [|n IH]; cbn [Compare.wait_for_loop].
  - apply respects_ret. exact _.
  - ext_steps ltac:(auto) idtac. exact IH.
Qed.

Lemma ext_wait_for (url : string) (timeout : Z) :
  (forall o, P (EvRun (Compare.curl_probe url) None o)) -> P (EvSleep 1) ->
  respects (@ext W P F) (Compare.wait_for url timeout).
Proof. apply ext_wait_for_loop. Qed.

Lemma ext_run_scenarios_loop (url : string) (scs : list (string * Z * Z * Z)) :
  (forall t c d o, P (EvRun (Compare.wrk_cmd t c d url) None o)) ->
  (forall text, P (EvPrint text)) ->
  forall acc, respects (@ext W P F) (Compare.run_scenarios_loop url scs acc).
Proof.
  intros Hrun Hprint.
  induction scs as [|[[[sname t] c] d] scs IH]; intros acc;
    cbn [Compare.run_scenarios_loop].
  - apply respects_ret. exact _.
  - ext_steps ltac:(auto) idtac. apply IH.
Qed.

Lemma ext_run_scenarios (url : string) :
  (forall t c d o, P (EvRun (Compare.wrk_cmd t c d url) None o)) ->
  (forall text, P (EvPrint text)) ->
  respects (@ext W P F) (Compare.run_scenarios url).
Proof. intros. now apply ext_run_scenarios_loop. Qed.
End Loops.

(** An event is decided by computing, once the target and what came back
    from the world are known. *)
Ltac by_computing :=
  intros;
  repeat match goal with
         | k : fw_key |- _ => destruct k
         | o : outcome _ |- _ => destruct o
         end;
  reflexivity.

(** The steps of the functions of [compare.py]. *)
Ltac script_step ev fr :=
  lazymatch goal with
  | |- respects _ (Compare.wait_for _ _) => apply ext_wait_for
  | |- respects _ (Compare.run_scenarios _) => apply ext_run_scenarios
  | |- respects _ (Compare.docker_build _) => unfold Compare.docker_build
  | |- respects _ (Compare.docker_start _) => unfold Compare.docker_start
  | |- respects _ (Compare.docker_stop _) => unfold Compare.docker_stop
  | |- respects _ (Compare.local_build _) => unfold Compare.local_build
  | |- respects _ (Compare.local_start _) => unfold Compare.local_start
  | |- respects _ (Compare.measure _) => unfold Compare.measure
  | |- respects _ (Compare.process_target _ _) => unfold Compare.process_target
  | |- respects _ (Compare.stop_process _) => unfold Compare.stop_process
  | |- respects _ (Compare.check_deps _) => unfold Compare.check_deps
  | |- respects _ Compare.cleanup => unfold Compare.cleanup
  | |- respects _ (Compare.generate_report _ _ _ _ _) => unfold Compare.generate_report
  | |- _ => ext_step ev fr
  end.

Ltac script_steps ev fr := repeat (cbv zeta; script_step ev fr).

(** ** One target at a time, and no teardown before the end *)

Section Sequential.
Context {W : Type} `{OS W}.


End Sequential.

Lemma cleanup_only_tears_down {W : Type} `{OS W} :
  respects (@ext W (fun e => teardown e = true) any_frame)
    (cs <- get containers ;;
     for_each cs (fun c => Compare.docker_stop (Some c)) ;;
     ps <- get processes ;;
     for_each ps Compare.stop_process).
Proof. script_steps by_computing ltac:(exact I). Qed.




(** ** Every handle is released *)


Lemma started_is_handle (e : event) (c : string) : started e = Some c -> no_handle e = false.
Proof. unfold no_handle. now intros ->. Qed.

Lemma spawned_is_handle (e : event) (p : proc) : spawned e = Some p -> no_handle e = false.
Proof. unfold no_handle. intros ->. now destruct (started e). Qed.



Section Release.
Context {W : Type} `{OS W}.


(** Steps that create no handle and leave the two lists alone keep the
    handles tracked. *)
Lemma ext_keeps_tracked (s s' : state W) :
  ext (fun e => no_handle e = true) same_handles s s' -> tracked s -> tracked s'.
Proof.
  intros (evs & Htr & Hevs & Hc & Hp) (Ht1 & Ht2 & Ht3).
  unfold vars in Hc, Hp. cbn [fst snd] in Hc, Hp.
  rewrite Forall_forall in Hevs.
  repeat split.
  - intros e c Hin Hst. rewrite Hc. rewrite Htr in Hin.
    apply in_app_or in Hin as [Hin|Hin]; [eauto|].
    specialize (Hevs e Hin). rewrite (started_is_handle _ _ Hst) in Hevs. discriminate.
  - intros e p Hin Hsp. rewrite Hp. rewrite Htr in Hin.
    apply in_app_or in Hin as [Hin|Hin]; [eauto|].
    specialize (Hevs e Hin). rewrite (spawned_is_handle _ _ Hsp) in Hevs. discriminate.
  - now rewrite Hc.
Qed.


#[local] Instance keeps_tracked_preorder : RelationClasses.PreOrder (@keeps_tracked W).
Proof.
  split; [intros s; exact (fun h => h)|].
  intros s1 s2 s3 H12 H23 Hs. exact (H23 (H12 Hs)).
Qed.

Lemma quiet_keeps_tracked {A} (m : M W A) :
  respects (@ext W (fun e => no_handle e = true) same_handles) m ->
  respects (@keeps_tracked W) m.
Proof. apply respects_weaken. exact ext_keeps_tracked. Qed.

End Release.

#[local] Existing Instance keeps_tracked_preorder.

Section Body.
Context {W : Type} `{OS W}.

Lemma container_of_nonempty (fw : Compare.framework) :
  nonempty (Compare.container_of fw) = true.
Proof. unfold Compare.container_of. now destruct (Compare.docker_image fw). Qed.

(** A handle is tracked once it is appended to its list. *)
Lemma tracked_after_start (s s2 : state W) (evs0 : list event) (e : event) (c : string) :
  tracked s ->
  trace s2 = (trace s ++ evs0 ++ [e])%list ->
  Forall (fun x => no_handle x = true) evs0 ->
  started e = Some c -> spawned e = None -> nonempty c = true ->
  containers s2 = (containers s ++ [c])%list -> processes s2 = processes s ->
  tracked s2.
Proof.
  intros (Ht1 & Ht2 & Ht3) Htr Hevs Hst Hsp Hne Hc Hp.
  rewrite Forall_forall in Hevs. repeat split.
  - intros e' c' Hin Hst'. rewrite Hc. apply in_or_app. rewrite Htr in Hin.
    apply in_app_or in Hin as [Hin|Hin]; [left; eauto|].
    apply in_app_or in Hin as [Hin|[<-|[]]].
    + specialize (Hevs e' Hin). rewrite (started_is_handle _ _ Hst') in Hevs. discriminate.
    + right. left. congruence.
  - intros e' p Hin Hsp'. rewrite Hp. rewrite Htr in Hin.
    apply in_app_or in Hin as [Hin|Hin]; [eauto|].
    apply in_app_or in Hin as [Hin|[<-|[]]].
    + specialize (Hevs e' Hin). rewrite (spawned_is_handle _ _ Hsp') in Hevs. discriminate.
    + congruence.
  - rewrite Hc. apply Forall_app. split; [assumption | now constructor].
Qed.

Lemma tracked_after_spawn (s s2 : state W) (evs0 : list event) (e : event) (p : proc) :
  tracked s ->
  trace s2 = (trace s ++ evs0 ++ [e])%list ->
  Forall (fun x => no_handle x = true) evs0 ->
  spawned e = Some p -> started e = None ->
  containers s2 = containers s -> processes s2 = (processes s ++ [p])%list ->
  tracked s2.
Proof.
  intros (Ht1 & Ht2 & Ht3) Htr Hevs Hsp Hst Hc Hp.
  rewrite Forall_forall in Hevs. repeat split.
  - intros e' c Hin Hst'. rewrite Hc. rewrite Htr in Hin.
    apply in_app_or in Hin as [Hin|Hin]; [eauto|].
    apply in_app_or in Hin as [Hin|[<-|[]]].
    + specialize (Hevs e' Hin). rewrite (started_is_handle _ _ Hst') in Hevs. discriminate.
    + congruence.
  - intros e' p' Hin Hsp'. rewrite Hp. apply in_or_app. rewrite Htr in Hin.
    apply in_app_or in Hin as [Hin|Hin]; [left; eauto|].
    apply in_app_or in Hin as [Hin|[<-|[]]].
    + specialize (Hevs e' Hin). rewrite (spawned_is_handle _ _ Hsp') in Hevs. discriminate.
    + right. left. congruence.
  - now rewrite Hc.
Qed.

(** What [docker_start] leaves: a container that is up only when it
    returns its name, the start being the last thing that happened. *)
Lemma docker_start_cases (fw : Compare.framework) (s : state W) :
  let r := Compare.docker_start fw s in
  vars (snd r) = vars s /\
  exists evs,
    trace (snd r) = (trace s ++ evs)%list /\
    match fst r with
    | Ok (Some c) =>
        c = Compare.container_of fw /\
        exists evs0 e,
          evs = (evs0 ++ [e])%list /\ Forall (fun x => no_handle x = true) evs0 /\
          started e = Some c /\ spawned e = None
    | _ => Forall (fun x => no_handle x = true) evs
    end.
Proof.
  unfold Compare.docker_start, bind, subprocess_run, log, error, emit, ret. cbv zeta.
  destruct (os_run (Compare.docker_rm (Compare.container_of fw)) None (world s))
    as [[r1|e1] w1]; cbn [fst snd world trace all_results containers processes vars].
  2: { split; [reflexivity|]. eexists. split; [reflexivity|]. now repeat constructor. }
  destruct (os_run (Compare.docker_run fw) None w1) as [[r2|e2] w2];
    cbn [fst snd world trace all_results containers processes vars].
  2: { split; [reflexivity|]. eexists. split; [rewrite <- !app_assoc; reflexivity|].
       now repeat constructor. }
  destruct (returncode r2 =? 0) eqn:Erc;
    cbn [negb fst snd world trace all_results containers processes vars].
  - split; [reflexivity|]. eexists. split; [rewrite <- !app_assoc; reflexivity|].
    split; [reflexivity|].
    eexists [_; _], _. split; [reflexivity|]. split; [now repeat constructor|].
    split; [|reflexivity]. unfold started, Compare.docker_run. cbn. now rewrite Erc.
  - split; [reflexivity|]. eexists. split; [rewrite <- !app_assoc; reflexivity|].
    repeat constructor. unfold no_handle, started, Compare.docker_run. cbn.
    now rewrite Erc.
Qed.

Lemma docker_block (fw : Compare.framework) (m1 m2 : M W unit) :
  respects (@keeps_tracked W) m1 -> respects (@keeps_tracked W) m2 ->
  respects (@keeps_tracked W)
    (container <- Compare.docker_start fw ;;
     match container with
     | None => m1
     | Some c => containers_append c ;; m2
     end).
Proof.
  intros H1 H2 s Ht. unfold bind.
  destruct (docker_start_cases fw s) as (Hv & evs & Htr & Hcase).
  destruct (Compare.docker_start fw s) as [[[c|]|e] s1];
    cbn [fst snd] in *; unfold vars in Hv; inversion Hv as [[Ha Hc Hp]].
  - destruct Hcase as (-> & evs0 & e & -> & Hevs & Hst & Hsp).
    unfold containers_append. apply H2.
    eapply tracked_after_start; eauto using container_of_nonempty; cbn; congruence.
  - apply H1. apply (ext_keeps_tracked s); [|exact Ht].
    exists evs. repeat split; assumption.
  - apply (ext_keeps_tracked s); [|exact Ht].
    exists evs. repeat split; assumption.
Qed.

(** What [local_start] leaves: a process when it returns one, the spawn
    being the last thing that happened. *)
Lemma local_start_cases (k : fw_key) (s : state W) :
  let r := Compare.local_start k s in
  vars (snd r) = vars s /\
  exists evs,
    trace (snd r) = (trace s ++ evs)%list /\
    match fst r with
    | Ok p =>
        exists evs0 e,
          evs = (evs0 ++ [e])%list /\ Forall (fun x => no_handle x = true) evs0 /\
          spawned e = Some p /\ started e = None
    | Raise _ => Forall (fun x => no_handle x = true) evs
    end.
Proof.
  unfold Compare.local_start, bind, subprocess_Popen, log, emit. cbv zeta.
  cbn [fst snd world trace all_results containers processes vars].
  destruct (os_popen _ _ (world s)) as [[p|e] w1];
    cbn [fst snd world trace all_results containers processes vars].
  - split; [reflexivity|]. eexists. split; [rewrite <- !app_assoc; reflexivity|].
    eexists [_], _. split; [reflexivity|]. split; [now repeat constructor|].
    split; reflexivity.
  - split; [reflexivity|]. eexists. split; [rewrite <- !app_assoc; reflexivity|].
    now repeat constructor.
Qed.

Lemma local_block (k : fw_key) (m2 : M W unit) :
  respects (@keeps_tracked W) m2 ->
  respects (@keeps_tracked W)
    (p <- Compare.local_start k ;; processes_append p ;; m2).
Proof.
  intros H2 s Ht. unfold bind.
  destruct (local_start_cases k s) as (Hv & evs & Htr & Hcase).
  destruct (Compare.local_start k s) as [[p|e] s1];
    cbn [fst snd] in *; unfold vars in Hv; inversion Hv as [[Ha Hc Hp]].
  - destruct Hcase as (evs0 & e & -> & Hevs & Hsp & Hst).
    unfold processes_append. apply H2.
    eapply tracked_after_spawn; eauto; cbn; congruence.
  - apply (ext_keeps_tracked s); [|exact Ht].
    exists evs. repeat split; assumption.
Qed.

(** The steps of one turn of the loop of [main]. *)
Ltac track_step :=
  lazymatch goal with
  | |- RelationClasses.PreOrder _ => exact _
  | |- forall _, _ => intros ?
  | |- respects _ (bind (Compare.docker_start _) _) => apply docker_block
  | |- respects _ (bind (Compare.local_start _) _) => apply local_block
  | |- respects _ (bind _ _) => apply respects_bind
  | |- respects _ (if ?b then _ else _) => destruct b
  | |- respects _ (match ?x with _ => _ end) => destruct x
  | |- respects _ _ =>
      apply quiet_keeps_tracked;
      script_steps by_computing ltac:(split; reflexivity)
  end.

Lemma process_target_keeps_tracked (a : Compare.args) (k : fw_key) :
  respects (@keeps_tracked W) (Compare.process_target a k).
Proof. unfold Compare.process_target. repeat (cbv zeta; track_step). Qed.

Lemma loop_keeps_tracked (a : Compare.args) :
  respects (@keeps_tracked W)
    (for_each (Compare.frameworks a) (Compare.process_target a)).
Proof.
  apply respects_for_each; [exact _|]. intros k _. apply process_target_keeps_tracked.
Qed.

End Body.

Lemma bind_ok {W A B : Type} (m : M W A) (k : A -> M W B) (s s1 : state W) (a : A) :
  m s = (Ok a, s1) -> bind m k s = k a s1.
Proof. unfold bind. now intros ->. Qed.

Section Cleanup.
Context {W : Type} `{OS W}.
Hypothesis rm_returns : docker_rm_returns.

Lemma docker_stop_returns (c : string) (s : state W) :
  nonempty c = true ->
  exists r w,
    Compare.docker_stop (Some c) s
    = (Ok tt, State w (trace s ++ [EvRun (Compare.docker_rm c) None (Returns r)])
                    (all_results s) (containers s) (processes s)).
Proof.
  intros Hne. unfold Compare.docker_stop, bind, subprocess_run, ret. rewrite Hne.
  destruct (rm_returns c (world s)) as [r Hr].
  destruct (os_run (Compare.docker_rm c) None (world s)) as [o w].
  cbn [fst] in Hr. subst o. now exists r, w.
Qed.



Lemma stop_process_unfold (p : proc) (s : state W) :
  Compare.stop_process p s
  = let (b, w) := os_wait p 5 (os_terminate p (world s)) in
    (Ok tt,
     State (if b then w else os_kill p w)
           (trace s ++ EvTerminate p :: EvWait p 5 b :: (if b then [] else [EvKill p]))
           (all_results s) (containers s) (processes s)).
Proof.
  unfold Compare.stop_process, bind, proc_terminate, proc_wait, proc_kill, ret.
  cbn [world trace all_results containers processes].
  destruct (os_wait p 5 (os_terminate p (world s))) as [[] w];
    cbn [world trace all_results containers processes];
    rewrite <- !app_assoc; reflexivity.
Qed.




End Cleanup.

Section Run.
Context {W : Type} `{OS W}.

(** A sequence whose first part takes [I] to [I'], where [I'] is enough for
    [Q] if the run stops there and is what the rest needs to reach [Q]. *)
Lemma bind_stage {A B} (I I' Q : state W -> Prop) (m : M W A) (k : A -> M W B)
    (s : state W) :
  I s ->
  (forall s, I s -> I' (snd (m s))) ->
  (forall s, I' s -> Q s) ->
  (forall a s, I' s -> Q (snd (k a s))) ->
  Q (snd (bind m k s)).
Proof.
  intros Hs Hm HQ Hk. unfold bind. specialize (Hm s Hs).
  destruct (m s) as [[a|e] s1]; cbn [snd] in *; auto.
Qed.




End Run.



(** ** The result set *)








Section ResultSet.
Context {W : Type} `{OS W}.








End ResultSet.



Section Invariants.
Context {W : Type} `{OS W}.



#[local] Instance keeps_results_ok_preorder :
  RelationClasses.PreOrder (@keeps_results_ok W).
Proof.
  split; [intros s; exact (fun h => h)|].
  intros s1 s2 s3 H12 H23 Hs. exact (H23 (H12 Hs)).
Qed.






End Invariants.

#[local] Existing Instance keeps_results_ok_preorder.


Section FinalResults.
Context {W : Type} `{OS W}.
Variable sections : dict -> system_info -> bool -> string.





End FinalResults.






Lemma good_os_rm_returns : @docker_rm_returns machine good_os.
Proof. intros c w. eexists. reflexivity. Qed.



(** ** Stopping twice *)





(** * Further properties of the scripts *)

(** ** The two modes of [compare.py] *)

#[local] Instance same_containers_preorder : RelationClasses.PreOrder same_containers.
Proof.
  split; [intros x; reflexivity|].
  intros x y z H1 H2. unfold same_containers in *. congruence.
Qed.

#[local] Instance same_processes_preorder : RelationClasses.PreOrder same_processes.
Proof.
  split; [intros x; reflexivity|].
  intros x y z H1 H2. unfold same_processes in *. congruence.
Qed.

Section Modes.
Context {W : Type} `{OS W}.

(** Steps whose events satisfy [P] and that move the containers of
    [main] within a frame that keeps [J], keep [all_events P J]. *)
Lemma ext_keeps_all_events (P : event -> bool)
    (F : dict * list string * list proc -> dict * list string * list proc -> Prop)
    (J : dict * list string * list proc -> Prop) {A} (m : M W A) :
  (forall v v', F v v' -> J v -> J v') ->
  respects (@ext W (fun e => P e = true) F) m ->
  forall s, all_events P J s -> all_events P J (snd (m s)).
Proof.
  intros HF Hm s [Hall HJ]. destruct (Hm s) as (evs & Htr & Hevs & Hfr). split.
  - rewrite Htr. apply Forall_app. now split.
  - exact (HF _ _ Hfr HJ).
Qed.

Lemma main_try_state (a : Compare.args) (s : state W) :
  snd (Compare.main_try a s)
  = snd (Compare.cleanup
           (snd (for_each (Compare.frameworks a) (Compare.process_target a) s))).
Proof.
  unfold Compare.main_try, try_finally.
  destruct (for_each (Compare.frameworks a) (Compare.process_target a) s) as [r s1].
  cbn [snd]. now destruct (Compare.cleanup s1) as [[[]|e] s2].
Qed.

(** Without containers the cleanup phase stops the processes only. *)
Lemma cleanup_no_containers (s : state W) :
  containers s = [] ->
  Compare.cleanup s
  = (log "Cleaning up..." ;; ps <- get processes ;;
     for_each ps Compare.stop_process) s.
Proof.
  intros Hc. unfold Compare.cleanup, bind, log, emit, get.
  cbn [containers processes for_each]. rewrite Hc. reflexivity.
Qed.

(** Without processes it removes the containers only. *)
Lemma cleanup_no_processes (s : state W) :
  processes s = [] ->
  snd (Compare.cleanup s)
  = snd ((log "Cleaning up..." ;; cs <- get containers ;;
          for_each cs (fun c => Compare.docker_stop (Some c))) s).
Proof.
  intros Hp.
  assert (Hkeep : respects (@ext W (fun _ => True) same_processes)
                    (for_each (containers s) (fun c => Compare.docker_stop (Some c)))).
  { script_steps ltac:(exact I) ltac:(reflexivity). }
  unfold Compare.cleanup, bind, log, emit, get.
  cbn [containers processes trace world all_results].
  match goal with |- context [for_each (containers s) ?f ?s1] =>
    destruct (Hkeep s1) as (_ & _ & _ & Hps);
    destruct (for_each (containers s) f s1) as [[[]|e] s2]
  end; cbn [snd] in *; [|reflexivity].
  unfold same_processes, vars in Hps. cbn [snd processes] in Hps.
  rewrite Hps, Hp. reflexivity.
Qed.

End Modes.

(** The steps of [main] once the flags of the command line are known. *)
Ltac mode_steps ev fr :=
  repeat (cbv zeta;
          cbn [Compare.docker Compare.skip_build Compare.frameworks Compare.output negb];
          script_step ev fr).

(** One step of [main] that keeps [all_events P J], its events being in
    [P] and its frame [F] keeping [J]. *)
Ltac stage_step P J F :=
  apply (bind_stage (all_events P J) (all_events P J) (all_events P J));
  [ assumption
  | apply (ext_keeps_all_events P F J);
    [ unfold F, J; intros [[? ?] ?] [[? ?] ?]; cbn; congruence
    | mode_steps by_computing ltac:(intros; reflexivity) ]
  | auto
  | intros ? ? ? ].

(** X1: the two modes of [compare.py] do not mix.  Without [--docker]
    no command of a run of [main] is a [docker] command; with it, no
    [npm] or [cargo] command is run, no process is spawned and none is
    terminated, waited for or killed. *)
Theorem modes_do_not_mix :
  forall (W : Type) (os : OS W) (sections : dict -> system_info -> bool -> string)
         (a : Compare.args) (w : W),
    let tr := trace (snd (Compare.main sections a (state0 w))) in
    (Compare.docker a = false -> Forall (fun e => local_only e = true) tr) /\
    (Compare.docker a = true -> Forall (fun e => docker_only e = true) tr).
Proof.
  intros W os sections [fs out d sb] w tr. subst tr.
  split; intros Hd; cbn [Compare.docker] in Hd; subst d.
  - assert (Hall : all_events local_only no_containers
                    (snd (Compare.main sections (Compare.Args fs out false sb)
                            (state0 w)))); [|exact (proj1 Hall)].
    assert (H0 : all_events local_only no_containers (state0 w))
      by (split; [constructor | reflexivity]).
    revert H0. generalize (state0 w). intros s Hs. unfold Compare.main.
    do 6 (stage_step local_only no_containers same_containers). cbv zeta.
    apply (bind_stage (all_events local_only no_containers)
             (all_events local_only no_containers)
             (all_events local_only no_containers)); [assumption| |auto|].
    + intros s' Hs'. rewrite main_try_state.
      assert (Hloop : all_events local_only no_containers
                (snd (for_each fs
                        (Compare.process_target (Compare.Args fs out false sb)) s'))).
      { revert s' Hs'. apply (ext_keeps_all_events local_only same_containers).
        - unfold same_containers, no_containers. intros [[? ?] ?] [[? ?] ?]. cbn. congruence.
        - mode_steps by_computing ltac:(intros; reflexivity). }
      rewrite cleanup_no_containers by exact (proj2 Hloop).
      revert Hloop. apply (ext_keeps_all_events local_only same_containers).
      * unfold same_containers, no_containers. intros [[? ?] ?] [[? ?] ?]. cbn. congruence.
      * mode_steps by_computing ltac:(intros; reflexivity).
    + intros _ s' Hs'.
      stage_step local_only no_containers same_containers.
      match goal with
      | |- all_events _ _ (snd (_ ?st)) =>
          match goal with Hst : all_events _ _ st |- _ => revert st Hst end
      end.
      apply (ext_keeps_all_events local_only same_containers).
      * unfold same_containers, no_containers. intros [[? ?] ?] [[? ?] ?]. cbn. congruence.
      * mode_steps by_computing ltac:(intros; reflexivity).
  - assert (Hall : all_events docker_only no_processes
                    (snd (Compare.main sections (Compare.Args fs out true sb)
                            (state0 w)))); [|exact (proj1 Hall)].
    assert (H0 : all_events docker_only no_processes (state0 w))
      by (split; [constructor | reflexivity]).
    revert H0. generalize (state0 w). intros s Hs. unfold Compare.main.
    do 6 (stage_step docker_only no_processes same_processes). cbv zeta.
    apply (bind_stage (all_events docker_only no_processes)
             (all_events docker_only no_processes)
             (all_events docker_only no_processes)); [assumption| |auto|].
    + intros s' Hs'. rewrite main_try_state.
      assert (Hloop : all_events docker_only no_processes
                (snd (for_each fs
                        (Compare.process_target (Compare.Args fs out true sb)) s'))).
      { revert s' Hs'. apply (ext_keeps_all_events docker_only same_processes).
        - unfold same_processes, no_processes. intros [[? ?] ?] [[? ?] ?]. cbn. congruence.
        - mode_steps by_computing ltac:(intros; reflexivity). }
      rewrite cleanup_no_processes by exact (proj2 Hloop).
      revert Hloop. apply (ext_keeps_all_events docker_only same_processes).
      * unfold same_processes, no_processes. intros [[? ?] ?] [[? ?] ?]. cbn. congruence.
      * mode_steps by_computing ltac:(intros; reflexivity).
    + intros _ s' Hs'.
      stage_step docker_only no_processes same_processes.
      match goal with
      | |- all_events _ _ (snd (_ ?st)) =>
          match goal with Hst : all_events _ _ st |- _ => revert st Hst end
      end.
      apply (ext_keeps_all_events docker_only same_processes).
      * unfold same_processes, no_processes. intros [[? ?] ?] [[? ?] ?]. cbn. congruence.
      * mode_steps by_computing ltac:(intros; reflexivity).
Qed.

(** A witness of X1: a run without [--docker] on the machine where no
    server answers at first, and a run with it where every command
    succeeds. *)
Lemma modes_do_not_mix_witness :
  Forall (fun e => local_only e = true)
    (trace (snd (@Compare.main machine cold_os (fun _ _ _ => "")
                   (Compare.Args [metassr; nextjs] "out" false false)
                   (state0 machine0)))) /\
  Forall (fun e => docker_only e = true)
    (trace (snd (@Compare.main machine good_os (fun _ _ _ => "")
                   (Compare.Args [metassr; nextjs] "out" true false)
                   (state0 machine0)))).
Proof.
  split.
  - apply (proj1 (modes_do_not_mix machine cold_os (fun _ _ _ => "")
                    (Compare.Args [metassr; nextjs] "out" false false) machine0)).
    reflexivity.
  - apply (proj2 (modes_do_not_mix machine good_os (fun _ _ _ => "")
                    (Compare.Args [metassr; nextjs] "out" true false) machine0)).
    reflexivity.
Defined.

(** ** [--skip-build] *)


(** ** A server that is already running *)

Section Reuse.
Context {W : Type} `{OS W}.

(** What the readiness gate returns depends on the world only. *)
Lemma wait_for_loop_world (url : string) (n : nat) :
  forall s1 s2 : state W,
    world s1 = world s2 ->
    fst (Compare.wait_for_loop url n s1) = fst (Compare.wait_for_loop url n s2).
Proof.
  induction n as [|n IH]; intros s1 s2 Hw; [reflexivity|].
  rewrite !wait_for_loop_step, Hw.
  destruct (os_run (Compare.curl_probe url) None (world s2)) as [o w].
  cbv beta iota zeta. destruct (probe_ok o); [reflexivity|].
  apply IH. reflexivity.
Qed.

Lemma measure_is_quiet (k : fw_key) :
  respects (@ext W (fun e => no_handle e && no_build e = true) same_handles)
    (Compare.measure k).
Proof. script_steps by_computing ltac:(intros; split; reflexivity). Qed.

End Reuse.

(** X3: without [--docker], a target whose server answers the first
    readiness check (two probes at most) is measured as it is: nothing is
    installed or built for it, no process is spawned and no container
    started, and the two lists of handles stay as they were, so that
    the cleanup phase will not stop a server the harness has not
    started.  The run says so ("... already running on port ..."). *)
Theorem running_server_is_reused :
  forall (W : Type) (os : OS W) (a : Compare.args) (k : fw_key) (s : state W),
    let fw := Compare.FRAMEWORKS k in
    Compare.docker a = false ->
    fst (Compare.wait_for (Compare.url_of fw) 2 s) = Ok true ->
    let s' := snd (Compare.process_target a k s) in
    processes s' = processes s /\ containers s' = containers s /\
    exists evs,
      trace s' = (trace s ++ evs)%list /\
      Forall (fun e => no_handle e && no_build e = true) evs /\
      In (EvLog (Compare.name fw ++ " already running on port "
                 ++ str_of_Z (Compare.port fw))) evs.
Proof.
  intros W os [fs out d sb] k s fw Hd Hup s'. cbn [Compare.docker] in Hd. subst d.
  set (s1 := State (world s)
               (trace s ++ [EvPrint (nl ++ Compare.C.B ++ "--- " ++ Compare.name fw
                                     ++ " ---" ++ Compare.C.NC)])
               (all_results s) (containers s) (processes s)).
  set (s2 := snd (Compare.wait_for (Compare.url_of fw) 2 s1)).
  set (s3 := State (world s2)
               (trace s2 ++ [EvLog (Compare.name fw ++ " already running on port "
                                    ++ str_of_Z (Compare.port fw))])
               (all_results s2) (containers s2) (processes s2)).
  assert (Heq : Compare.process_target (Compare.Args fs out false sb) k s
                = Compare.measure k s3).
  { assert (Hup1 : fst (Compare.wait_for (Compare.url_of fw) 2 s1) = Ok true).
    { rewrite <- Hup. apply wait_for_loop_world. reflexivity. }
    subst s3 s2. unfold Compare.process_target, bind, print, log, emit.
    cbn [Compare.docker]. cbv zeta. fold fw. fold s1.
    destruct (Compare.wait_for (Compare.url_of fw) 2 s1) as [r s2].
    cbn [fst snd] in *. subst r. reflexivity. }
  subst s'. rewrite Heq.
  destruct (ext_wait_for (fun e => no_handle e && no_build e = true) same_handles
              (Compare.url_of fw) 2 ltac:(by_computing) eq_refl s1)
    as (evs1 & Htr1 & Hevs1 & Hc1 & Hp1).
  fold s2 in Htr1, Hc1, Hp1.
  destruct (measure_is_quiet k s3) as (evs3 & Htr3 & Hevs3 & Hc3 & Hp3).
  unfold vars in *. cbn [fst snd] in *.
  subst s3 s1. cbn [trace containers processes] in *.
  repeat split; [congruence | congruence |].
  eexists. split; [rewrite Htr3, Htr1, <- !app_assoc; reflexivity|]. split.
  - constructor; [subst fw; destruct k; reflexivity|].
    apply Forall_app. split; [assumption|].
    constructor; [reflexivity | assumption].
  - cbn. right. apply in_or_app. right. now left.
Qed.

(** A witness of X3: MetaSSR on the machine where every command
    succeeds. *)
Lemma running_server_is_reused_witness :
  let s' := snd (@Compare.process_target machine good_os
                   (Compare.Args [metassr] "out" false false) metassr
                   (state0 machine0)) in
  processes s' = [] /\ containers s' = [] /\
  exists evs,
    trace s' = ([] ++ evs)%list /\
    Forall (fun e => no_handle e && no_build e = true) evs /\
    In (EvLog "MetaSSR already running on port 8080") evs.
Proof.
  exact (running_server_is_reused machine good_os
           (Compare.Args [metassr] "out" false false) metassr (state0 machine0)
           eq_refl eq_refl).
Defined.

(** ** How [main] of [compare.py] ends *)

Lemma app_split_right {A : Type} (Q : A -> bool) (l1 : list A) (e : A) (l2 tr evs : list A) :
  (l1 ++ e :: l2 = tr ++ evs)%list ->
  Forall (fun x => Q x = true) tr -> Q e = false ->
  exists l1', l1 = (tr ++ l1')%list.
Proof.
  revert l1. induction tr as [|x tr IH]; intros l1 Heq Htr He.
  - now exists l1.
  - inversion Htr as [|? ? Hx Htr']; subst.
    destruct l1 as [|y l1]; cbn in Heq; inversion Heq; subst; [congruence|].
    destruct (IH l1 H1 Htr' He) as [l1' ->]. now exists l1'.
Qed.

Section Ending.
Context {W : Type} `{OS W}.

(** Stages of a sequence, for a property of what it returns. *)
Lemma bind_stage_result {A B} (I I' : state W -> Prop)
    (Q : result B * state W -> Prop) (m : M W A) (k : A -> M W B) (s : state W) :
  I s ->
  (forall s, I s -> I' (snd (m s))) ->
  (forall e s, I' s -> Q (Raise e, s)) ->
  (forall a s, I' s -> Q (k a s)) ->
  Q (bind m k s).
Proof.
  intros Hs Hm HQ Hk. unfold bind. specialize (Hm s Hs).
  destruct (m s) as [[a|e] s1]; cbn [snd] in *; auto.
Qed.

Lemma main_ending_raise (e : exn) (s : state W) :
  Forall (fun x => before_report x = true) (trace s) ->
  main_ending (Raise e, s).
Proof.
  intros Hall. rewrite Forall_forall in Hall. unfold main_ending. cbn [fst snd].
  repeat split.
  - discriminate.
  - intros (x & Hin & Hw). specialize (Hall x Hin).
    unfold before_report in Hall. rewrite Hw in Hall. discriminate.
  - discriminate.
  - specialize (Hall _ H0). discriminate.
  - specialize (Hall _ H0). discriminate.
  - intros l1 x l2 Htr Hw.
    assert (Hx : before_report x = true)
      by (apply Hall; rewrite Htr; apply in_or_app; right; now left).
    unfold before_report in Hx. rewrite Hw in Hx. discriminate.
Qed.

(** The cleanup phase says that it begins and tears down, no more. *)
Lemma cleanup_events (s : state W) :
  exists evs,
    trace (snd (Compare.cleanup s)) = (trace s ++ EvLog "Cleaning up..." :: evs)%list /\
    Forall (fun e => teardown e = true) evs.
Proof.
  unfold Compare.cleanup. unfold bind at 1, log, emit. cbn [fst snd].
  match goal with |- context [bind ?m ?k ?st] =>
    destruct (cleanup_only_tears_down st) as (evs & Htr & Hevs & _)
  end.
  exists evs. split; [|exact Hevs]. rewrite Htr. cbn [trace].
  rewrite <- app_assoc. reflexivity.
Qed.

End Ending.

(** X4: [main] of [compare.py] returns normally exactly when it has
    written its report, and it has results then; when no target was
    benchmarked it says so and exits with the status 1, having written
    nothing; and the report is written only after the cleanup phase. *)
Theorem main_returns_iff_report_written :
  forall (W : Type) (os : OS W) (sections : dict -> system_info -> bool -> string)
         (a : Compare.args) (w : W),
    let r := Compare.main sections a (state0 w) in
    (fst r = Ok tt <-> exists e, In e (trace (snd r)) /\ writes e = true) /\
    (fst r = Ok tt -> all_results (snd r) <> []) /\
    (In (EvError "No benchmark results collected") (trace (snd r)) ->
     fst r = Raise (SystemExit 1) /\ all_results (snd r) = []) /\
    (forall l1 e l2,
       trace (snd r) = (l1 ++ e :: l2)%list -> writes e = true ->
       In (EvLog "Cleaning up...") l1).
Proof.
  intros W os sections a w r. subst r.
  change (main_ending (Compare.main sections a (state0 w))).
  assert (H0 : all_events before_report (fun _ => True) (state0 w))
    by (split; [constructor | exact I]).
  revert H0. generalize (state0 w). intros s Hs. unfold Compare.main.
  do 6 (apply (bind_stage_result (all_events before_report (fun _ => True))
                 (all_events before_report (fun _ => True)));
        [ assumption
        | apply (ext_keeps_all_events before_report any_frame); [auto|];
          script_steps by_computing ltac:(exact I)
        | intros ? ? [? _]; now apply main_ending_raise
        | intros ? ? ? ]).
  cbv zeta.
  apply (bind_stage_result (all_events before_report (fun _ => True))
           (fun s => Forall (fun x => before_report x = true) (trace s) /\
                     In (EvLog "Cleaning up...") (trace s))).
  - assumption.
  - intros s' Hs'. rewrite main_try_state.
    assert (Hloop : all_events before_report (fun _ => True)
              (snd (for_each (Compare.frameworks a) (Compare.process_target a) s'))).
    { revert s' Hs'. apply (ext_keeps_all_events before_report any_frame); [auto|].
      script_steps by_computing ltac:(exact I). }
    revert Hloop.
    generalize (snd (for_each (Compare.frameworks a) (Compare.process_target a) s')).
    intros sl [Hall _].
    destruct (cleanup_events sl) as (evs & Htr & Hevs).
    rewrite Htr. split.
    + apply Forall_app. split; [assumption|].
      constructor; [reflexivity|].
      revert Hevs. apply Forall_impl. intros e He.
      unfold before_report. destruct e; try reflexivity; discriminate.
    + apply in_or_app. right. now left.
  - intros e s' [Hall _]. now apply main_ending_raise.
  - intros _ s' [Hall Hcl]. unfold bind at 1, get. cbn [fst snd].
    destruct (all_results s') as [|kv res] eqn:Hres.
    + unfold bind, error, emit, raise. cbn [fst snd].
      unfold main_ending. cbn [fst snd trace all_results].
      rewrite Forall_forall in Hall. repeat split.
      * discriminate.
      * intros (x & Hin & Hw). apply in_app_or in Hin as [Hin|[<-|[]]]; [|discriminate].
        specialize (Hall x Hin). unfold before_report in Hall.
        rewrite Hw in Hall. discriminate.
      * discriminate.
      * assumption.
      * intros l1 x l2 Htr Hw.
        assert (Hin : In x (trace s' ++ [EvError "No benchmark results collected"]))
          by (rewrite Htr; apply in_or_app; right; now left).
        apply in_app_or in Hin as [Hin|[<-|[]]]; [|discriminate].
        specialize (Hall x Hin). unfold before_report in Hall.
        rewrite Hw in Hall. discriminate.
    + set (res' := kv :: res) in *.
      unfold Compare.generate_report, bind, lift, datetime_now, emit, print, emit,
        ret, set_world.
      destruct (Compare.head_to_head res') as [h2h|e]; cbn [fst snd];
        [|now apply main_ending_raise].
      cbn [world trace].
      destruct (os_now "%Y-%m-%d-%H-%M-%S" (world s')) as [stamp w1]. cbn [world trace].
      destruct (os_now "iso" w1) as [timestamp w2].
      cbn [fst snd world trace all_results].
      unfold main_ending. cbn [fst snd trace all_results].
      rewrite <- !app_assoc. cbn [app].
      split; [split|split; [|split]].
      * intros _. eexists. split; [apply in_or_app; right; now left | reflexivity].
      * reflexivity.
      * intros _. rewrite Hres. subst res'. discriminate.
      * intros Hin. exfalso. apply in_app_or in Hin as [Hin|Hin].
        -- rewrite Forall_forall in Hall. specialize (Hall _ Hin). discriminate.
        -- cbn in Hin. intuition discriminate.
      * intros l1 x l2 Htr Hw.
        destruct (app_split_right before_report _ _ _ _ _ (eq_sym Htr) Hall) as [l1' ->].
        -- unfold before_report. now rewrite Hw.
        -- apply in_or_app. now left.
Qed.

(** ** Every handle is released once *)

Lemma started_in_app (l1 l2 : list event) :
  started_in (l1 ++ l2) = (started_in l1 ++ started_in l2)%list.
Proof. apply flat_map_app. Qed.

Lemma spawned_in_app (l1 l2 : list event) :
  spawned_in (l1 ++ l2) = (spawned_in l1 ++ spawned_in l2)%list.
Proof. apply flat_map_app. Qed.

Lemma no_handle_started_in (l : list event) :
  Forall (fun e => no_handle e = true) l -> started_in l = [] /\ spawned_in l = [].
Proof.
  induction 1 as [|e l He _ [IH1 IH2]]; [now split|].
  unfold started_in, spawned_in in *. cbn [flat_map]. rewrite IH1, IH2.
  unfold no_handle in He.
  destruct (started e); [discriminate|]. destruct (spawned e); [discriminate|].
  now split.
Qed.

Section Once.
Context {W : Type} `{OS W}.

#[local] Instance keeps_recorded_preorder : RelationClasses.PreOrder (@keeps_recorded W).
Proof.
  split; [intros s; exact (fun h => h)|].
  intros s1 s2 s3 H12 H23 Hs. exact (H23 (H12 Hs)).
Qed.

Lemma ext_keeps_recorded (s s' : state W) :
  ext (fun e => no_handle e = true) same_handles s s' -> recorded s -> recorded s'.
Proof.
  intros (evs & Htr & Hevs & Hc & Hp) [Hrc Hrp].
  unfold vars in Hc, Hp. cbn [fst snd] in Hc, Hp.
  destruct (no_handle_started_in evs Hevs) as [Hs1 Hs2].
  split.
  - now rewrite Hc, Htr, started_in_app, Hs1, app_nil_r.
  - now rewrite Hp, Htr, spawned_in_app, Hs2, app_nil_r.
Qed.

Lemma quiet_keeps_recorded {A} (m : M W A) :
  respects (@ext W (fun e => no_handle e = true) same_handles) m ->
  respects (@keeps_recorded W) m.
Proof. apply respects_weaken. exact ext_keeps_recorded. Qed.

Lemma docker_block_recorded (fw : Compare.framework) (m1 m2 : M W unit) :
  respects (@keeps_recorded W) m1 -> respects (@keeps_recorded W) m2 ->
  respects (@keeps_recorded W)
    (container <- Compare.docker_start fw ;;
     match container with
     | None => m1
     | Some c => containers_append c ;; m2
     end).
Proof.
  intros H1 H2 s Hr. unfold bind.
  destruct (docker_start_cases fw s) as (Hv & evs & Htr & Hcase).
  destruct (Compare.docker_start fw s) as [[[c|]|e] s1];
    cbn [fst snd] in *; unfold vars in Hv; inversion Hv as [[Ha Hc Hp]].
  - destruct Hcase as (-> & evs0 & e & -> & Hevs & Hst & Hsp).
    unfold containers_append. apply H2.
    destruct Hr as [Hrc Hrp].
    destruct (no_handle_started_in evs0 Hevs) as [Hs1 Hs2].
    split; cbn [containers processes trace].
    + rewrite Hc, Htr, !started_in_app, Hs1, Hrc. cbn [app].
      unfold started_in at 3. cbn [flat_map]. now rewrite Hst.
    + rewrite Hp, Htr, !spawned_in_app, Hs2, Hrp. cbn [app].
      unfold spawned_in at 3. cbn [flat_map]. rewrite Hsp. now rewrite app_nil_r.
  - apply H1. apply (ext_keeps_recorded s); [|exact Hr].
    exists evs. repeat split; assumption.
  - apply (ext_keeps_recorded s); [|exact Hr].
    exists evs. repeat split; assumption.
Qed.

Lemma local_block_recorded (k : fw_key) (m2 : M W unit) :
  respects (@keeps_recorded W) m2 ->
  respects (@keeps_recorded W)
    (p <- Compare.local_start k ;; processes_append p ;; m2).
Proof.
  intros H2 s Hr. unfold bind.
  destruct (local_start_cases k s) as (Hv & evs & Htr & Hcase).
  destruct (Compare.local_start k s) as [[p|e] s1];
    cbn [fst snd] in *; unfold vars in Hv; inversion Hv as [[Ha Hc Hp]].
  - destruct Hcase as (evs0 & e & -> & Hevs & Hsp & Hst).
    unfold processes_append. apply H2.
    destruct Hr as [Hrc Hrp].
    destruct (no_handle_started_in evs0 Hevs) as [Hs1 Hs2].
    split; cbn [containers processes trace].
    + rewrite Hc, Htr, !started_in_app, Hs1, Hrc. cbn [app].
      unfold started_in at 3. cbn [flat_map]. rewrite Hst. now rewrite app_nil_r.
    + rewrite Hp, Htr, !spawned_in_app, Hs2, Hrp. cbn [app].
      unfold spawned_in at 3. cbn [flat_map]. now rewrite Hsp.
  - apply (ext_keeps_recorded s); [|exact Hr].
    exists evs. repeat split; assumption.
Qed.

End Once.

#[local] Existing Instance keeps_recorded_preorder.

(** The steps of one turn of the loop of [main], for [recorded]. *)
Ltac record_step :=
  lazymatch goal with
  | |- RelationClasses.PreOrder _ => exact _
  | |- forall _, _ => intros ?
  | |- respects _ (bind (Compare.docker_start _) _) => apply docker_block_recorded
  | |- respects _ (bind (Compare.local_start _) _) => apply local_block_recorded
  | |- respects _ (bind _ _) => apply respects_bind
  | |- respects _ (if ?b then _ else _) => destruct b
  | |- respects _ (match ?x with _ => _ end) => destruct x
  | |- respects _ _ =>
      apply quiet_keeps_recorded;
      script_steps by_computing ltac:(split; reflexivity)
  end.

Section OnceLoop.
Context {W : Type} `{OS W}.

Lemma process_target_keeps_recorded (a : Compare.args) (k : fw_key) :
  respects (@keeps_recorded W) (Compare.process_target a k).
Proof. unfold Compare.process_target. repeat (cbv zeta; record_step). Qed.

Lemma loop_keeps_recorded (a : Compare.args) :
  respects (@keeps_recorded W)
    (for_each (Compare.frameworks a) (Compare.process_target a)).
Proof.
  apply respects_for_each; [exact _|]. intros k _. apply process_target_keeps_recorded.
Qed.

End OnceLoop.

Section OnceCleanup.
Context {W : Type} `{OS W}.
Hypothesis rm_returns : docker_rm_returns.

Lemma recorded_tracked (s : state W) :
  recorded s -> Forall (fun c => nonempty c = true) (containers s) -> tracked s.
Proof.
  intros [Hc Hp] Hne. repeat split; [| |exact Hne].
  - intros e c Hin Hst. rewrite Hc. unfold started_in. apply in_flat_map.
    exists e. split; [exact Hin|]. rewrite Hst. now left.
  - intros e p Hin Hsp. rewrite Hp. unfold spawned_in. apply in_flat_map.
    exists e. split; [exact Hin|]. rewrite Hsp. now left.
Qed.

Lemma stop_containers_once (cs : list string) :
  Forall (fun c => nonempty c = true) cs ->
  forall s : state W,
    let r := for_each cs (fun c => Compare.docker_stop (Some c)) s in
    fst r = Ok tt /\ vars (snd r) = vars s /\
    exists rs,
      List.length rs = List.length cs /\
      trace (snd r) = (trace s ++ map removal (combine cs rs))%list.
Proof.
  induction 1 as [|c cs Hc Hcs IH]; intros s; cbn [for_each].
  - cbn. repeat split. exists []. split; [reflexivity|]. now rewrite app_nil_r.
  - destruct (docker_stop_returns rm_returns c s Hc) as (r & w & Hstop).
    rewrite (bind_ok _ _ _ _ _ Hstop).
    match goal with |- context [for_each cs _ ?s1] =>
      destruct (IH s1) as (Hok & Hv & rs & Hlen & Htr);
      destruct (for_each cs (fun c0 => Compare.docker_stop (Some c0)) s1) as [r1 s2]
    end.
    cbn [fst snd trace] in *. repeat split; try assumption.
    exists (r :: rs). split; [cbn; lia|].
    rewrite Htr, <- app_assoc. reflexivity.
Qed.

Lemma stop_processes_once (ps : list proc) :
  forall s : state W,
    let r := for_each ps Compare.stop_process s in
    fst r = Ok tt /\ vars (snd r) = vars s /\
    exists bs,
      List.length bs = List.length ps /\
      trace (snd r) = (trace s ++ flat_map stopping (combine ps bs))%list.
Proof.
  induction ps as [|p ps IH]; intros s; cbn [for_each].
  - cbn. repeat split. exists []. split; [reflexivity|]. now rewrite app_nil_r.
  - pose proof (stop_process_unfold p s) as Hstop.
    destruct (os_wait p 5 (os_terminate p (world s))) as [b w].
    rewrite (bind_ok _ _ _ _ _ Hstop).
    match goal with |- context [for_each ps _ ?s1] =>
      destruct (IH s1) as (Hok & Hv & bs & Hlen & Htr);
      destruct (for_each ps Compare.stop_process s1) as [r1 s2]
    end.
    cbn [fst snd trace] in *. repeat split; try assumption.
    exists (b :: bs). split; [cbn; lia|].
    rewrite Htr, <- app_assoc. reflexivity.
Qed.

Lemma cleanup_once (s : state W) :
  Forall (fun c => nonempty c = true) (containers s) ->
  exists rs bs sf,
    List.length rs = List.length (containers s) /\
    List.length bs = List.length (processes s) /\
    Compare.cleanup s = (Ok tt, sf) /\ vars sf = vars s /\
    trace sf
    = (trace s ++ EvLog "Cleaning up..."
       :: map removal (combine (containers s) rs)
       ++ flat_map stopping (combine (processes s) bs))%list.
Proof.
  intros Hne.
  unfold Compare.cleanup. unfold bind at 1, log, emit.
  cbn [fst snd]. unfold bind at 1, get. cbn [fst snd containers].
  set (s1 := State (world s) (trace s ++ [EvLog "Cleaning up..."]) (all_results s)
                   (containers s) (processes s)).
  unfold bind at 1.
  destruct (stop_containers_once (containers s) Hne s1) as (Hok & Hv & rs & Hlr & Htrc).
  destruct (for_each (containers s) (fun c => Compare.docker_stop (Some c)) s1) as [r1 s2].
  cbn [fst snd] in *. subst r1. unfold bind, get. cbn [fst snd].
  unfold vars in Hv. inversion Hv as [[Ha Hc Hp]]. subst s1. cbn [processes trace] in *.
  rewrite Hp.
  destruct (stop_processes_once (processes s) s2) as (Hok2 & Hv2 & bs & Hlb & Htrp).
  destruct (for_each (processes s) Compare.stop_process s2) as [r2 s3].
  cbn [fst snd] in *. subst r2.
  exists rs, bs, s3.
  rewrite ?Hc, ?Hp.
  split; [exact Hlr|]. split; [exact Hlb|]. split; [reflexivity|]. split.
  - rewrite Hv2. unfold vars. congruence.
  - rewrite Htrp, Htrc, <- !app_assoc. reflexivity.
Qed.

End OnceCleanup.

(** X5: each handle is released exactly once.  From a state in which
    the two lists of [main] hold the handles created so far, the [try]
    statement of [main] ends, whatever happened in its loop, with a
    cleanup phase that is, after "Cleaning up...", one [docker rm -f]
    for each container that was started, in the order of the starts,
    followed by one [terminate], [wait(5)] and, when the wait timed out,
    [kill] for each process that was spawned, in the order of the
    spawns; and nothing else. *)
Theorem every_handle_released_once :
  forall (W : Type) (os : OS W) (a : Compare.args) (s : state W),
    docker_rm_returns ->
    recorded s -> Forall (fun c => nonempty c = true) (containers s) ->
    let s1 := snd (for_each (Compare.frameworks a) (Compare.process_target a) s) in
    let cs := started_in (trace s1) in
    let ps := spawned_in (trace s1) in
    exists rs bs,
      List.length rs = List.length cs /\ List.length bs = List.length ps /\
      trace (snd (Compare.main_try a s))
      = (trace s1 ++ EvLog "Cleaning up..."
         :: map removal (combine cs rs) ++ flat_map stopping (combine ps bs))%list.
Proof.
  intros W os a s Hrm Hrec Hne s1 cs ps.
  assert (Hrec1 : recorded s1) by (apply (loop_keeps_recorded a s); exact Hrec).
  assert (Htr1 : tracked s1).
  { apply (loop_keeps_tracked a s). now apply recorded_tracked. }
  destruct Hrec1 as [Hc1 Hp1]. destruct Htr1 as (_ & _ & Hne1).
  destruct (cleanup_once Hrm s1 Hne1) as (rs & bs & sf & Hlr & Hlb & Hcl & _ & Htr).
  exists rs, bs. subst cs ps. rewrite <- Hc1, <- Hp1.
  repeat split; try assumption.
  rewrite main_try_state. fold s1. rewrite Hcl. exact Htr.
Qed.

(** A witness of X5: two targets in containers on the machine where
    every command succeeds. *)
Lemma every_handle_released_once_witness :
  let a := Compare.Args [metassr; nextjs] "out" true false in
  let s1 := snd (for_each (W := machine) (Compare.frameworks a)
                   (@Compare.process_target machine good_os a) (state0 machine0)) in
  started_in (trace s1) = ["metassr-bench-run"; "nextjs-bench-run"] /\
  exists rs bs,
    List.length rs = List.length (started_in (trace s1)) /\
    List.length bs = List.length (spawned_in (trace s1)) /\
    trace (snd (@Compare.main_try machine good_os a (state0 machine0)))
    = (trace s1 ++ EvLog "Cleaning up..."
       :: map removal (combine (started_in (trace s1)) rs)
       ++ flat_map stopping (combine (spawned_in (trace s1)) bs))%list.
Proof.
  intros a s1. split; [vm_compute; reflexivity|].
  exact (every_handle_released_once machine good_os a (state0 machine0)
           good_os_rm_returns (conj eq_refl eq_refl) (Forall_nil _)).
Defined.

(** ** The scenarios of a target *)

Lemma runs_in_app (l1 l2 : list event) :
  runs_in (l1 ++ l2) = (runs_in l1 ++ runs_in l2)%list.
Proof. apply flat_map_app. Qed.

Section Scenarios.
Context {W : Type} `{OS W}.


End Scenarios.


(** ** Local builds *)

(** Some list of at most seven elements, with which [tac] solves the
    goal. *)
Ltac with_list tac :=
  first [ solve [exists []; tac] | solve [eexists [_]; tac]
        | solve [eexists [_; _]; tac] | solve [eexists [_; _; _]; tac]
        | solve [eexists [_; _; _; _]; tac] | solve [eexists [_; _; _; _; _]; tac]
        | solve [eexists [_; _; _; _; _; _]; tac]
        | solve [eexists [_; _; _; _; _; _; _]; tac] ].

(** X7: [local_build] stops at its first failure.  It runs [npm] and
    [cargo] commands only.  It returns [True] only when the directory of
    the application exists and every command it has run, [npm install]
    first, came back with the return code 0.  It returns [False] either
    at once, having run nothing, when the directory is missing, or after
    a command that came back with another return code, every command
    before having come back with 0; in both cases the last thing it does
    is to report the error.  An exception is the one of the last command
    it has run. *)
Theorem local_build_stops_at_first_failure :
  forall (W : Type) (os : OS W) (k : fw_key) (s : state W),
    let dir := path_join Compare.COMPARE_DIR (Compare.app_dir (Compare.FRAMEWORKS k)) in
    let r := Compare.local_build k s in
    vars (snd r) = vars s /\
    exists evs,
      trace (snd r) = (trace s ++ evs)%list /\
      Forall (fun co => build_command co = true) (runs_in evs) /\
      match fst r with
      | Ok true =>
          os_exists dir (world s) = true /\
          Forall (fun co => succeeded co = true) (runs_in evs) /\
          exists rest, map fst (runs_in evs) = ["npm"; "install"] :: rest
      | Ok false =>
          (os_exists dir (world s) = false /\
           evs = [EvError ("App directory not found: " ++ dir)]) \/
          (exists pre cmd out evs0 msg,
             runs_in evs = (pre ++ [(cmd, Returns out)])%list /\
             Forall (fun co => succeeded co = true) pre /\
             returncode out <> 0 /\
             evs = (evs0 ++ [EvError msg])%list)
      | Raise e =>
          exists pre cmd,
            runs_in evs = (pre ++ [(cmd, Throws e)])%list /\
            Forall (fun co => succeeded co = true) pre
      end.
Proof.
  intros W os k s dir r. subst r dir.
  destruct (Compare.local_build k s) as [res sf] eqn:E. cbn [fst snd].
  unfold Compare.local_build in E. cbv zeta in E.
  unfold bind, path_exists, shutil_which, subprocess_run, log, error, emit, ret in E.
  cbn [fst snd world trace all_results containers processes] in E.
  destruct (os_exists _ (world s)) eqn:Edir; cbn [negb] in E.
  2: { inversion E; subst. split; [reflexivity|]. eexists. split; [reflexivity|].
       split; [constructor|]. left. now split. }
  repeat (cbv beta iota zeta in E;
          cbn [fst snd world trace all_results containers processes negb] in E;
          match type of E with
          | context [os_run ?c ?d ?wd] => destruct (os_run c d wd) as [[?|?] ?]
          | context [returncode ?r =? 0] => destruct (returncode r =? 0) eqn:?
          | context [os_which ?n ?wd] => destruct (os_which n wd)
          | context [os_exists ?p ?wd] => destruct (os_exists p wd)
          | context [match ?x with metassr => _ | nextjs => _ end] => destruct x
          end).
  all: cbv beta iota zeta in E;
    cbn [fst snd world trace all_results containers processes negb] in E.
  all: inversion E; subst; clear E.
  all: split; [reflexivity|].
  all: eexists; split; [rewrite <- ?app_assoc; reflexivity|].
  all: split; [cbn; repeat constructor|].
  all: cbn [app runs_in flat_map].
  all: try (split; [reflexivity|]; split;
            [repeat constructor; assumption | eexists; reflexivity]).
  all: try (right;
            with_list ltac:(do 2 eexists;
              with_list ltac:(eexists;
                split; [reflexivity|];
                split; [repeat constructor; assumption|];
                split; [now apply Z.eqb_neq | reflexivity])); fail).
  all: with_list ltac:(eexists; split; [reflexivity | repeat constructor; assumption]).
Qed.


(** ** A target in a container *)

(** X8: with [--docker], a target is built, then started, then
    measured, and what fails ends its turn.  The first command of the
    turn is the [docker build] of its image; when that does not come
    back with 0 nothing else is run and the lists of [main] are left as
    they were.  Otherwise the stale container is removed and
    [docker run] follows; when that does not come back with 0 nothing
    else is run either, and otherwise the name of the container is
    appended to [containers] before anything else is run. *)
Theorem docker_target_stops_at_first_failure :
  forall (W : Type) (os : OS W) (a : Compare.args) (k : fw_key) (s : state W),
    Compare.docker a = true ->
    let fw := Compare.FRAMEWORKS k in
    let c := Compare.container_of fw in
    let r := Compare.process_target a k s in
    exists evs o1 rest1,
      trace (snd r) = (trace s ++ evs)%list /\
      runs_in evs = (docker_build_cmd fw, o1) :: rest1 /\
      (probe_ok o1 = false -> rest1 = [] /\ vars (snd r) = vars s) /\
      (probe_ok o1 = true ->
       exists o2 rest2,
         rest1 = (Compare.docker_rm c, o2) :: rest2 /\
         match o2 with
         | Throws _ => rest2 = [] /\ vars (snd r) = vars s
         | Returns _ =>
             exists o3 rest3,
               rest2 = (Compare.docker_run fw, o3) :: rest3 /\
               (probe_ok o3 = false -> rest3 = [] /\ vars (snd r) = vars s) /\
               (probe_ok o3 = true ->
                containers (snd r) = (containers s ++ [c])%list /\
                processes (snd r) = processes s)
         end).
Proof.
  intros W os [fs out d sb] k s Hd fw c r. cbn [Compare.docker] in Hd. subst d r.
  destruct (Compare.process_target (Compare.Args fs out true sb) k s)
    as [res sf] eqn:E. cbn [fst snd].
  unfold Compare.process_target, Compare.docker_build, Compare.docker_start in E.
  cbn [Compare.docker] in E. cbv zeta in E. fold fw in E. fold c in E.
  unfold bind, print, log, error, emit, subprocess_run, containers_append, ret in E.
  repeat (cbv beta iota zeta in E;
          cbn [fst snd world trace all_results containers processes negb] in E;
          match type of E with
          | context [os_run ?cmd ?d ?wd] => destruct (os_run cmd d wd) as [[?|?] ?]
          | context [returncode ?x =? 0] => destruct (returncode x =? 0) eqn:?
          end).
  all: cbv beta iota zeta in E;
    cbn [fst snd world trace all_results containers processes negb] in E.
  all: lazymatch type of E with
       | Compare.measure ?k0 ?st = _ =>
           destruct (measure_is_quiet k0 st) as (evs' & Htr & _ & Hc & Hp);
           rewrite E in Htr, Hc, Hp; unfold vars in Hc, Hp;
           cbn [fst snd trace containers processes] in Htr, Hc, Hp;
           eexists (([_] ++ [_] ++ [_] ++ [_] ++ [_] ++ [_]) ++ evs')%list;
           do 2 eexists;
           split; [rewrite Htr, <- !app_assoc; reflexivity|];
           split; [rewrite runs_in_app; reflexivity|]
       | _ =>
           inversion E; subst res sf; clear E;
           do 3 eexists;
           split; [cbn [trace]; rewrite <- !app_assoc; reflexivity|];
           split; [reflexivity|]
       end.
  all: cbn [probe_ok].
  all: split; [intros Hf; first [congruence | split; reflexivity]|].
  all: intros Ht; try congruence.
  all: do 2 eexists; split; [reflexivity|].
  all: try (split; reflexivity).
  all: do 2 eexists; split; [reflexivity|].
  all: cbn [probe_ok].
  all: split; [intros Hf; first [congruence | split; reflexivity]|].
  all: intros Ht'; first [congruence | split; assumption].
Qed.

(** A witness of X8: Next.js on the machine where its image cannot be
    built. *)
Lemma docker_target_stops_at_first_failure_witness :
  let a := Compare.Args [nextjs] "out" true false in
  let r := @Compare.process_target machine half_os a nextjs (state0 machine0) in
  exists evs o1 rest1,
    trace (snd r) = ([] ++ evs)%list /\
    runs_in evs
    = (@docker_build_cmd machine half_os (Compare.FRAMEWORKS nextjs), o1) :: rest1 /\
    probe_ok o1 = false /\ rest1 = [] /\ vars (snd r) = vars (state0 machine0).
Proof.
  intros a r.
  destruct (docker_target_stops_at_first_failure machine half_os a nextjs
              (state0 machine0) eq_refl) as (evs & o1 & rest1 & Htr & Hruns & Hfail & _).
  assert (Ho : probe_ok o1 = false).
  { assert (Hev : evs = trace (snd r)) by (symmetry; exact Htr).
    rewrite Hev in Hruns. vm_compute in Hruns. inversion Hruns. reflexivity. }
  exists evs, o1, rest1. repeat split; try assumption; now apply Hfail.
Defined.

(** ** [str.strip] and [str.split] *)

Lemma split_ws_spaces (ws s : string) :
  all_chars is_space ws = true -> split_ws (ws ++ s) = split_ws s.
Proof.
  induction ws as [|c ws IH]; intros Hws; [reflexivity|].
  cbn [all_chars] in Hws. apply andb_true_iff in Hws as [Hc Hws].
  cbn [append split_ws]. rewrite Hc. auto.
Qed.

Lemma split_ws_all_spaces (ws : string) :
  all_chars is_space ws = true -> split_ws ws = [].
Proof.
  intros Hws. rewrite <- (append_nil_r ws). now rewrite split_ws_spaces.
Qed.

(** A word, up to white space or the end, is the first item. *)
Lemma split_ws_word (w rest : string) :
  all_chars not_space w = true -> nonempty w = true ->
  stops not_space rest = true ->
  split_ws (w ++ rest) = w :: split_ws rest.
Proof.
  induction w as [|c w IH]; intros Hw Hne Hrest; [discriminate|].
  cbn [all_chars] in Hw. apply andb_true_iff in Hw as [Hc Hw].
  unfold not_space in Hc. apply negb_true_iff in Hc.
  cbn [append split_ws]. rewrite Hc.
  destruct w as [|c' w].
  - cbn [append]. destruct rest as [|b rest]; [reflexivity|].
    cbn [stops] in Hrest. unfold not_space in Hrest.
    rewrite negb_involutive in Hrest. now rewrite Hrest.
  - specialize (IH Hw eq_refl Hrest).
    cbn [append] in *. cbn [all_chars] in Hw.
    apply andb_true_iff in Hw as [Hc' _]. unfold not_space in Hc'.
    apply negb_true_iff in Hc'. rewrite Hc'. now rewrite IH.
Qed.

Lemma split_ws_lstrip (s : string) : split_ws (lstrip_with is_space s) = split_ws s.
Proof.
  induction s as [|c s IH]; [reflexivity|].
  cbn [lstrip_with]. destruct (is_space c) eqn:Hc; [|reflexivity].
  cbn [split_ws]. now rewrite Hc.
Qed.

(** What [rstrip] leaves: nothing of a string of white space, and its
    first character otherwise. *)
Lemma rstrip_head (s : string) :
  (rstrip_with is_space s = "" /\ all_chars is_space s = true) \/
  (exists c t r, s = String c t /\ rstrip_with is_space s = String c r).
Proof.
  induction s as [|c s IH]; [left; now split|].
  cbn [rstrip_with all_chars].
  destruct (rstrip_with is_space s) as [|c' r] eqn:Hr.
  - destruct IH as [[_ Hall]|(c0 & t & r0 & _ & H0)]; [|discriminate].
    destruct (is_space c) eqn:Hc.
    + left. now rewrite Hall.
    + right. now exists c, s, "".
  - right. now exists c, s, (String c' r).
Qed.

Lemma split_ws_cons2 (c c' : ascii) (x : string) :
  split_ws (String c (String c' x))
  = if is_space c then split_ws (String c' x)
    else if is_space c' then String c "" :: split_ws (String c' x)
    else match split_ws (String c' x) with
         | w :: ws => String c w :: ws
         | [] => [String c ""]
         end.
Proof. reflexivity. Qed.

Lemma split_ws_rstrip (s : string) : split_ws (rstrip_with is_space s) = split_ws s.
Proof.
  induction s as [|c s IH]; [reflexivity|].
  cbn [rstrip_with].
  destruct (rstrip_head s) as [[Hr Hall]|(c' & t & r & -> & Hr)].
  - rewrite Hr. cbn [split_ws]. destruct (is_space c) eqn:Hc.
    + cbn [split_ws]. now rewrite split_ws_all_spaces.
    + cbn [split_ws]. rewrite Hc.
      destruct s as [|b s]; [reflexivity|].
      cbn [all_chars] in Hall. apply andb_true_iff in Hall as [Hb Hall].
      rewrite Hb. cbn [split_ws]. rewrite Hb. now rewrite split_ws_all_spaces.
  - rewrite Hr in *. rewrite !split_ws_cons2, IH. reflexivity.
Qed.

(** Stripping a text does not change its words. *)
Lemma split_ws_strip (s : string) : split_ws (strip s) = split_ws s.
Proof. unfold strip, strip_with. now rewrite split_ws_rstrip, split_ws_lstrip. Qed.

Lemma lstrip_all_spaces (s : string) :
  all_chars is_space s = true -> lstrip_with is_space s = "".
Proof.
  induction s as [|c s IH]; [reflexivity|]. cbn [all_chars lstrip_with].
  intros Hs. apply andb_true_iff in Hs as [-> Hs]. auto.
Qed.

Lemma split_ws_nil (s : string) : split_ws s = [] -> all_chars is_space s = true.
Proof.
  induction s as [|c s IH]; [reflexivity|]. cbn [split_ws all_chars].
  destruct (is_space c); [exact IH|].
  destruct s as [|b s]; [discriminate|].
  destruct (is_space b); [discriminate|].
  destruct (split_ws (String b s)); discriminate.
Qed.

(** A text has a word exactly when something is left of it once it is
    stripped. *)
Lemma nonempty_strip (s : string) :
  nonempty (strip s) = match split_ws s with [] => false | _ => true end.
Proof.
  destruct (split_ws s) as [|w ws] eqn:Hs.
  - unfold strip, strip_with. now rewrite lstrip_all_spaces by now apply split_ws_nil.
  - destruct (strip s) eqn:Hst; [|reflexivity].
    pose proof (split_ws_strip s) as H. rewrite Hst, Hs in H. discriminate.
Qed.

(** ** The process of the server *)

(** X9: [get_server_pid] runs [lsof -ti :<port>] and nothing else, and
    never raises.  It returns the first word of what [lsof] printed,
    read as an [int], when [lsof] came back with the return code 0 and
    that word is an [int] literal; in every other case ([lsof] cannot
    be run, another return code, blank output, a first word that is no
    number) it returns [None]. *)
Theorem get_server_pid_reads_first_word :
  forall (W : Type) (os : OS W) (host : Host W) (port : Z) (s : state W),
    let cmd := ["lsof"; "-ti"; ":" ++ str_of_Z port] in
    let o := fst (os_run cmd None (world s)) in
    let r := BenchmarkMore.get_server_pid port s in
    trace (snd r) = (trace s ++ [EvRun cmd None o])%list /\
    vars (snd r) = vars s /\
    fst r = Ok (match o with
                | Returns out =>
                    if returncode out =? 0 then
                      match split_ws (stdout out) with
                      | word :: _ => int_of_str word
                      | [] => None
                      end
                    else None
                | Throws _ => None
                end).
Proof.
  intros W os host port s cmd o r. subst r o.
  unfold BenchmarkMore.get_server_pid, try_except, bind, subprocess_run, ret.
  fold cmd. destruct (os_run cmd None (world s)) as [[out|e] w]; cbn [fst snd trace].
  2: now repeat split.
  rewrite nonempty_strip. unfold BenchmarkMore.pid_of_lsof. rewrite split_ws_strip.
  destruct (returncode out =? 0); cbn [andb]; [|now repeat split].
  destruct (split_ws (stdout out)) as [|word ws]; now repeat split.
Qed.

(** ** The memory of the server *)

(** The first line that meets the condition decides. *)
Lemma scan_lines_first {A} (cond : string -> bool) (value : string -> option A)
    (pre : list string) (line : string) (post : file) :
  Forall (fun l => cond l = false) pre -> cond line = true ->
  scan_lines cond value (map Some pre ++ Some line :: post)%list
  = match value line with
    | Some a => Found a
    | None => Raised
    end.
Proof.
  intros Hpre Hline. induction Hpre as [|l pre Hl _ IH]; cbn [map app scan_lines].
  - now rewrite Hline.
  - now rewrite Hl.
Qed.

Lemma stops_not_space_spaces (ws s : string) :
  all_chars is_space ws = true -> nonempty ws = true ->
  stops not_space (ws ++ s) = true.
Proof.
  destruct ws as [|c ws]; [discriminate|]. cbn [all_chars append stops].
  intros Hws _. apply andb_true_iff in Hws as [Hc _].
  unfold not_space. now rewrite Hc.
Qed.

(** The first two words of a line. *)
Lemma split_ws_two (w1 ws w2 rest : string) :
  all_chars not_space w1 = true -> nonempty w1 = true ->
  all_chars is_space ws = true -> nonempty ws = true ->
  all_chars not_space w2 = true -> nonempty w2 = true ->
  stops not_space rest = true ->
  split_ws (w1 ++ ws ++ w2 ++ rest) = w1 :: w2 :: split_ws rest.
Proof.
  intros H1 H10 Hws Hws0 H2 H20 Hrest.
  rewrite (split_ws_word w1) by auto using stops_not_space_spaces.
  rewrite split_ws_spaces by exact Hws.
  now rewrite (split_ws_word w2).
Qed.

Ltac mem_done :=
  cbn [fst snd trace];
  split; [reflexivity|];
  split; [reflexivity|];
  split; [rewrite ?app_nil_r; reflexivity|];
  split; [cbn; lia|];
  split; [repeat constructor|];
  split;
  [ intros [Hp|Hp];
    [ first [discriminate Hp | split; reflexivity]
    | inversion Hp; subst; first [discriminate | split; reflexivity] ]
  | intros Hl; first [reflexivity | contradiction] ].

(** [get_memory_usage] cannot fail: it returns a number, keeps the
    lists of the run, and runs at most one command, which is [ps]. *)
Lemma get_memory_usage_quiet {W : Type} {os : OS W} {host : Host W}
    (pid : option Z) (s : state W) :
  let r := BenchmarkMore.get_memory_usage pid s in
  exists mb evs,
    fst r = Ok mb /\ vars (snd r) = vars s /\
    trace (snd r) = (trace s ++ evs)%list /\
    (List.length evs <= 1)%nat /\ Forall (fun e => runs "ps" e = true) evs /\
    (pid = None \/ pid = Some 0 -> mb = 0%float /\ evs = []) /\
    (platform_system (world s) = "Linux" -> snd r = s).
Proof.
  intros r. subst r.
  destruct (BenchmarkMore.get_memory_usage pid s) as [res sf] eqn:E.
  cbn [fst snd].
  unfold BenchmarkMore.get_memory_usage, bind, get, try_except, subprocess_run, ret in E.
  destruct pid as [n|]; [|inversion E; subst; exists 0%float, []; mem_done].
  destruct (n =? 0) eqn:Hn; [inversion E; subst; exists 0%float, []; mem_done|].
  cbn [fst snd] in E.
  destruct (String.eqb (platform_system (world s)) "Linux") eqn:Hsys.
  { destruct (os_open _ (world s)); inversion E; subst; eexists; exists []; mem_done. }
  assert (Hnl : platform_system (world s) <> "Linux")
    by (now apply String.eqb_neq).
  destruct (String.eqb (platform_system (world s)) "Darwin");
    [|inversion E; subst; exists 0%float, []; mem_done].
  destruct (os_run _ None (world s)) as [[out|e] w]; cbn [fst snd] in E.
  + destruct (returncode out =? 0);
      [destruct (BenchmarkMore.rss_mb_of_ps (stdout out))|];
      inversion E; subst; eexists; eexists [_]; mem_done.
  + inversion E; subst; eexists; eexists [_]; mem_done.
Qed.

(** X10: [get_memory_usage] never raises and leaves the lists of the
    run alone.  Without a PID ([None] or 0) it returns 0 and does
    nothing; on Linux it runs no command, and on any host at most one,
    which is [ps].  On Linux, when the status file of the process can
    be read up to its first line that starts with "VmRSS:", and the
    second word of that line is the resident set in kB, it returns that
    number divided by 1024; when that word is no [int] literal, or the
    quotient is too large for a [float], it returns 0. *)
Theorem get_memory_usage_reads_vmrss :
  forall (W : Type) (os : OS W) (host : Host W),
    (forall (pid : option Z) (s : state W),
       let r := BenchmarkMore.get_memory_usage pid s in
       exists mb evs,
         fst r = Ok mb /\ vars (snd r) = vars s /\
         trace (snd r) = (trace s ++ evs)%list /\
         (List.length evs <= 1)%nat /\ Forall (fun e => runs "ps" e = true) evs /\
         (pid = None \/ pid = Some 0 -> mb = 0%float /\ evs = []) /\
         (platform_system (world s) = "Linux" -> snd r = s)) /\
    (forall (n : Z) (s : state W) (pre : list string) (ws word rest : string)
            (post : file),
       n <> 0 -> platform_system (world s) = "Linux" ->
       os_open ("/proc/" ++ str_of_Z n ++ "/status") (world s)
       = Some (List.app (map Some pre)
                 (Some ("VmRSS:" ++ ws ++ word ++ rest) :: post)) ->
       Forall (fun l => startswith "VmRSS:" l = false) pre ->
       all_chars is_space ws = true -> nonempty ws = true ->
       all_chars not_space word = true -> nonempty word = true ->
       stops not_space rest = true ->
       BenchmarkMore.get_memory_usage (Some n) s
       = (Ok (match int_of_str word with
              | Some kb =>
                  match int_truediv kb 1024 with
                  | Some mb => mb
                  | None => 0%float
                  end
              | None => 0%float
              end), s)).
Proof.
  intros W os host. split.
  - intros pid s. exact (get_memory_usage_quiet pid s).
  - intros n s pre ws word rest post Hn Hsys Hopen Hpre Hws Hws0 Hw Hw0 Hrest.
    unfold BenchmarkMore.get_memory_usage.
    apply Z.eqb_neq in Hn. rewrite Hn.
    unfold bind, get, ret. cbn [fst snd]. rewrite Hsys.
    change (String.eqb "Linux" "Linux") with true. cbv beta iota.
    match goal with |- context [os_open ?p ?w] =>
      destruct (os_open p w) as [f|] eqn:Eo
    end; [|congruence].
    assert (Hf : f = List.app (map Some pre)
                       (Some ("VmRSS:" ++ ws ++ word ++ rest) :: post)) by congruence.
    subst f.
    unfold BenchmarkMore.vmrss_mb.
    rewrite scan_lines_first;
      [|exact Hpre | unfold startswith; now rewrite strip_prefix_append].
    unfold BenchmarkMore.rss_mb_of_line.
    rewrite (split_ws_two "VmRSS:" ws word rest) by auto.
    cbn [item_at nth_error].
    destruct (int_of_str word) as [kb|]; [|reflexivity].
    destruct (int_truediv kb 1024); reflexivity.
Qed.

(** A witness of X10: the server of the machine, with 123456 kB. *)
Lemma get_memory_usage_reads_vmrss_witness :
  @BenchmarkMore.get_memory_usage machine good_os machine_host (Some 4242)
    (state0 machine0)
  = (Ok 120.5625%float, state0 machine0).
Proof.
  exact (proj2 (get_memory_usage_reads_vmrss machine good_os machine_host)
           4242 (state0 machine0) ["Name:" ++ TAB ++ "node" ++ nl]
           (TAB ++ "  ") "123456" (" kB" ++ nl) []
           ltac:(discriminate) eq_refl eq_refl
           ltac:(repeat constructor) eq_refl eq_refl eq_refl eq_refl eq_refl).
Defined.

(** ** The information on the system *)

(** X11: on Linux the [get_system_info] of the two scripts read the
    same two files and agree on the system, the architecture, the cores
    and the CPU ("Unknown" unless a line with "model name" is found and
    read).  They differ on the memory: in [benchmark.py] it is what the
    first line of [/proc/meminfo] with "MemTotal" gives, and 0 when that
    cannot be read; in [compare.py] it is 0 as well whenever the
    reading of the CPU has raised (the file cannot be opened or read,
    or the line has no colon), since one [try] encloses both readings.
    Neither raises, and the one of [benchmark.py] runs no command
    there. *)
Theorem get_system_info_of_both_scripts :
  forall (W : Type) (os : OS W) (host : Host W) (s : state W),
    platform_system (world s) = "Linux" ->
    let cpu := scan_file "/proc/cpuinfo" (contains "model name") cpu_of_line (world s) in
    let mem := scan_file "/proc/meminfo" (contains "MemTotal") memory_gb_of_line
                 (world s) in
    let c := CompareMore.get_system_info (world s) in
    exists b,
      BenchmarkMore.get_system_info s = (Ok b, s) /\
      BenchmarkMore.hi_os b = si_os c /\
      BenchmarkMore.hi_os_version b = si_os_version c /\
      BenchmarkMore.hi_arch b = si_arch c /\
      BenchmarkMore.hi_cpu_cores b = si_cpu_cores c /\
      BenchmarkMore.hi_cpu b = found_or "Unknown" cpu /\
      si_cpu c = found_or "Unknown" cpu /\
      BenchmarkMore.hi_memory_gb b = found_or 0%float mem /\
      si_memory_gb c = match cpu with
                       | Raised => 0%float
                       | _ => found_or 0%float mem
                       end.
Proof.
  intros W os host s Hsys cpu mem c. subst cpu mem c.
  unfold BenchmarkMore.get_system_info, BenchmarkMore.cpu_info,
    BenchmarkMore.memory_info, CompareMore.get_system_info, scan_file,
    try_except, bind, get, ret.
  cbn [fst snd]. rewrite !Hsys. change (String.eqb "Linux" "Linux") with true.
  cbv beta iota zeta.
  destruct (os_open "/proc/cpuinfo" (world s)) as [f1|];
    [destruct (scan_lines (contains "model name") cpu_of_line f1)|];
    cbv beta iota zeta; cbn [fst snd]; rewrite ?Hsys;
    change (String.eqb "Linux" "Linux") with true; cbv beta iota zeta.
  all: destruct (os_open "/proc/meminfo" (world s)) as [f2|];
    [destruct (scan_lines (contains "MemTotal") memory_gb_of_line f2)|];
    cbv beta iota zeta; cbn [fst snd].
  all: eexists; (split; [reflexivity|]); repeat split; try reflexivity.
Qed.

(** A witness of X11: the machine, with 16384000 kB, which are 15.6
    GB. *)
Lemma get_system_info_of_both_scripts_witness :
  exists b,
    @BenchmarkMore.get_system_info machine good_os machine_host (state0 machine0)
    = (Ok b, state0 machine0) /\
    BenchmarkMore.hi_cpu b = "Example CPU @ 2.60GHz" /\
    si_cpu (@CompareMore.get_system_info machine machine_host machine0)
    = "Example CPU @ 2.60GHz" /\
    BenchmarkMore.hi_memory_gb b = 0x1.f333333333333p+3%float /\
    si_memory_gb (@CompareMore.get_system_info machine machine_host machine0)
    = 0x1.f333333333333p+3%float.
Proof.
  destruct (get_system_info_of_both_scripts machine good_os machine_host
              (state0 machine0) eq_refl)
    as (b & Hb & _ & _ & _ & _ & Hcpu & Hcpu' & Hmem & Hmem').
  exists b. split; [exact Hb|].
  split; [etransitivity; [exact Hcpu | vm_compute; reflexivity]|].
  split; [etransitivity; [exact Hcpu' | vm_compute; reflexivity]|].
  split; [etransitivity; [exact Hmem | vm_compute; reflexivity]|].
  etransitivity; [exact Hmem' | vm_compute; reflexivity].
Defined.

Lemma split_on_value (v rest : string) :
  all_chars not_colon v = true -> stops not_colon rest = true ->
  exists tl, split_on ":" (v ++ rest) = v :: tl.
Proof.
  induction v as [|c v IH]; intros Hv Hrest.
  - destruct rest as [|b rest]; [now exists []|].
    cbn [stops] in Hrest. unfold not_colon in Hrest.
    rewrite negb_involutive in Hrest. cbn [append split_on]. rewrite Hrest.
    now eexists.
  - cbn [all_chars] in Hv. apply andb_true_iff in Hv as [Hc Hv].
    unfold not_colon in Hc. apply negb_true_iff in Hc.
    destruct (IH Hv Hrest) as [tl Htl].
    cbn [append split_on]. rewrite Hc, Htl. now eexists.
Qed.

Lemma split_on_key (key s : string) :
  all_chars not_colon key = true ->
  split_on ":" (key ++ ":" ++ s) = key :: split_on ":" s.
Proof.
  induction key as [|c key IH]; intros Hk; [reflexivity|].
  cbn [all_chars] in Hk. apply andb_true_iff in Hk as [Hc Hk].
  unfold not_colon in Hc. apply negb_true_iff in Hc.
  cbn [append split_on]. cbn [append] in IH. now rewrite Hc, IH.
Qed.

(** X12: what [get_system_info] takes from a line.  The CPU is what
    stands between the first colon of the line and the second, or the
    end of the line, without the white space around it.  The memory is
    the second word of the line, read as an [int] of kB, divided twice
    by 1024 and rounded to one decimal; a word that is no [int]
    literal, or a number too large for a [float], raises.  In both
    files the first line that holds the key decides, and the lines
    after it are not looked at. *)
Theorem system_info_is_read_from_first_line :
  (forall key value rest : string,
     all_chars not_colon key = true -> all_chars not_colon value = true ->
     stops not_colon rest = true ->
     cpu_of_line (key ++ ":" ++ value ++ rest) = Some (strip value)) /\
  (forall key ws word rest : string,
     all_chars not_space key = true -> nonempty key = true ->
     all_chars is_space ws = true -> nonempty ws = true ->
     all_chars not_space word = true -> nonempty word = true ->
     stops not_space rest = true ->
     memory_gb_of_line (key ++ ws ++ word ++ rest)
     = match int_of_str word with
       | Some kb =>
           match int_truediv kb 1024 with
           | Some x => Some (round1 (x / 1024))
           | None => None
           end
       | None => None
       end) /\
  (forall (A : Type) (cond : string -> bool) (value : string -> option A)
          (pre : list string) (line : string) (post post' : file),
     Forall (fun l => cond l = false) pre -> cond line = true ->
     scan_lines cond value (List.app (map Some pre) (Some line :: post))
     = scan_lines cond value (List.app (map Some pre) (Some line :: post')) /\
     scan_lines cond value (List.app (map Some pre) (Some line :: post))
     = match value line with
       | Some a => Found a
       | None => Raised
       end).
Proof.
  split; [|split].
  - intros key value rest Hk Hv Hrest. unfold cpu_of_line.
    rewrite split_on_key by exact Hk.
    destruct (split_on_value value rest Hv Hrest) as [tl ->]. reflexivity.
  - intros key ws word rest Hk Hk0 Hws Hws0 Hw Hw0 Hrest. unfold memory_gb_of_line.
    now rewrite (split_ws_two key ws word rest).
  - intros A cond value pre line post post' Hpre Hline.
    now rewrite !scan_lines_first.
Qed.

(** A witness of X12: the lines of the machine. *)
Lemma system_info_is_read_from_first_line_witness :
  cpu_of_line ("model name" ++ TAB ++ ":" ++ " Example CPU @ 2.60GHz" ++ nl)
  = Some "Example CPU @ 2.60GHz" /\
  memory_gb_of_line ("MemTotal:" ++ "       " ++ "16384000" ++ " kB" ++ nl)
  = Some 0x1.f333333333333p+3%float.
Proof.
  split.
  - exact (proj1 system_info_is_read_from_first_line ("model name" ++ TAB)
             (" Example CPU @ 2.60GHz" ++ nl) "" eq_refl eq_refl eq_refl).
  - exact (proj1 (proj2 system_info_is_read_from_first_line) "MemTotal:" "       "
             "16384000" (" kB" ++ nl) eq_refl eq_refl eq_refl eq_refl eq_refl eq_refl
             eq_refl).
Defined.

(** ** The dependencies *)

(** The cases of [check_deps], by what each [which] came back with. *)
Ltac check_cases E :=
  repeat (cbv beta iota zeta in E;
          cbn [fst snd world trace all_results containers processes app] in E;
          match type of E with
          | context [os_run ?cmd ?d ?wd] =>
              destruct (os_run cmd d wd) as [[?|?] ?]
          | context [returncode ?x =? 0] =>
              destruct (returncode x =? 0) eqn:?
          end);
  cbv beta iota zeta in E;
  cbn [fst snd world trace all_results containers processes app] in E;
  inversion E; subst; clear E;
  (split; [reflexivity|]);
  eexists; (split; [cbn [trace]; rewrite <- ?app_assoc; reflexivity|]);
  cbn [app runs_in flat_map fst snd];
  first
    [ left; with_list ltac:(do 2 eexists; split; reflexivity)
    | right;
      with_list ltac:(
        split; [reflexivity|];
        split; [reflexivity|];
        unfold missing_of; cbn [combine filter map snd fst];
        repeat match goal with
               | H : (returncode _ =? 0) = _ |- _ => rewrite H; clear H
               end;
        cbn [negb filter map fst];
        first
          [ solve [split; [reflexivity | repeat constructor]]
          | split; [reflexivity|];
            with_list ltac:(split; [reflexivity | repeat constructor]) ]) ].

(** X13: [check_deps] of either script asks [which] for every tool,
    in order ([wrk], [curl] and, in [compare.py] with [--docker],
    [docker]), also after one was not found; it returns when all were
    found, and otherwise reports all that are missing in one message
    and exits with the status 1 ([benchmark.py] prints a hint before
    it does). *)
Theorem check_deps_reports_all_missing :
  forall (W : Type) (os : OS W),
    (forall (use_docker : bool) (s : state W),
       checked (["wrk"; "curl"] ++ (if use_docker then ["docker"] else []))%list []
         s (Compare.check_deps use_docker s)) /\
    (forall s : state W,
       checked ["wrk"; "curl"] [EvPrint "Install with: sudo apt-get install wrk curl"]
         s (BenchmarkMore.check_deps s)).
Proof.
  intros W os. split.
  - intros use_docker s.
    destruct (Compare.check_deps use_docker s) as [res sf] eqn:E.
    unfold Compare.check_deps, bind, subprocess_run, error, emit, raise, ret in E.
    destruct use_docker.
    all: check_cases E.
  - intros s.
    destruct (BenchmarkMore.check_deps s) as [res sf] eqn:E.
    unfold BenchmarkMore.check_deps, bind, subprocess_run, error, print, emit, raise,
      ret in E.
    check_cases E.
Qed.

(** ** One test of [benchmark.py] *)

(** X14: [run_test] prints the scenario, reads the memory of the
    server, runs [wrk] once, with the threads, the connections and the
    duration of the scenario and [--latency], and reads the memory
    again; a reading runs at most one [ps] and cannot fail.  An
    exception of [wrk] ends the test at once, and so does one of the
    parser, after the second reading.  Otherwise the test prints one
    more line and returns the scenario with the metrics parsed from
    the standard output of [wrk] followed by its standard error; the
    memory is 0 when there is no PID.  The lists of the run are as
    before. *)
Theorem run_test_runs_wrk_between_readings :
  forall (W : Type) (os : OS W) (host : Host W)
         (name : string) (threads connections duration : Z) (url : string)
         (server_pid : option Z) (s : state W),
    let r := BenchmarkMore.run_test name threads connections duration url server_pid s in
    let cmd := ["wrk"; "-t" ++ str_of_Z threads; "-c" ++ str_of_Z connections;
                "-d" ++ str_of_Z duration ++ "s"; "--latency"; url] in
    vars (snd r) = vars s /\
    exists (header : string) (before : list event) (o : outcome completed)
           (after rest : list event),
      trace (snd r)
      = (trace s ++ EvPrint header :: before ++ EvRun cmd None o :: after ++ rest)%list /\
      Forall (fun e => runs "ps" e = true) before /\ (List.length before <= 1)%nat /\
      Forall (fun e => runs "ps" e = true) after /\ (List.length after <= 1)%nat /\
      match o with
      | Throws e => fst r = Raise e /\ after = [] /\ rest = []
      | Returns out =>
          match Benchmark.parse_wrk_output (stdout out ++ stderr out) with
          | Raise e => fst r = Raise e /\ rest = []
          | Ok m =>
              exists (memory_mb : float) (line : string),
                fst r = Ok (BenchmarkMore.TestResult name threads connections duration
                              m memory_mb) /\
                rest = [EvPrint line] /\
                (server_pid = None \/ server_pid = Some 0 ->
                 memory_mb = 0%float /\ before = [] /\ after = [])
          end
      end.
Proof.
  intros W os host name threads connections duration url pid s r cmd. subst r cmd.
  destruct (BenchmarkMore.run_test name threads connections duration url pid s)
    as [res sf] eqn:E.
  cbn [fst snd].
  unfold BenchmarkMore.run_test, bind, print, emit, subprocess_run, lift, ret in E.
  match type of E with context [BenchmarkMore.get_memory_usage pid ?st] =>
    pose proof (get_memory_usage_quiet pid st) as H1; cbv zeta in H1;
    destruct (BenchmarkMore.get_memory_usage pid st) as [r1 s1]
  end.
  destruct H1 as (mb1 & evs1 & Hr1 & Hv1 & Ht1 & Hl1 & Hps1 & Hz1 & _).
  cbn [fst snd trace] in Hr1, Hv1, Ht1. subst r1.
  destruct (os_run _ None (world s1)) as [[out|e] w].
  2: { inversion E; subst; clear E. cbn [trace].
       split; [exact Hv1|].
       eexists; exists evs1; eexists; exists [], []. rewrite Ht1.
       split; [rewrite <- ?app_assoc; cbn [app]; rewrite ?app_nil_r; reflexivity|].
       repeat split; auto. }
  match type of E with context [BenchmarkMore.get_memory_usage pid ?st] =>
    pose proof (get_memory_usage_quiet pid st) as H2; cbv zeta in H2;
    destruct (BenchmarkMore.get_memory_usage pid st) as [r2 s2]
  end.
  destruct H2 as (mb2 & evs2 & Hr2 & Hv2 & Ht2 & Hl2 & Hps2 & Hz2 & _).
  cbn [fst snd trace] in Hr2, Hv2, Ht2. subst r2.
  assert (Hv : vars s2 = vars s) by (rewrite Hv2; exact Hv1).
  destruct (Benchmark.parse_wrk_output (stdout out ++ stderr out)) as [m|e] eqn:Em;
    inversion E; subst; clear E; cbn [trace];
    (split; [exact Hv|]);
    eexists; exists evs1; eexists; exists evs2.
  - eexists [_]. rewrite Ht2, Ht1.
    split; [rewrite <- ?app_assoc; cbn [app]; rewrite <- ?app_assoc; reflexivity|].
    cbv beta iota. rewrite Em. repeat split; auto.
    do 2 eexists. split; [reflexivity|]. split; [reflexivity|].
    intros Hp. destruct (Hz1 Hp) as [-> ->], (Hz2 Hp) as [-> ->].
    repeat split.
  - exists []. rewrite Ht2, Ht1.
    split; [rewrite <- ?app_assoc; cbn [app]; rewrite <- ?app_assoc, ?app_nil_r;
            reflexivity|].
    cbv beta iota. rewrite Em. repeat split; auto.
Qed.

(** ** A latency without a unit *)

Section Backoff.
Context {R : Type}.
Variable c : ascii -> bool.
Variable k : string -> option R.

(** Where no [c] follows, a greedy run is empty. *)
Lemma greedy_stop (s : string) : stops c s = true -> greedy c k s = k s.
Proof.
  destruct s as [|a s]; [reflexivity|]. cbn [stops greedy]. intros Ha.
  apply negb_true_iff in Ha. now rewrite Ha.
Qed.

(** A greedy run gives back its last character when the rest of the
    pattern cannot start after the run and can start on that
    character. *)
Lemma greedy_backoff (run : string) (x : ascii) (rest : string) (r : R) :
  all_chars c run = true -> c x = true -> stops c rest = true ->
  k rest = None -> k (String x rest) = Some r ->
  greedy c k (run ++ String x rest) = Some r.
Proof.
  intros Hrun Hx Hstop Hnone Hsome.
  induction run as [|a run IH]; cbn [append greedy].
  - now rewrite Hx, (greedy_stop rest Hstop), Hnone.
  - cbn [all_chars] in Hrun. apply andb_true_iff in Hrun as [Ha Hrun].
    now rewrite Ha, (IH Hrun).
Qed.
End Backoff.

(** A digit is no unit the extractor knows. *)
Lemma digit_is_no_unit (c : ascii) :
  is_digit c = true ->
  is_word c = true /\ is_digit_dot c = true /\
  String.eqb (lower (String c "")) "us" = false /\
  String.eqb (lower (String c "")) "ms" = false /\
  String.eqb (lower (String c "")) "s" = false.
Proof.
  destruct c as [[] [] [] [] [] [] [] []]; intros H; try discriminate H;
    repeat split; reflexivity.
Qed.

(** [[\d.]+] then [\w+] on a number that no unit follows: the last digit
    is taken for the unit, if there is another character before it. *)
Lemma match_number_alone (d : string) (c : ascii) (rest : string) :
  all_chars is_digit_dot d = true -> is_digit c = true ->
  stops is_word rest = true -> stops is_digit_dot rest = true ->
  re_match re_number_unit (d ++ String c rest)
  = if nonempty d then Some [d; String c ""] else None.
Proof.
  intros Hd Hc Hw Hdd.
  destruct (digit_is_no_unit c Hc) as (Hcw & Hcd & _).
  assert (Hnone : forall st, match_here [Plus is_word; GClose] st rest = None).
  { intros st. destruct rest as [|b rest]; [reflexivity|].
    cbn [stops] in Hw. apply negb_true_iff in Hw. cbn [match_here]. now rewrite Hw. }
  unfold re_match, re_number_unit. cbn [match_here].
  destruct d as [|a d]; cbn [append nonempty].
  - rewrite Hcd, (greedy_stop _ _ rest Hdd). cbn [match_here]. apply Hnone.
  - cbn [all_chars] in Hd. apply andb_true_iff in Hd as [Ha Hd]. rewrite Ha.
    erewrite greedy_backoff; [reflexivity | exact Hd | exact Hcd | exact Hdd | |].
    + cbn [match_here]. apply Hnone.
    + cbn [match_here]. rewrite Hcw, (greedy_stop _ _ rest Hw). cbn [match_here].
      unfold gclose, gopen. cbn [gstart groups app].
      change (String a (d ++ String c rest)) with (String a d ++ String c rest).
      rewrite take_captured.
      change (String c rest) with (String c "" ++ rest).
      now rewrite take_captured.
Qed.

(** X15: where no number with a unit is found, [parse_latency_ms] of
    either script does not fail on the text: a latency that does not
    start with a digit or a dot, the empty one too, gives 0.  A number
    that no unit follows (it ends the text, or is followed by a
    character that is neither of a word nor a dot) is read without its
    last digit, which is taken for the unit: what is before that digit
    is handed to [float], so that "250" gives 25 and "1.5 ms" gives 1, a
    lone dot before the digit raises a [ValueError], and a single
    digit gives 0. *)
Theorem latency_without_unit :
  (forall s : string,
     stops is_digit_dot s = true ->
     Compare.parse_latency_ms s = Ok 0%float /\
     Benchmark.parse_latency_ms s = Ok 0%float) /\
  (forall (d : string) (c : ascii) (rest : string),
     all_chars is_digit_dot d = true -> is_digit c = true ->
     stops is_word rest = true -> stops is_digit_dot rest = true ->
     let r := if nonempty d then py_float d else Ok 0%float in
     Compare.parse_latency_ms (d ++ String c rest) = r /\
     Benchmark.parse_latency_ms (d ++ String c rest) = r) /\
  Compare.parse_latency_ms "250" = Ok 25%float /\
  Compare.parse_latency_ms "1.5 ms" = Ok 1%float /\
  Compare.parse_latency_ms ".5" = Raise ValueError /\
  Compare.parse_latency_ms "7" = Ok 0%float.
Proof.
  split; [|split; [|repeat split; vm_compute; reflexivity]].
  - intros s Hs.
    enough (H : Compare.parse_latency_ms s = Ok 0%float) by (split; [exact H | rewrite parse_latency_ms_same; exact H]).
    unfold Compare.parse_latency_ms, re_match, re_number_unit.
    destruct s as [|a s]; [reflexivity|].
    cbn [stops] in Hs. apply negb_true_iff in Hs.
    cbn [nonempty negb match_here]. now rewrite Hs.
  - intros d c rest Hd Hc Hw Hdd r.
    enough (H : Compare.parse_latency_ms (d ++ String c rest) = r) by (split; [exact H | rewrite parse_latency_ms_same; exact H]).
    subst r. unfold Compare.parse_latency_ms.
    assert (Hne : nonempty (d ++ String c rest) = true) by (now destruct d).
    rewrite Hne, (match_number_alone d c rest Hd Hc Hw Hdd). cbn [negb].
    destruct (nonempty d); [|reflexivity].
    unfold group. cbn [Nat.sub nth].
    destruct (py_float d) as [v|e]; [|reflexivity]. cbn [rbind].
    destruct (digit_is_no_unit c Hc) as (_ & _ & -> & -> & ->). reflexivity.
Qed.

(** A witness of X15: "12.5 ms" is read as 12. *)
Lemma latency_without_unit_witness :
  Compare.parse_latency_ms ("12." ++ String "5" " ms") = Ok 12%float /\
  Benchmark.parse_latency_ms ("12." ++ String "5" " ms") = Ok 12%float.
Proof.
  exact (proj1 (proj2 latency_without_unit) "12." "5"%char " ms"
           eq_refl eq_refl eq_refl eq_refl).
Defined.
